(** * ECM1400 COVID dashboard: update scheduling, news store and formatting

    A shallow embedding of the Python modules [update_handler],
    [covid_data_handler] and [covid_news_handling], together with the parts
    of the standard [sched] and [datetime] modules they rely on.

    Conventions of the embedding:
    - Python [str] is [string] (bytes; only ASCII case folding and ASCII
      white space are modelled);
    - [None]-or-[str] values, such as the [repeats] field of an update or
      a URL parameter, are [option string]; truthiness is [truthy];
    - the module-level dictionaries [covid_updates] and [news_updates] are
      [gmap string update]; the lists [news_articles] and
      [blocked_articles] are lists;
    - functions that mutate module state or may raise are computations in
      the monad [py], which threads the state and keeps every mutation made
      before an exception is raised, as Python does;
    - whatever comes from outside the process (the configuration file, the
      clocks, the two web APIs) is read from a [world] record;
    - the float clock [time.time()] is abstracted to an integer number of
      seconds;
    - the name of an update is a [str], as the annotations of the source
      say and as the form of the dashboard sends it;
    - [sched] is the module of CPython 3.10 and later, whose events carry
      a sequence number. *)

From Stdlib Require Import ZArith Ascii String List Lia Bool.
From stdpp Require Import base gmap strings list pretty.

#[local] Set Warnings "-clear-no-such-hyp".

Local Open Scope string_scope.
Local Open Scope list_scope.
Local Open Scope Z_scope.

(** ** Python strings *)

Module PyStr.

(** [str.isspace] on ASCII characters. *)
Definition isspace (c : ascii) : bool :=
  let n := nat_of_ascii c in
  ((9 <=? n) && (n <=? 13) || (28 <=? n) && (n <=? 32))%nat.

Definition lower_char (c : ascii) : ascii :=
  let n := nat_of_ascii c in
  if ((65 <=? n) && (n <=? 90))%nat then ascii_of_nat (n + 32) else c.

(** [s.lower()]. *)
Fixpoint lower (s : string) : string :=
  match s with
  | EmptyString => EmptyString
  | String c s' => String (lower_char c) (lower s')
  end.

(** [" ".join(l)] and friends. *)
Fixpoint join (sep : string) (l : list string) : string :=
  match l with
  | [] => ""
  | [x] => x
  | x :: l' => x +:+ sep +:+ join sep l'
  end.

(** Splitting on a predicate over characters; [cur] is the piece being
    read, in reverse. With [keep_empty] the empty pieces are kept, as
    [s.split(sep)] does; without, they are dropped, as [s.split()]
    does. *)
Fixpoint split_go (is_sep : ascii → bool) (keep_empty : bool)
    (cur : string) (s : string) : list string :=
  let emit (rest : list string) :=
    if keep_empty || negb (String.eqb cur "") then String.rev cur :: rest
    else rest in
  match s with
  | EmptyString => emit []
  | String c s' =>
      if is_sep c then emit (split_go is_sep keep_empty "" s')
      else split_go is_sep keep_empty (String c cur) s'
  end.

(** [s.split()]. *)
Definition split (s : string) : list string := split_go isspace false "" s.

(** [s.split(c)] for a one-character separator. *)
Definition split_on (c : ascii) (s : string) : list string :=
  split_go (Ascii.eqb c) true "" s.

(** [needle in hay]. *)
Fixpoint contains (needle hay : string) : bool :=
  String.prefix needle hay
  || match hay with
     | EmptyString => false
     | String _ hay' => contains needle hay'
     end.

(** The characters of a string, as [*s] unpacks them. *)
Fixpoint chars (s : string) : list string :=
  match s with
  | EmptyString => []
  | String c s' => String c "" :: chars s'
  end.

End PyStr.

(** Truthiness of a value that is [None] or a [str]. *)
Definition truthy (v : option string) : bool :=
  match v with
  | None => false
  | Some s => negb (String.eqb s "")
  end.

(** ** [datetime] and [timedelta] *)

Module DateTime.

(** A naive [datetime]; the calendar date is kept as its proleptic
    Gregorian ordinal, the value of [toordinal()]. *)
Record datetime := mk_datetime {
  ordinal : Z;
  hour : Z;
  minute : Z;
  second : Z;
  microsecond : Z
}.

(** A [timedelta] in the normal form its constructor produces. *)
Record timedelta := mk_timedelta {
  days : Z;
  seconds : Z;
  microseconds : Z
}.

(** [timedelta(days, seconds, microseconds)] on integers: microseconds
    carry into seconds and seconds into days, with floor division. *)
Definition new_timedelta (d s us : Z) : timedelta :=
  let s1 := s + us / 1000000 in
  {| days := d + s1 / 86400;
     seconds := s1 mod 86400;
     microseconds := us mod 1000000 |}.

(** [datetime.__sub__] for two naive values. *)
Definition sub (a b : datetime) : timedelta :=
  let secs1 := second a + minute a * 60 + hour a * 3600 in
  let secs2 := second b + minute b * 60 + hour b * 3600 in
  new_timedelta (ordinal a - ordinal b) (secs1 - secs2)
                (microsecond a - microsecond b).

Definition digit_val (c : ascii) : option Z :=
  let n := nat_of_ascii c in
  if ((48 <=? n) && (n <=? 57))%nat then Some (Z.of_nat n - 48) else None.

(** The directive [%H], regular expression [2[0-3]|[0-1]\d|\d]: returns
    the hour and the unread rest. *)
Definition parse_H (s : string) : option (Z * string) :=
  match s with
  | String a (String b rest) =>
      match digit_val a, digit_val b with
      | Some x, Some y =>
          if (x =? 2) && (y <=? 3) || (x <=? 1)
          then Some (10 * x + y, rest)
          else Some (x, String b rest)
      | Some x, None => Some (x, String b rest)
      | None, _ => None
      end
  | String a rest =>
      match digit_val a with Some x => Some (x, rest) | None => None end
  | EmptyString => None
  end.

(** The directive [%M], regular expression [[0-5]\d|\d]. *)
Definition parse_M (s : string) : option (Z * string) :=
  match s with
  | String a (String b rest) =>
      match digit_val a, digit_val b with
      | Some x, Some y =>
          if x <=? 5 then Some (10 * x + y, rest)
          else Some (x, String b rest)
      | Some x, None => Some (x, String b rest)
      | None, _ => None
      end
  | String a rest =>
      match digit_val a with Some x => Some (x, rest) | None => None end
  | EmptyString => None
  end.

(** The ordinal of 1900-01-01, the date [strptime] fills in. *)
Definition ordinal_1900 : Z := 693596.

(** [datetime.strptime(s, "%H:%M")]; [None] stands for the [ValueError]
    raised when the text does not match or data remains unconverted. *)
Definition strptime_HM (s : string) : option datetime :=
  match parse_H s with
  | Some (h, String ":" rest) =>
      match parse_M rest with
      | Some (m, EmptyString) => Some (mk_datetime ordinal_1900 h m 0 0)
      | _ => None
      end
  | _ => None
  end.

(** Two decimal digits, as in a valid "HH:MM" text. *)
Definition digit_char (d : Z) : ascii := ascii_of_nat (Z.to_nat d + 48).

Definition two_digits (n : Z) : string :=
  String (digit_char (n / 10)) (String (digit_char (n mod 10)) "").

Definition hhmm (h m : Z) : string := two_digits h +:+ ":" +:+ two_digits m.

End DateTime.

(** The delay computed by [create_covid_update] and [create_news_update]:
    [(schedule_time - current_time).seconds]. *)
Definition delay_seconds (schedule_time current_time : DateTime.datetime) : Z :=
  DateTime.seconds (DateTime.sub schedule_time current_time).

(** ** Values, events, updates and articles *)

(** A JSON value as the news API returns it in the fields the program
    reads: [None] or a [str]. *)
Inductive pyval :=
  | PNone
  | PStr (s : string).

Global Instance pyval_eq_dec : EqDecision pyval.
Proof. solve_decision. Defined.

(** [str(v)], as an f-string or a [%s] directive renders it. *)
Definition py_str (v : pyval) : string :=
  match v with
  | PNone => "None"
  | PStr s => s
  end.

Definition pyval_truthy (v : pyval) : bool :=
  match v with
  | PNone => false
  | PStr s => negb (String.eqb s "")
  end.

(** An article as the API delivers it: a dictionary. *)
Abbreviation raw_article := (gmap string pyval).

(** An article as [format_article] builds it: the dictionary with exactly
    the keys "title" and "content". Equality of two such dictionaries is
    equality of both fields. *)
Record article := mk_article {
  a_title : pyval;
  a_content : string
}.

Global Instance article_eq_dec : EqDecision article.
Proof. solve_decision. Defined.

(** The two functions ever handed to a scheduler. *)
Inductive action :=
  | act_run_covid_update
  | act_update_news.

Global Instance action_eq_dec : EqDecision action.
Proof. solve_decision. Defined.

(** A [sched.Event]: (time, priority, sequence, action, argument). The
    field [argument] is the object passed as fourth argument of [enter];
    the scheduler later calls [action( *argument )]. *)
Record event := mk_event {
  ev_time : Z;
  ev_priority : Z;
  ev_sequence : nat;
  ev_action : action;
  ev_argument : string
}.

Global Instance event_eq_dec : EqDecision event.
Proof. solve_decision. Defined.

(** A [sched.scheduler]: its queue and the counter behind the sequence
    numbers. *)
Record scheduler := mk_scheduler {
  queue : list event;
  next_sequence : nat
}.

(** An entry of [covid_updates] or [news_updates]: the dictionary with the
    keys "time" and "repeats" and, once scheduled, "update". *)
Record update := mk_update {
  u_time : string;
  u_repeats : option string;
  u_update : option event
}.

(** The levels of the [logging] calls of the program. *)
Inductive level := INFO | WARNING | CRITICAL.

Global Instance level_eq_dec : EqDecision level.
Proof. solve_decision. Defined.

(** The exceptions the modelled code can raise. *)
Inductive exn :=
  | KeyError (key : string)
  | ValueError (msg : string)
  | TypeError (msg : string)
  | AttributeError (msg : string).

(** ** The module state *)

Record state := mk_state {
  covid_data : gmap string (list string);
  covid_updates : gmap string update;
  covid_s : scheduler;
  news_articles : list article;
  blocked_articles : list string;
  news_updates : gmap string update;
  news_s : scheduler;
  log : list (level * string)
}.

(** The state right after the modules are imported. *)
Definition initial_state : state :=
  {| covid_data := ∅; covid_updates := ∅; covid_s := mk_scheduler [] 0;
     news_articles := []; blocked_articles := []; news_updates := ∅;
     news_s := mk_scheduler [] 0; log := [] |}.

Definition set_covid_data (f : gmap string (list string) → gmap string (list string)) (s : state) : state :=
  mk_state (f (covid_data s)) (covid_updates s) (covid_s s) (news_articles s)
           (blocked_articles s) (news_updates s) (news_s s) (log s).

Definition set_covid_updates (f : gmap string update → gmap string update) (s : state) : state :=
  mk_state (covid_data s) (f (covid_updates s)) (covid_s s) (news_articles s)
           (blocked_articles s) (news_updates s) (news_s s) (log s).

Definition set_covid_s (f : scheduler → scheduler) (s : state) : state :=
  mk_state (covid_data s) (covid_updates s) (f (covid_s s)) (news_articles s)
           (blocked_articles s) (news_updates s) (news_s s) (log s).

Definition set_news_articles (f : list article → list article) (s : state) : state :=
  mk_state (covid_data s) (covid_updates s) (covid_s s) (f (news_articles s))
           (blocked_articles s) (news_updates s) (news_s s) (log s).

Definition set_blocked_articles (f : list string → list string) (s : state) : state :=
  mk_state (covid_data s) (covid_updates s) (covid_s s) (news_articles s)
           (f (blocked_articles s)) (news_updates s) (news_s s) (log s).

Definition set_news_updates (f : gmap string update → gmap string update) (s : state) : state :=
  mk_state (covid_data s) (covid_updates s) (covid_s s) (news_articles s)
           (blocked_articles s) (f (news_updates s)) (news_s s) (log s).

Definition set_news_s (f : scheduler → scheduler) (s : state) : state :=
  mk_state (covid_data s) (covid_updates s) (covid_s s) (news_articles s)
           (blocked_articles s) (news_updates s) (f (news_s s)) (log s).

Definition set_log (f : list (level * string) → list (level * string)) (s : state) : state :=
  mk_state (covid_data s) (covid_updates s) (covid_s s) (news_articles s)
           (blocked_articles s) (news_updates s) (news_s s) (f (log s)).

(** ** What the process reads from outside *)

Record world := mk_world {
  (** [config.json], after [validate_field] *)
  covid_nation : string;
  covid_local : string;
  covid_update_interval_seconds : Z;
  news_API_key : string;
  news_country_code : string;
  news_update_interval_seconds : Z;
  news_search_terms : string;
  (** [time.time()], the clock of both schedulers *)
  time_time : Z;
  (** [datetime.now()] *)
  datetime_now : DateTime.datetime;
  (** [Cov19API(...).get_csv()] for a location type and a location *)
  get_csv : string → string → string;
  (** [requests.get(url).json()], read at the key 'articles'; [None]
      when the answer has no such key *)
  response_articles : option (list raw_article)
}.

(** ** Computations: state and exceptions *)

Inductive result (A : Type) :=
  | Ok (a : A)
  | Raise (e : exn).
Arguments Ok {A} a.
Arguments Raise {A} e.

Definition py (A : Type) : Type := state → result A * state.

Definition ret {A} (a : A) : py A := λ s, (Ok a, s).

Definition bind {A B} (c : py A) (k : A → py B) : py B :=
  λ s, match c s with
       | (Ok a, s') => k a s'
       | (Raise e, s') => (Raise e, s')
       end.

Definition raise {A} (e : exn) : py A := λ s, (Raise e, s).

Definition get : py state := λ s, (Ok s, s).

Definition modify (f : state → state) : py unit := λ s, (Ok tt, f s).

Declare Scope py_scope.
Delimit Scope py_scope with py.
Notation "'let*' x ':=' c 'in' k" := (bind c (λ x, k))
  (at level 10, x name, c at level 100, k at level 200) : py_scope.
Notation "c '>>' k" := (bind c (λ _, k))
  (at level 100, k at level 200, right associativity) : py_scope.
Local Open Scope py_scope.

(** [if b: c], with nothing to do otherwise. *)
Definition when (b : bool) (c : py unit) : py unit := if b then c else ret tt.

(** A [for] loop over a list that the body does not mutate. *)
Fixpoint for_each {A} (l : list A) (body : A → py unit) : py unit :=
  match l with
  | [] => ret tt
  | x :: l' => body x >> for_each l' body
  end.

(** Lifting of a pure computation that may raise. *)
Definition lift {A} (r : result A) : py A := λ s, (r, s).

(** [d[key]] on a dictionary: [KeyError] when the key is missing. *)
Definition getitem {V} (d : gmap string V) (key : string) : result V :=
  match d !! key with
  | Some v => Ok v
  | None => Raise (KeyError key)
  end.

(** [logging.info], [logging.warning], [logging.critical]. *)
Definition logging (l : level) (msg : string) : py unit :=
  modify (set_log (λ lg, lg ++ [(l, msg)])).

(** ** The [sched] module *)

Module Sched.

(** [scheduler.enter(delay, priority, action, argument)]: the event is
    put in the queue and returned as the handle. *)
Definition enter (now delay priority : Z) (a : action) (argument : string)
    (sc : scheduler) : event * scheduler :=
  let e := mk_event (now + delay) priority (next_sequence sc) a argument in
  (e, mk_scheduler (queue sc ++ [e]) (S (next_sequence sc))).

(** [list.remove(e)]: the first occurrence goes; [None] stands for the
    [ValueError] of a missing element. *)
Fixpoint list_remove (e : event) (q : list event) : option (list event) :=
  match q with
  | [] => None
  | x :: q' =>
      if decide (x = e) then Some q'
      else match list_remove e q' with
           | Some r => Some (x :: r)
           | None => None
           end
  end.

(** [scheduler.cancel(event)]. *)
Definition cancel (e : event) (sc : scheduler) : result scheduler :=
  match list_remove e (queue sc) with
  | Some q => Ok (mk_scheduler q (next_sequence sc))
  | None => Raise (ValueError "list.remove(x): x not in list")
  end.

(** Events are ordered as tuples: by time, then priority, then sequence
    number. *)
Definition event_le (a b : event) : bool :=
  (ev_time a <? ev_time b)
  || (ev_time a =? ev_time b)
     && ((ev_priority a <? ev_priority b)
         || (ev_priority a =? ev_priority b)
            && (ev_sequence a <=? ev_sequence b)%nat).

(** [q[0]] of the heap: the least event. *)
Fixpoint head (q : list event) : option event :=
  match q with
  | [] => None
  | e :: q' =>
      match head q' with
      | None => Some e
      | Some m => if event_le e m then Some e else Some m
      end
  end.

(** [heappop]: the queue without its least event. *)
Definition pop (e : event) (sc : scheduler) : scheduler :=
  match list_remove e (queue sc) with
  | Some q => mk_scheduler q (next_sequence sc)
  | None => sc
  end.

End Sched.

(** ** [covid_data_handler] *)

(** [covid_API_request(location, location_type)]; the returned dictionary
    is the module's own [covid_data] and is not used by the callers. *)
Definition covid_API_request (w : world) (location location_type : string) : py unit :=
  logging INFO ("Requesting COVID data for " +:+ location +:+ "...") >>
  let data := get_csv w location_type location in
  modify (set_covid_data <[location := removelast (PyStr.split_on "010" data)]>) >>
  logging INFO ("COVID data for " +:+ location +:+ " updated.").

Definition schedule_covid_updates (w : world) (update_interval : Z)
    (update_name : string) : py unit :=
  (let* s := get in
   when (bool_decide (covid_updates s !! update_name = None))
     (modify (set_covid_updates <[update_name := mk_update "None" None None]>) >>
      logging WARNING "Update not found, dummy update created.")) >>
  let* s := get in
  let '(ev, sc) := Sched.enter (time_time w) update_interval 1
                     act_run_covid_update update_name (covid_s s) in
  modify (set_covid_s (λ _, sc)) >>
  let* s := get in
  let* u := lift (getitem (covid_updates s) update_name) in
  modify (set_covid_updates
            <[update_name := mk_update (u_time u) (u_repeats u) (Some ev)]>).

Definition run_covid_update (w : world) (update_name : string) : py unit :=
  covid_API_request w (covid_local w) "ltla" >>
  covid_API_request w (covid_nation w) "nation" >>
  logging INFO ("COVID update '" +:+ update_name +:+ "' completed.") >>
  let* s := get in
  let* u := lift (getitem (covid_updates s) update_name) in
  if truthy (u_repeats u) then
    schedule_covid_updates w (covid_update_interval_seconds w) update_name >>
    logging INFO ("COVID update '" +:+ update_name +:+ "' scheduled to repeat.")
  else
    modify (set_covid_updates (delete update_name)) >>
    logging INFO ("COVID update '" +:+ update_name +:+ "' removed.").

(** [datetime.strptime(update_time, "%H:%M")] as a computation. *)
Definition strptime (update_time : string) : result DateTime.datetime :=
  match DateTime.strptime_HM update_time with
  | Some t => Ok t
  | None => Raise (ValueError "time data does not match format '%H:%M'")
  end.

Definition repeating (repeats : option string) : string :=
  if truthy repeats then "Repeating" else "Single".

Definition create_covid_update (w : world) (update_time update_name : string)
    (repeats : option string) : py unit :=
  modify (set_covid_updates <[update_name := mk_update update_time repeats None]>) >>
  let* schedule_time := lift (strptime update_time) in
  let current_time := datetime_now w in
  let seconds := delay_seconds schedule_time current_time in
  schedule_covid_updates w seconds update_name >>
  logging INFO (repeating repeats +:+ " COVID update '" +:+ update_name
                +:+ "' created for " +:+ update_time +:+ ".").

(** ** [covid_news_handling] *)

(** [article["title"].lower()]. *)
Definition lower_title (a : raw_article) : result string :=
  match a !! "title" with
  | None => Raise (KeyError "title")
  | Some PNone => Raise (AttributeError "'NoneType' object has no attribute 'lower'")
  | Some (PStr t) => Ok (PyStr.lower t)
  end.

Fixpoint filter_articles (articles : list raw_article) (search_terms : string)
    : result (list raw_article) :=
  match articles with
  | [] => Ok []
  | a :: rest =>
      match lower_title a with
      | Raise e => Raise e
      | Ok title =>
          let relevant :=
            existsb (λ term, PyStr.contains (PyStr.lower term) title)
                    (PyStr.split search_terms) in
          match filter_articles rest search_terms with
          | Raise e => Raise e
          | Ok r => Ok (if relevant then a :: r else r)
          end
      end
  end.

(** The placeholder built when nothing is relevant: a dictionary with the
    keys "title" and "content" only. *)
Definition empty_article : raw_article :=
  <["content" := PStr ""]> (<["title" := PStr "No relevant articles currently"]> ∅).

Definition unset_key : string := "[API_KEY_HERE]".

Definition news_API_request (w : world) (covid_terms : string)
    : py (list raw_article) :=
  logging INFO "Requesting recent top headlines..." >>
  (if String.eqb (news_API_key w) unset_key then
     logging CRITICAL "The news API key has not been set in config.json" >>
     raise (ValueError "The news API key has not been set in config.json")
   else ret tt) >>
  let* articles :=
    lift (match response_articles w with
          | Some l => Ok l
          | None => Raise (KeyError "articles")
          end) in
  let* filtered_articles := lift (filter_articles articles covid_terms) in
  if (length filtered_articles =? 0)%nat
  then ret (filtered_articles ++ [empty_article])
  else ret filtered_articles.

Definition format_article (a : raw_article) : result article :=
  match a !! "title" with
  | None => Raise (KeyError "title")
  | Some title =>
      match a !! "url" with
      | None => Raise (KeyError "url")
      | Some u =>
          let url := "<a href='" +:+ py_str u +:+ "'>[Click Here]</a>" in
          match a !! "content" with
          | None => Raise (KeyError "content")
          | Some c =>
              if pyval_truthy c then
                let description := PyStr.join " " (take 20 (PyStr.split (py_str c))) in
                Ok (mk_article title (description +:+ "... " +:+ url))
              else Ok (mk_article title url)
          end
      end
  end.

(** [formatted_article["title"] not in blocked_articles], negated. *)
Definition is_blocked (title : pyval) (blocked : list string) : bool :=
  match title with
  | PStr t => bool_decide (t ∈ blocked)
  | PNone => false
  end.

(** One turn of the loop of [update_news] over the fetched articles. *)
Definition ingest_article (a : raw_article) : py unit :=
  let* formatted_article := lift (format_article a) in
  let* s := get in
  when (negb (bool_decide (formatted_article ∈ news_articles s))
        && negb (is_blocked (a_title formatted_article) (blocked_articles s)))
    (logging INFO ("Article '" +:+ py_str (a_title formatted_article) +:+ "' added.") >>
     modify (set_news_articles (λ l, l ++ [formatted_article]))).

Definition schedule_news_updates (w : world) (update_interval : Z)
    (update_name : string) : py unit :=
  (let* s := get in
   when (bool_decide (news_updates s !! update_name = None))
     (modify (set_news_updates <[update_name := mk_update "None" None None]>) >>
      logging WARNING "Update not found, dummy update created.")) >>
  let* s := get in
  let '(ev, sc) := Sched.enter (time_time w) update_interval 1
                     act_update_news update_name (news_s s) in
  modify (set_news_s (λ _, sc)) >>
  let* s := get in
  let* u := lift (getitem (news_updates s) update_name) in
  modify (set_news_updates
            <[update_name := mk_update (u_time u) (u_repeats u) (Some ev)]>).

(** The part of [update_news] that fetches and stores articles. *)
Definition refresh_articles (w : world) : py unit :=
  let* api_articles := news_API_request w (news_search_terms w) in
  for_each api_articles ingest_article.

(** The part of [update_news] that settles the scheduled update;
    [update_name] is [None] when the argument is left out. *)
Definition settle_news_update (w : world) (update_name : option string) : py unit :=
  let* s := get in
  match update_name with
  | Some name =>
      match news_updates s !! name with
      | Some u =>
          logging INFO ("News update '" +:+ name +:+ "' completed.") >>
          if truthy (u_repeats u) then
            schedule_news_updates w (news_update_interval_seconds w) name >>
            logging INFO ("News update '" +:+ name +:+ "' scheduled to repeat.")
          else
            modify (set_news_updates (delete name)) >>
            logging INFO ("News update '" +:+ name +:+ "' removed.")
      | None =>
          if truthy update_name
          then logging WARNING "Update '{update_name}' does not exist."
          else logging INFO "News articles updated."
      end
  | None => logging INFO "News articles updated."
  end.

Definition update_news (w : world) (update_name : option string) : py unit :=
  refresh_articles w >> settle_news_update w update_name.

(** The loop of [block_article]: [index] is the position of the list
    iterator, which moves on by one at every turn whether or not the turn
    popped an element. The list only shrinks, so [fuel] turns are enough
    when [fuel] is the length of the list at the start. *)
Fixpoint block_loop (fuel : nat) (title : string) (index : nat) : py unit :=
  match fuel with
  | O => ret tt
  | S fuel' =>
      let* s := get in
      match news_articles s !! index with
      | None => ret tt
      | Some a =>
          when (bool_decide (PStr title = a_title a))
               (modify (set_news_articles (delete index))) >>
          block_loop fuel' title (S index)
      end
  end.

Definition block_article (title : string) : py unit :=
  modify (set_blocked_articles (λ l, l ++ [title])) >>
  (let* s := get in block_loop (length (news_articles s)) title 0) >>
  logging INFO ("Article '" +:+ title +:+ "' blocked.").

Definition create_news_update (w : world) (update_time update_name : string)
    (repeats : option string) : py unit :=
  modify (set_news_updates <[update_name := mk_update update_time repeats None]>) >>
  let* schedule_time := lift (strptime update_time) in
  let current_time := datetime_now w in
  let seconds := delay_seconds schedule_time current_time in
  schedule_news_updates w seconds update_name >>
  logging INFO (repeating repeats +:+ " news update '" +:+ update_name
                +:+ "' created for " +:+ update_time +:+ ".").

(** ** [update_handler] *)

(** ["Covid"*covid] and the like: the text or the empty text. *)
Definition str_times (s : string) (b : bool) : string := if b then s else "".

Definition format_update (u : update) (covid news : bool) : string :=
  let data := [u_time u] in
  let updated_data := [str_times "Covid" covid; str_times "News" news] in
  let updated_data := filter (λ x, x ≠ "") updated_data in
  let data := data ++ ["Updates " +:+ PyStr.join " & " updated_data] in
  let data := data ++ [if truthy (u_repeats u) then "Repeats" else "Doesn't Repeat"] in
  PyStr.join ", " data.

(** The URL parameters [create_update] reads from [request.args]: "two"
    (the name), "covid-data", "news" and "repeat"; the last three are
    [None] when the box is not ticked. *)
Record request := mk_request {
  two : string;
  covid_data_arg : option string;
  news_arg : option string;
  repeat : option string
}.

Definition create_update (w : world) (sched_time : string) (req : request) : py unit :=
  let name := two req in
  let update_covid := covid_data_arg req in
  let update_news := news_arg req in
  let repeats := repeat req in
  let* s := get in
  (* {**a, **b}: the entries of b win; as a union, b comes first *)
  if bool_decide ((news_updates s ∪ covid_updates s) !! name = None) then
    when (truthy update_covid) (create_covid_update w sched_time name repeats) >>
    when (truthy update_news) (create_news_update w sched_time name repeats) >>
    when (negb (truthy update_covid) && negb (truthy update_news))
         (logging WARNING "Empty update created, request ignored.")
  else logging WARNING "Update name already exists.".

(** [d[name]["update"]]. *)
Definition get_handle (d : gmap string update) (name : string) : result event :=
  match d !! name with
  | None => Raise (KeyError name)
  | Some u =>
      match u_update u with
      | None => Raise (KeyError "update")
      | Some e => Ok e
      end
  end.

Definition remove_update (name : string) : py unit :=
  (let* s := get in
   when (bool_decide (is_Some (covid_updates s !! name)))
     (let* e := lift (get_handle (covid_updates s) name) in
      let* sc := lift (Sched.cancel e (covid_s s)) in
      modify (set_covid_s (λ _, sc)) >>
      modify (set_covid_updates (delete name)) >>
      logging INFO ("COVID update '" +:+ name +:+ "' removed."))) >>
  let* s := get in
  when (bool_decide (is_Some (news_updates s !! name)))
    (let* e := lift (get_handle (news_updates s) name) in
     let* sc := lift (Sched.cancel e (news_s s)) in
     modify (set_news_s (λ _, sc)) >>
     modify (set_news_updates (delete name)) >>
     logging INFO ("News update '" +:+ name +:+ "' removed.")).

(** ** Firing scheduled events *)

(** [action( *argument )]: the argument of an event is the name, a [str],
    and unpacking it passes its characters one by one. [run_covid_update]
    takes exactly one argument, [update_news] none or one. *)
Definition call_action (w : world) (a : action) (argument : string) : py unit :=
  match a, PyStr.chars argument with
  | act_run_covid_update, [x] => run_covid_update w x
  | act_run_covid_update, [] =>
      raise (TypeError "run_covid_update() missing 1 required positional argument: 'update_name'")
  | act_run_covid_update, _ =>
      raise (TypeError "run_covid_update() takes 1 positional argument but more were given")
  | act_update_news, [] => update_news w None
  | act_update_news, [x] => update_news w (Some x)
  | act_update_news, _ =>
      raise (TypeError "update_news() takes from 0 to 1 positional arguments but more were given")
  end.

(** One turn of the loop of [scheduler.run(blocking=False)]: when the
    least event of the queue is due it is popped and its action called;
    the result tells whether an event was fired. The method repeats this
    turn until nothing is due; an exception of the action leaves it. *)
Definition run_step (sel : state → scheduler)
    (upd : (scheduler → scheduler) → state → state) (w : world) : py bool :=
  let* s := get in
  match Sched.head (queue (sel s)) with
  | None => ret false
  | Some e =>
      if time_time w <? ev_time e then ret false
      else
        modify (upd (Sched.pop e)) >>
        call_action w (ev_action e) (ev_argument e) >>
        ret true
  end.

Definition run_covid_step : world → py bool := run_step covid_s set_covid_s.
Definition run_news_step : world → py bool := run_step news_s set_news_s.

(** * Vocabulary of the specification *)

(** ** The events the schedule functions arm *)

(** The event [schedule_covid_updates] puts in the queue. *)
Definition covid_event (w : world) (delay : Z) (name : string) (s : state) : event :=
  mk_event (time_time w + delay) 1 (next_sequence (covid_s s))
           act_run_covid_update name.

(** The event [schedule_news_updates] puts in the queue. *)
Definition news_event (w : world) (delay : Z) (name : string) (s : state) : event :=
  mk_event (time_time w + delay) 1 (next_sequence (news_s s))
           act_update_news name.

(** ** What a function may change *)

(** Everything but the article list and the log is as before. *)
Definition articles_only (s s' : state) : Prop :=
  covid_data s' = covid_data s ∧ covid_updates s' = covid_updates s
  ∧ covid_s s' = covid_s s ∧ blocked_articles s' = blocked_articles s
  ∧ news_updates s' = news_updates s ∧ news_s s' = news_s s.

(** No name comes into a registry. *)
Definition no_new_names (s s' : state) : Prop :=
  dom (covid_updates s') ⊆ dom (covid_updates s)
  ∧ dom (news_updates s') ⊆ dom (news_updates s).

(** The article list stays free of repetitions and nothing leaves the
    list of blocked titles. *)
Definition store_kept (s s' : state) : Prop :=
  (NoDup (news_articles s) → NoDup (news_articles s'))
  ∧ blocked_articles s ⊆ blocked_articles s'.

(** The name a request may add to a registry. *)
Definition requested (flag : option string) (name : string) : gset string :=
  if truthy flag then {[name]} else ∅.

(** The name is in one of the registries. *)
Definition name_taken (name : string) (s : state) : Prop :=
  is_Some (covid_updates s !! name) ∨ is_Some (news_updates s !! name).

(** ** The loop of [block_article], by the shape of the list *)

(** What the loop leaves of the part of the list it has not visited yet:
    after a pop the element that slides into the freed position is
    stepped over. *)
Fixpoint block_skip (title : string) (l : list article) : list article :=
  match l with
  | [] => []
  | a :: l' =>
      if bool_decide (PStr title = a_title a) then
        match l' with
        | [] => []
        | b :: l'' => b :: block_skip title l''
        end
      else a :: block_skip title l'
  end.

(** ** Operations and reachable states *)

(** What may happen to the state: the three requests of the dashboard,
    the two actions run with a name (or, for the news, without one, as at
    start-up), and a turn of either scheduler. *)
Inductive op :=
  | op_create_update (sched_time : string) (req : request)
  | op_remove_update (name : string)
  | op_block_article (title : string)
  | op_run_covid_update (name : string)
  | op_update_news (name : option string)
  | op_covid_run_step
  | op_news_run_step.

Definition exec (w : world) (o : op) : py unit :=
  match o with
  | op_create_update sched_time req => create_update w sched_time req
  | op_remove_update name => remove_update name
  | op_block_article title => block_article title
  | op_run_covid_update name => run_covid_update w name
  | op_update_news name => update_news w name
  | op_covid_run_step => run_covid_step w >> ret tt
  | op_news_run_step => run_news_step w >> ret tt
  end.

(** The states reached from the initial one by operations that satisfy
    [allowed], each in a world of its own, whether it returns or raises. *)
Inductive reachable_by (allowed : op → Prop) : state → Prop :=
  | reach_initial : reachable_by allowed initial_state
  | reach_exec s w o :
      reachable_by allowed s → allowed o → reachable_by allowed (exec w o s).2.

Definition reachable : state → Prop := reachable_by (λ _, True).

(** The operation is a [create_update]. *)
Definition is_create (o : op) : Prop :=
  match o with op_create_update _ _ => True | _ => False end.

(** ** The vocabulary of the properties *)

(** The data types named in the description, by flag. *)
Definition joined_data_types (covid news : bool) : string :=
  match covid, news with
  | true, true => "Covid & News"
  | true, false => "Covid"
  | false, true => "News"
  | false, false => ""
  end.

(** The last part of the description. *)
Definition repeat_clause (repeats : option string) : string :=
  if truthy repeats then "Repeats" else "Doesn't Repeat".

(** No name is a key of both registries. *)
Definition registries_disjoint (s : state) : Prop :=
  ∀ name, ¬ (is_Some (covid_updates s !! name) ∧ is_Some (news_updates s !! name)).

(** A request for an update asks for one data set at most. *)
Definition one_domain (o : op) : Prop :=
  match o with
  | op_create_update _ req =>
      ¬ (truthy (covid_data_arg req) = true ∧ truthy (news_arg req) = true)
  | _ => True
  end.

(** The text "HH:MM" of [h] and [m] parses, to [h] and [m] on
    1900-01-01 at second 0. *)
Definition check_hhmm (h m : Z) : bool :=
  match DateTime.strptime_HM (DateTime.hhmm h m) with
  | Some t =>
      (DateTime.ordinal t =? DateTime.ordinal_1900) && (DateTime.hour t =? h)
      && (DateTime.minute t =? m) && (DateTime.second t =? 0)
      && (DateTime.microsecond t =? 0)
  | None => false
  end.

(** The target time and the wall clock as seconds of their day. *)
Definition second_of_day (t : DateTime.datetime) : Z :=
  DateTime.hour t * 3600 + DateTime.minute t * 60 + DateTime.second t.

(** The difference between the target "HH:MM" and [now], counted in
    microseconds, wrapped into one day and cut to whole seconds. *)
Definition wrapped_delay (h m : Z) (now : DateTime.datetime) : Z :=
  (((h * 3600 + m * 60 - second_of_day now) * 1000000
    - DateTime.microsecond now) mod 86400000000) / 1000000.

(** ** Sample data *)

(** A raw article with the three keys the program reads. *)
Definition api_article (title content url : string) : raw_article :=
  <["url" := PStr url]> (<["content" := PStr content]> (<["title" := PStr title]> ∅)).

(** A world: the configuration with a key that is set, 10:00:00 on the
    wall clock, and an answer of the news API with two headlines of the
    same title. *)
Definition sample_world : world :=
  {| covid_nation := "England"; covid_local := "Exeter";
     covid_update_interval_seconds := 86400;
     news_API_key := "0123456789abcdef"; news_country_code := "gb";
     news_update_interval_seconds := 3600;
     news_search_terms := "Covid COVID-19 coronavirus";
     time_time := 1000;
     datetime_now := DateTime.mk_datetime 738000 10 0 0 0;
     get_csv := λ _ _, "date,newCasesBySpecimenDate" +:+ String "010" "";
     response_articles :=
       Some [api_article "Covid cases rise" "First report" "https://example.org/1";
             api_article "Covid cases rise" "Second report" "https://example.org/2"] |}.

(** The same world with the key left at its placeholder. *)
Definition keyless_world : world :=
  {| covid_nation := "England"; covid_local := "Exeter";
     covid_update_interval_seconds := 86400;
     news_API_key := unset_key; news_country_code := "gb";
     news_update_interval_seconds := 3600;
     news_search_terms := "Covid COVID-19 coronavirus";
     time_time := 1000;
     datetime_now := DateTime.mk_datetime 738000 10 0 0 0;
     get_csv := λ _ _, "date,newCasesBySpecimenDate" +:+ String "010" "";
     response_articles := None |}.

(** A world later in the day, when the event of "daily" is due. *)
Definition later_world : world :=
  {| covid_nation := "England"; covid_local := "Exeter";
     covid_update_interval_seconds := 86400;
     news_API_key := "0123456789abcdef"; news_country_code := "gb";
     news_update_interval_seconds := 3600;
     news_search_terms := "Covid COVID-19 coronavirus";
     time_time := 9000;
     datetime_now := DateTime.mk_datetime 738000 12 13 20 0;
     get_csv := λ _ _, "date,newCasesBySpecimenDate" +:+ String "010" "";
     response_articles := Some [] |}.

(** Requests for an update called "daily": for both data sets, for the
    COVID data only, for the news only. *)
Definition request_both : request := mk_request "daily" (Some "covid-data") (Some "news") None.

Definition request_covid : request := mk_request "daily" (Some "covid-data") None None.

Definition request_news : request := mk_request "daily" None (Some "news") None.

Definition request_news_repeat : request :=
  mk_request "daily" None (Some "news") (Some "repeat").

(** The states after one accepted request. *)
Definition sample_covid_state : state :=
  (exec sample_world (op_create_update "12:00" request_covid) initial_state).2.

Definition sample_news_state : state :=
  (exec sample_world (op_create_update "12:00" request_news_repeat) initial_state).2.

(** The state after the first refresh in [sample_world]. *)
Definition sample_twin_state : state :=
  (exec sample_world (op_update_news None) initial_state).2.

(** The articles of [test_filter_articles]: a title and nothing else. *)
Definition titled (title : string) : raw_article := <["title" := PStr title]> ∅.

Definition test_articles : list raw_article :=
  [titled "Irrelevant article"; titled "Unrelated article";
   titled "Important information!"].

Definition result_length {A} (r : result (list A)) : option nat :=
  match r with
  | Ok l => Some (length l)
  | Raise _ => None
  end.

(** ** Proof automation *)

(** Unfolds the monad and the state setters, leaving pure terms. *)
Ltac py_unfold :=
  unfold bind, ret, raise, get, modify, lift, when, logging,
    set_covid_data, set_covid_updates, set_covid_s, set_news_articles,
    set_blocked_articles, set_news_updates, set_news_s, set_log in *;
  cbn [covid_data covid_updates covid_s news_articles blocked_articles
       news_updates news_s log fst snd] in *.

(** * The CSV functions of [covid_data_handler] *)

Module Csv.

(** The exceptions of the CSV functions. *)
Inductive csv_exn :=
  | IndexOutOfRange                 (* IndexError: list index out of range *)
  | InvalidLiteral (text : string)  (* ValueError of [int(text)] *)
  | NotInList (x : string).         (* ValueError of [list.index(x)] *)

Inductive outcome (A : Type) :=
  | Returns (a : A)
  | Raises (e : csv_exn).
Arguments Returns {A} a.
Arguments Raises {A} e.

(** [s.strip()]-like removal of white space at both ends, as [int] does
    before it reads the digits. *)
Fixpoint lstrip (s : string) : string :=
  match s with
  | String c s' => if PyStr.isspace c then lstrip s' else s
  | EmptyString => EmptyString
  end.

Definition strip (s : string) : string :=
  String.rev (lstrip (String.rev (lstrip s))).

(** The digits of a literal, with single underscores between digits;
    [after_digit] tells whether the character before was a digit. *)
Fixpoint int_digits (acc : Z) (after_digit : bool) (s : string) : option Z :=
  match s with
  | EmptyString => if after_digit then Some acc else None
  | String c s' =>
      match DateTime.digit_val c with
      | Some d => int_digits (10 * acc + d) true s'
      | None =>
          if Ascii.eqb c "_" && after_digit then int_digits acc false s'
          else None
      end
  end.

(** [int(text)] in base 10: white space around, an optional sign, then
    the digits. *)
Definition py_int (text : string) : outcome Z :=
  let body := strip text in
  let signed :=
    match body with
    | String "-" rest => option_map Z.opp (int_digits 0 false rest)
    | String "+" rest => int_digits 0 false rest
    | _ => int_digits 0 false body
    end in
  match signed with
  | Some z => Returns z
  | None => Raises (InvalidLiteral text)
  end.

(** [l[i]] on a list: a negative index counts from the end. *)
Definition py_index {A} (l : list A) (i : Z) : outcome A :=
  let n := Z.of_nat (length l) in
  let j := if i <? 0 then i + n else i in
  if (0 <=? j) && (j <? n) then
    match l !! Z.to_nat j with
    | Some x => Returns x
    | None => Raises IndexOutOfRange
    end
  else Raises IndexOutOfRange.

(** [l.index(x)]: the first position of [x]. *)
Fixpoint list_index (x : string) (l : list string) : option Z :=
  match l with
  | [] => None
  | y :: l' =>
      if String.eqb y x then Some 0
      else option_map Z.succ (list_index x l')
  end.

Definition index_of (x : string) (l : list string) : outcome Z :=
  match list_index x l with
  | Some i => Returns i
  | None => Raises (NotInList x)
  end.

Definition read_csv_value (csv_row : string) (column : Z) : outcome Z :=
  match py_index (PyStr.split_on "," csv_row) column with
  | Raises e => Raises e
  | Returns value =>
      if negb (String.eqb value "") then py_int value else Returns 0
  end.

(** The loop of [first_non_blank_cell] over the rows from index [i] on. *)
Fixpoint scan_rows (rows : list string) (i : Z) (column : Z) : outcome Z :=
  match rows with
  | [] => Returns (-1)
  | row :: rest =>
      match read_csv_value row column with
      | Raises e => Raises e
      | Returns v => if v =? 0 then scan_rows rest (i + 1) column else Returns i
      end
  end.

(** [range(1, len(csv_lines))] visits the rows after the first. *)
Definition first_non_blank_cell (csv_lines : list string) (column : Z) : outcome Z :=
  scan_rows (drop 1 csv_lines) 1 column.

(** [sum(read_csv_value(day, column) for day in week)]. *)
Fixpoint sum_column (week : list string) (column : Z) : outcome Z :=
  match week with
  | [] => Returns 0
  | day :: rest =>
      match read_csv_value day column with
      | Raises e => Raises e
      | Returns v =>
          match sum_column rest column with
          | Raises e => Raises e
          | Returns t => Returns (v + t)
          end
      end
  end.

(** [x = f(...)] followed by the rest of the function. *)
Definition and_then {A B} (r : outcome A) (k : A → outcome B) : outcome B :=
  match r with
  | Returns a => k a
  | Raises e => Raises e
  end.

(** The value of a column at its first row with data. *)
Definition first_value (covid_csv_data : list string) (headers : list string)
    (name : string) : outcome Z :=
  and_then (index_of name headers) (λ column,
  and_then (first_non_blank_cell covid_csv_data column) (λ row,
  and_then (py_index covid_csv_data row) (λ line,
  read_csv_value line column))).

Definition process_covid_csv_data (covid_csv_data : list string)
    : outcome (Z * Z * Z) :=
  and_then (py_index covid_csv_data 0) (λ first,
  let headers := PyStr.split_on "," first in
  and_then (index_of "newCasesBySpecimenDate" headers) (λ column,
  and_then (first_non_blank_cell covid_csv_data column) (λ found,
  let row := found + 1 in
  (* row >= 0, so the slice [row:row+7] drops [row] rows and takes 7 *)
  let week := take 7 (drop (Z.to_nat row) covid_csv_data) in
  and_then (sum_column week column) (λ week_cases,
  and_then (first_value covid_csv_data headers "hospitalCases") (λ hospital_cases,
  and_then (first_value covid_csv_data headers "cumDailyNsoDeathsByDeathDate")
    (λ total_deaths,
  Returns (week_cases, hospital_cases, total_deaths))))))).

End Csv.

(** ** Rows as the API writes them *)

(** No character of the text satisfies [p]. *)
Fixpoint none_of (p : ascii → bool) (s : string) : bool :=
  match s with
  | EmptyString => true
  | String c s' => negb (p c) && none_of p s'
  end.

(** A cell of a CSV row: empty, or the decimal text of a number. *)
Definition cell_text (cell : option N) : string :=
  match cell with
  | Some n => pretty n
  | None => ""
  end.


Definition csv_row (cells : list (option N)) : string :=
  PyStr.join "," (cell_text <$> cells).

(** The text holds decimal digits only. *)
Definition digits_only (s : string) : bool :=
  none_of (λ c, match DateTime.digit_val c with Some _ => false | None => true end) s.

(** [value] is the figure of a column: the value of the first row below
    the header where the column is not 0, or 0 when there is no such
    row. *)
Definition column_figure (data : list string) (column : Z) (value : Z) : Prop :=
  (value ≠ 0
   ∧ ∃ (r : nat) row,
       (1 ≤ r)%nat ∧ data !! r = Some row
       ∧ Csv.read_csv_value row column = Csv.Returns value
       ∧ ∀ (j : nat) row', (1 ≤ j < r)%nat → data !! j = Some row' →
           Csv.read_csv_value row' column = Csv.Returns 0)
  ∨ (value = 0
     ∧ ∀ (j : nat) row', (1 ≤ j)%nat → data !! j = Some row' →
         Csv.read_csv_value row' column = Csv.Returns 0).

(** [total] is the week of a column: the sum of the values of the seven
    rows, or as many as there are, below the first row where the column is
    not 0; that row is left out. *)
Definition column_week (data : list string) (column : Z) (total : Z) : Prop :=
  ∃ (r : nat) row v,
    (1 ≤ r)%nat ∧ data !! r = Some row
    ∧ Csv.read_csv_value row column = Csv.Returns v ∧ v ≠ 0
    ∧ (∀ (j : nat) row', (1 ≤ j < r)%nat → data !! j = Some row' →
         Csv.read_csv_value row' column = Csv.Returns 0)
    ∧ Csv.sum_column (take 7 (drop (S r) data)) column = Csv.Returns total.

(** Rows written one per line, each ended by a newline. *)
Fixpoint unlines (rows : list string) : string :=
  match rows with
  | [] => ""
  | row :: rest => row +:+ String "010" (unlines rest)
  end.

(** * Vocabulary of the further properties *)

(** The entries or events a request adds for a data set it asks for. *)
Definition if_requested {A} (flag : option string) (l : list A) : list A :=
  if truthy flag then l else [].

(** The registry after a request: with the entry when the data set was
    asked for. *)
Definition with_update (flag : option string) (name : string) (u : update)
    (registry : gmap string update) : gmap string update :=
  if truthy flag then <[name := u]> registry else registry.

(** The sequence numbers of the queue are below the counter and differ
    from each other. *)
Definition sequences_below (sc : scheduler) : Prop :=
  Forall (λ e, (ev_sequence e < next_sequence sc)%nat) (queue sc)
  ∧ NoDup (ev_sequence <$> queue sc).

(** The scheduler after a request: with the event when the data set was
    asked for. *)
Definition with_event (flag : option string) (ev : event) (sc : scheduler)
    : scheduler :=
  if truthy flag then mk_scheduler (queue sc ++ [ev]) (S (next_sequence sc)) else sc.

(** The state after [create_update] has accepted a request with a valid
    time, [delay] seconds ahead. *)
Definition created_state (w : world) (sched_time : string) (delay : Z)
    (req : request) (s : state) : state :=
  let name := two req in
  let entry ev := mk_update sched_time (repeat req) (Some ev) in
  mk_state (covid_data s)
    (with_update (covid_data_arg req) name (entry (covid_event w delay name s))
       (covid_updates s))
    (with_event (covid_data_arg req) (covid_event w delay name s) (covid_s s))
    (news_articles s) (blocked_articles s)
    (with_update (news_arg req) name (entry (news_event w delay name s))
       (news_updates s))
    (with_event (news_arg req) (news_event w delay name s) (news_s s))
    (log s
     ++ if_requested (covid_data_arg req)
          [(INFO, repeating (repeat req) +:+ " COVID update '" +:+ name
                  +:+ "' created for " +:+ sched_time +:+ ".")]
     ++ if_requested (news_arg req)
          [(INFO, repeating (repeat req) +:+ " news update '" +:+ name
                  +:+ "' created for " +:+ sched_time +:+ ".")]
     ++ (if negb (truthy (covid_data_arg req)) && negb (truthy (news_arg req))
         then [(WARNING, "Empty update created, request ignored.")] else [])).

(** The two halves of [remove_update]. *)
Definition remove_covid_update (name : string) : py unit :=
  let* s := get in
  when (bool_decide (is_Some (covid_updates s !! name)))
    (let* e := lift (get_handle (covid_updates s) name) in
     let* sc := lift (Sched.cancel e (covid_s s)) in
     modify (set_covid_s (λ _, sc)) >>
     modify (set_covid_updates (delete name)) >>
     logging INFO ("COVID update '" +:+ name +:+ "' removed.")).

Definition remove_news_update (name : string) : py unit :=
  let* s := get in
  when (bool_decide (is_Some (news_updates s !! name)))
    (let* e := lift (get_handle (news_updates s) name) in
     let* sc := lift (Sched.cancel e (news_s s)) in
     modify (set_news_s (λ _, sc)) >>
     modify (set_news_updates (delete name)) >>
     logging INFO ("News update '" +:+ name +:+ "' removed.")).

(** Both schedulers keep their sequence numbers in order. *)
Definition both_below (s : state) : Prop :=
  sequences_below (covid_s s) ∧ sequences_below (news_s s).

(** A word: not empty and free of white space. *)
Definition wordlike (x : string) : Prop :=
  x ≠ "" ∧ none_of PyStr.isspace x = true.

(** The link [format_article] puts at the end of the content. *)
Definition link_to (url : pyval) : string :=
  "<a href='" +:+ py_str url +:+ "'>[Click Here]</a>".

(** An article the ingest loop passes over: stored already, or of a
    blocked title. *)
Definition settled (fa : article) (s : state) : Prop :=
  fa ∈ news_articles s ∨ is_blocked (a_title fa) (blocked_articles s) = true.

(** The state after the line [news_API_request] logs first. *)
Definition request_logged (s : state) : state :=
  set_log (λ lg, lg ++ [(INFO, "Requesting recent top headlines...")]) s.

(** * The module [config_handler] *)

Module Config.

#[local] Set Warnings "-register-all".

(** What [json.load] returns. A float keeps the text it was written as:
    the code only asks for its type. *)
Inductive json :=
  | JNull
  | JBool (b : bool)
  | JInt (n : Z)
  | JFloat (literal : string)
  | JStr (s : string)
  | JList (items : list json)
  | JDict (members : gmap string json).

(** The two classes of [expected_types]. *)
Inductive pytype := py_type_str | py_type_int.

Definition type_name (t : pytype) : string :=
  match t with py_type_str => "str" | py_type_int => "int" end.

(** [type(value).__name__] *)
Definition type_of_name (value : json) : string :=
  match value with
  | JNull => "NoneType"
  | JBool _ => "bool"
  | JInt _ => "int"
  | JFloat _ => "float"
  | JStr _ => "str"
  | JList _ => "list"
  | JDict _ => "dict"
  end.

(** [isinstance(value, t)]; [bool] is a subclass of [int]. *)
Definition isinstance (value : json) (t : pytype) : bool :=
  match t, value with
  | py_type_str, JStr _ => true
  | py_type_int, JInt _ => true
  | py_type_int, JBool _ => true
  | _, _ => false
  end.

Definition expected_types : gmap string pytype :=
  list_to_map
    [("dashboard_title", py_type_str);
     ("dashboard_favicon", py_type_str);
     ("covid_nation", py_type_str);
     ("covid_local", py_type_str);
     ("covid_update_interval_seconds", py_type_int);
     ("news_API_key", py_type_str);
     ("news_country_code", py_type_str);
     ("news_update_interval_seconds", py_type_int);
     ("news_search_terms", py_type_str)].

Definition default_values : gmap string json :=
  list_to_map
    [("dashboard_title", JStr "COVID-19 Dashboard");
     ("dashboard_favicon", JStr "https://i.ibb.co/7nYCWzN/Favicon.png");
     ("covid_nation", JStr "England");
     ("covid_local", JStr "Exeter");
     ("covid_update_interval_seconds", JInt 86400);
     ("news_API_key", JStr "");
     ("news_country_code", JStr "gb");
     ("news_update_interval_seconds", JInt 86400);
     ("news_search_terms", JStr "Covid COVID-19 coronavirus")].

(** A call of [logging]: the level, the format and its arguments, which
    [logging] renders with [%s] when the record is written. *)
Definition log_record : Type := level * string * list json.

(** A result together with the records logged on the way, also when the
    result is an exception. *)
Definition logged (A : Type) : Type := result A * list log_record.

Definition validate_field (field : string) (value : json) : logged json :=
  match expected_types !! field with
  | None => (Raise (KeyError field), [])
  | Some t =>
      if isinstance value t then (Ok value, [])
      else
        let type_error_log := "Config field '%s' invalid type. %s should be: %s" in
        let actual := type_of_name value in
        let expected := type_name t in
        let warned := [(WARNING, type_error_log, [JStr field; JStr actual; JStr expected])] in
        match default_values !! field with
        | None => (Raise (KeyError field), warned)
        | Some default_value =>
            let replace_log := "Invalid config value '%s' replaced with '%s'" in
            (Ok default_value,
             warned ++ [(WARNING, replace_log, [value; default_value])])
        end
  end.

(** [config[field]] for the value [json.load] gave. *)
Definition subscript (config : json) (field : string) : result json :=
  match config with
  | JDict members =>
      match members !! field with
      | Some value => Ok value
      | None => Raise (KeyError field)
      end
  | JList _ => Raise (TypeError "list indices must be integers or slices, not str")
  | JStr _ => Raise (TypeError "string indices must be integers")
  | JNull => Raise (TypeError "'NoneType' object is not subscriptable")
  | JBool _ => Raise (TypeError "'bool' object is not subscriptable")
  | JInt _ => Raise (TypeError "'int' object is not subscriptable")
  | JFloat _ => Raise (TypeError "'float' object is not subscriptable")
  end.

(** The list comprehension of [read_config], over the content [config]
    of config.json. *)
Fixpoint read_config (config : json) (fields : list string) : logged (list json) :=
  match fields with
  | [] => (Ok [], [])
  | field :: fields' =>
      match subscript config field with
      | Raise e => (Raise e, [])
      | Ok value =>
          match validate_field field value with
          | (Raise e, records) => (Raise e, records)
          | (Ok v, records) =>
              match read_config config fields' with
              | (Raise e, records') => (Raise e, records ++ records')
              | (Ok vs, records') => (Ok (v :: vs), records ++ records')
              end
          end
      end
  end.

(** The nine fields of the configuration. *)
Definition known_fields : list string :=
  ["dashboard_title"; "dashboard_favicon"; "covid_nation"; "covid_local";
   "covid_update_interval_seconds"; "news_API_key"; "news_country_code";
   "news_update_interval_seconds"; "news_search_terms"].

(** The class [field] is expected to have, for a known field. *)
Definition expected (field : string) (t : pytype) : Prop :=
  expected_types !! field = Some t.

End Config.

(** A field whose value in config.json is not of the class expected. *)
Definition refused_field (members : gmap string Config.json) (field : string) : Prop :=
  match members !! field, Config.expected_types !! field with
  | Some value, Some t => Config.isinstance value t = false
  | _, _ => False
  end.

#[local] Instance refused_field_dec members field : Decision (refused_field members field).
Proof.
  unfold refused_field.
  destruct (members !! field), (Config.expected_types !! field); apply _.
Defined.

(** A config.json with a null where the key of the news API belongs. *)
Definition sample_config : Config.json :=
  Config.JDict {[ "news_country_code" := Config.JStr "gb";
                  "news_API_key" := Config.JNull ]}.

(** * [format_updates] of [update_handler] *)

Module Updates.

(** A dict with its keys in the order of insertion, which [items()]
    follows; in a dict every key occurs once. *)
Abbreviation odict V := (list (string * V)).

Definition keys {V} (d : odict V) : list string := d.*1.

(** [k in d] *)
Definition has_key {V} (d : odict V) (k : string) : bool :=
  bool_decide (k ∈ keys d).

(** [d.get(k)] *)
Fixpoint get {V} (d : odict V) (k : string) : option V :=
  match d with
  | [] => None
  | (k', v) :: d' => if decide (k' = k) then Some v else get d' k
  end.

(** [d[k] = v]: a key that is there keeps its place. *)
Fixpoint setitem {V} (d : odict V) (k : string) (v : V) : odict V :=
  match d with
  | [] => [(k, v)]
  | (k', v') :: d' =>
      if decide (k' = k) then (k', v) :: d' else (k', v') :: setitem d' k v
  end.

(** The items of [d] set one after the other in [acc]: what [**d] does
    in a dict display. *)
Definition unpack {V} (acc d : odict V) : odict V :=
  foldl (λ acc kv, setitem acc kv.1 kv.2) acc d.

(** [{**a, **b}] *)
Definition merge {V} (a b : odict V) : odict V := unpack (unpack [] a) b.

(** An element of the list [updates]. *)
Record row := mk_row { r_title : string; r_content : string }.

(** [name in updates]: the name, a str, is compared with the elements of
    the list, which are dicts, and a str is equal to no dict. *)
Definition name_in (name : string) (updates : list row) : bool :=
  existsb (λ _, false) updates.

(** One turn of the loop. *)
Definition add_row (covid_updates news_updates : odict update)
    (updates : list row) (item : string * update) : list row :=
  let '(name, u) := item in
  if negb (name_in name updates) then
    let is_covid := has_key covid_updates name in
    let is_news := has_key news_updates name in
    let content := format_update u is_covid is_news in
    updates ++ [mk_row name content]
  else updates.

(** [format_updates], from the two registries and the list [updates] as
    it was, to the list as it is afterwards. *)
Definition format_updates (covid_updates news_updates : odict update)
    (updates : list row) : list row :=
  let updates := @nil row in
  let all_updates := merge covid_updates news_updates in
  foldl (add_row covid_updates news_updates) updates all_updates.

(** The row of a name of the COVID registry, and of a name the news
    registry alone has. *)
Definition covid_row (news_updates : odict update) (item : string * update) : row :=
  mk_row item.1
    (format_update (default item.2 (get news_updates item.1)) true
       (has_key news_updates item.1)).

Definition news_row (item : string * update) : row :=
  mk_row item.1 (format_update item.2 false true).

(** The value of [b] for the key of an item, where there is one. *)
Definition overridden {V} (b : odict V) (item : string * V) : string * V :=
  (item.1, default item.2 (get b item.1)).

End Updates.

(** * Properties *)

(** ** Formatting an update *)

(** C10: [format_update] returns "<time>, Updates <joined data types>,
    <repeat clause>", the data types being "Covid", "News" or
    "Covid & News" by the flags (a false flag leaves its type out) and the
    clause "Repeats" for a truthy [repeats], "Doesn't Repeat" otherwise;
    the two examples of the documentation evaluate as documented. *)
Theorem format_update_spec :
  (∀ (u : update) (covid news : bool),
     format_update u covid news
     = u_time u +:+ ", Updates " +:+ joined_data_types covid news
       +:+ ", " +:+ repeat_clause (u_repeats u))
  ∧ format_update (mk_update "01:23" (Some "repeat") None) true true
    = "01:23, Updates Covid & News, Repeats"
  ∧ format_update (mk_update "12:34" None None) false true
    = "12:34, Updates News, Doesn't Repeat".
Proof.
  split; [| split; reflexivity].
  intros u covid news. unfold format_update, repeat_clause.
  destruct covid, news; reflexivity.
Qed.

(** ** Running the computations *)

(** [schedule_covid_updates] on a name of the registry: one event more in
    the queue, kept as the handle of the entry. *)
Lemma schedule_covid_updates_present w delay name u s :
  covid_updates s !! name = Some u →
  schedule_covid_updates w delay name s
  = (Ok tt,
     mk_state (covid_data s)
       (<[name := mk_update (u_time u) (u_repeats u)
                    (Some (covid_event w delay name s))]> (covid_updates s))
       (mk_scheduler (queue (covid_s s) ++ [covid_event w delay name s])
                     (S (next_sequence (covid_s s))))
       (news_articles s) (blocked_articles s) (news_updates s) (news_s s)
       (log s)).
Proof.
  intros Hu. unfold schedule_covid_updates, getitem. py_unfold.
  rewrite Hu. cbn. rewrite Hu. reflexivity.
Qed.

Lemma schedule_news_updates_present w delay name u s :
  news_updates s !! name = Some u →
  schedule_news_updates w delay name s
  = (Ok tt,
     mk_state (covid_data s) (covid_updates s) (covid_s s)
       (news_articles s) (blocked_articles s)
       (<[name := mk_update (u_time u) (u_repeats u)
                    (Some (news_event w delay name s))]> (news_updates s))
       (mk_scheduler (queue (news_s s) ++ [news_event w delay name s])
                     (S (next_sequence (news_s s))))
       (log s)).
Proof.
  intros Hu. unfold schedule_news_updates, getitem. py_unfold.
  rewrite Hu. cbn. rewrite Hu. reflexivity.
Qed.

(** On a name that is not in the registry a placeholder entry is made and
    a warning logged before the event is armed. *)
Lemma schedule_covid_updates_absent w delay name s :
  covid_updates s !! name = None →
  schedule_covid_updates w delay name s
  = (Ok tt,
     mk_state (covid_data s)
       (<[name := mk_update "None" None (Some (covid_event w delay name s))]>
          (<[name := mk_update "None" None None]> (covid_updates s)))
       (mk_scheduler (queue (covid_s s) ++ [covid_event w delay name s])
                     (S (next_sequence (covid_s s))))
       (news_articles s) (blocked_articles s) (news_updates s) (news_s s)
       (log s ++ [(WARNING, "Update not found, dummy update created.")])).
Proof.
  intros Hu. unfold schedule_covid_updates, getitem. py_unfold.
  rewrite Hu. cbn. rewrite lookup_insert_eq. reflexivity.
Qed.

Lemma schedule_news_updates_absent w delay name s :
  news_updates s !! name = None →
  schedule_news_updates w delay name s
  = (Ok tt,
     mk_state (covid_data s) (covid_updates s) (covid_s s)
       (news_articles s) (blocked_articles s)
       (<[name := mk_update "None" None (Some (news_event w delay name s))]>
          (<[name := mk_update "None" None None]> (news_updates s)))
       (mk_scheduler (queue (news_s s) ++ [news_event w delay name s])
                     (S (next_sequence (news_s s))))
       (log s ++ [(WARNING, "Update not found, dummy update created.")])).
Proof.
  intros Hu. unfold schedule_news_updates, getitem. py_unfold.
  rewrite Hu. cbn. rewrite lookup_insert_eq. reflexivity.
Qed.

(** ** What each function leaves alone *)

Lemma articles_only_refl s : articles_only s s.
Proof. repeat split. Qed.

Lemma articles_only_trans s1 s2 s3 :
  articles_only s1 s2 → articles_only s2 s3 → articles_only s1 s3.
Proof.
  unfold articles_only. intros (?&?&?&?&?&?) (?&?&?&?&?&?).
  repeat split; congruence.
Qed.

(** A turn of the ingest loop appends at most the formatted article, and
    only one that is neither stored yet nor blocked. *)
Lemma ingest_article_effect a s :
  let s' := (ingest_article a s).2 in
  articles_only s s'
  ∧ (news_articles s' = news_articles s
     ∨ ∃ fa, news_articles s' = news_articles s ++ [fa]
             ∧ (fa ∉ news_articles s)
             ∧ is_blocked (a_title fa) (blocked_articles s) = false).
Proof.
  unfold ingest_article, articles_only. py_unfold.
  destruct (format_article a) as [fa|e]; cbn.
  2: { split; [done | now left]. }
  case_bool_decide as Hin; cbn.
  { split; [done | now left]. }
  destruct (is_blocked (a_title fa) (blocked_articles s)) eqn:Hb; cbn.
  { split; [done | now left]. }
  split; [done | right; eauto].
Qed.

(** The articles the ingest loop appends. *)
Lemma for_each_ingest_effect l s :
  let s' := (for_each l ingest_article s).2 in
  articles_only s s'
  ∧ ∃ added, news_articles s' = news_articles s ++ added
             ∧ (NoDup (news_articles s) → NoDup (news_articles s'))
             ∧ Forall (λ fa, is_blocked (a_title fa) (blocked_articles s) = false) added.
Proof.
  revert s. induction l as [|a l IH]; intros s.
  - split; [apply articles_only_refl |]. exists []. rewrite app_nil_r. auto.
  - cbn [for_each]. unfold bind.
    pose proof (ingest_article_effect a s) as Heff. cbv zeta in Heff.
    destruct (ingest_article a s) as [[[]|e] s1]; cbn [snd] in *;
      destruct Heff as [Hfr Hone].
    + specialize (IH s1) as [Hfr' (added & Happ & Hnd & Hall)].
      split; [eapply articles_only_trans; eauto |].
      assert (Hbl : blocked_articles s1 = blocked_articles s) by apply Hfr.
      rewrite Hbl in Hall.
      destruct Hone as [Heq | (fa & Heq & Hnin & Hnb)].
      * exists added. split; [by rewrite Happ, Heq |]. split; [| done].
        intros Hs. apply Hnd. by rewrite Heq.
      * exists (fa :: added). split; [by rewrite Happ, Heq, <- app_assoc |].
        split; [| by constructor].
        intros Hs. apply Hnd. rewrite Heq. apply NoDup_app. split; [done|]. split.
        -- intros x Hx Hx'. apply list_elem_of_singleton in Hx'. by subst.
        -- apply NoDup_singleton.
    + split; [done|].
      destruct Hone as [Heq | (fa & Heq & Hnin & Hnb)].
      * exists []. rewrite app_nil_r. split; [done|]. split; [by rewrite Heq | done].
      * exists [fa]. split; [done|]. split; [| by repeat constructor].
        intros Hs. rewrite Heq. apply NoDup_app. split; [done|]. split.
        -- intros x Hx Hx'. apply list_elem_of_singleton in Hx'. by subst.
        -- apply NoDup_singleton.
Qed.

(** The fetch itself only writes to the log. *)
Lemma news_API_request_effect w terms s :
  let s' := (news_API_request w terms s).2 in
  articles_only s s' ∧ news_articles s' = news_articles s.
Proof.
  unfold news_API_request, articles_only. py_unfold.
  destruct (String.eqb (news_API_key w) unset_key); cbn; [done|].
  destruct (response_articles w) as [l|]; cbn; [|done].
  destruct (filter_articles l terms) as [f|e]; cbn; [|done].
  destruct (length f =? 0)%nat; done.
Qed.

Lemma refresh_articles_effect w s :
  let s' := (refresh_articles w s).2 in
  articles_only s s'
  ∧ ∃ added, news_articles s' = news_articles s ++ added
             ∧ (NoDup (news_articles s) → NoDup (news_articles s'))
             ∧ Forall (λ fa, is_blocked (a_title fa) (blocked_articles s) = false) added.
Proof.
  unfold refresh_articles, bind. cbv zeta.
  pose proof (news_API_request_effect w (news_search_terms w) s) as Hreq.
  cbv zeta in Hreq.
  destruct (news_API_request w (news_search_terms w) s) as [[l|e] s1];
    cbn [snd] in *; destruct Hreq as [Hfr Heq].
  - pose proof (for_each_ingest_effect l s1) as [Hfr' (added & Happ & Hnd & Hall)].
    split; [eapply articles_only_trans; eauto |].
    exists added. rewrite <- Heq. split; [done|]. split; [done|].
    assert (Hbl : blocked_articles s1 = blocked_articles s) by apply Hfr.
    by rewrite <- Hbl.
  - split; [done|]. exists []. rewrite app_nil_r, Heq. auto.
Qed.

(** Two facts on the keys of a registry. *)
Lemma dom_insert_present (m : gmap string update) (k : string) (u v : update) :
  m !! k = Some u → dom (<[k := v]> m) ⊆ dom m.
Proof.
  intros Hk x. rewrite dom_insert_L, elem_of_union, elem_of_singleton.
  intros [-> | Hx]; [by apply elem_of_dom_2 in Hk | done].
Qed.

Lemma dom_delete_subseteq (m : gmap string update) (k : string) :
  dom (delete k m) ⊆ dom m.
Proof.
  intros x. rewrite dom_delete_L, elem_of_difference. by intros [Hx _].
Qed.

(** Settling the scheduled update touches the news registry and its
    scheduler only, and brings no new name into the registry. *)
Lemma settle_news_update_effect w name s :
  let s' := (settle_news_update w name s).2 in
  covid_data s' = covid_data s ∧ covid_updates s' = covid_updates s
  ∧ covid_s s' = covid_s s ∧ news_articles s' = news_articles s
  ∧ blocked_articles s' = blocked_articles s
  ∧ dom (news_updates s') ⊆ dom (news_updates s).
Proof.
  unfold settle_news_update. py_unfold.
  destruct name as [name|]; cbn; [|done].
  destruct (news_updates s !! name) as [u|] eqn:Hu; cbn.
  - destruct (truthy (u_repeats u)); cbn.
    + unfold bind.
      rewrite (schedule_news_updates_present _ _ _ u) by done. cbn.
      repeat split; try done. by eapply dom_insert_present.
    + repeat split; try done. apply dom_delete_subseteq.
  - destruct (negb (String.eqb name "")); done.
Qed.

Lemma update_news_effect w name s :
  let s' := (update_news w name s).2 in
  covid_data s' = covid_data s ∧ covid_updates s' = covid_updates s
  ∧ covid_s s' = covid_s s
  ∧ blocked_articles s' = blocked_articles s
  ∧ dom (news_updates s') ⊆ dom (news_updates s)
  ∧ ∃ added, news_articles s' = news_articles s ++ added
             ∧ (NoDup (news_articles s) → NoDup (news_articles s'))
             ∧ Forall (λ fa, is_blocked (a_title fa) (blocked_articles s) = false) added.
Proof.
  unfold update_news, bind. cbv zeta.
  pose proof (refresh_articles_effect w s) as Href. cbv zeta in Href.
  destruct (refresh_articles w s) as [[[]|e] s1]; cbn [snd] in *;
    destruct Href as [(Hd & Hcu & Hcs & Hbl & Hnu & Hns) (added & Happ & Hnd & Hall)].
  - pose proof (settle_news_update_effect w name s1) as (Hd' & Hcu' & Hcs' & Hart & Hbl' & Hdom).
    cbv zeta in *. rewrite Hnu in Hdom.
    split; [congruence|]. split; [congruence|]. split; [congruence|].
    split; [congruence|]. split; [exact Hdom|].
    exists added. by rewrite Hart.
  - split; [done|]. split; [done|]. split; [done|]. split; [done|].
    split; [by rewrite Hnu|]. by exists added.
Qed.

(** [run_covid_update] leaves the news side alone and brings no new name
    into the COVID registry. *)
Lemma run_covid_update_effect w name s :
  let s' := (run_covid_update w name s).2 in
  news_articles s' = news_articles s ∧ blocked_articles s' = blocked_articles s
  ∧ news_updates s' = news_updates s ∧ news_s s' = news_s s
  ∧ dom (covid_updates s') ⊆ dom (covid_updates s).
Proof.
  unfold run_covid_update, covid_API_request, getitem. py_unfold. cbn.
  destruct (covid_updates s !! name) as [u|] eqn:Hu; cbn; [|done].
  destruct (truthy (u_repeats u)); cbn.
  - unfold bind. erewrite schedule_covid_updates_present by (cbn; exact Hu). cbn.
    repeat split; try done. by eapply dom_insert_present.
  - repeat split; try done. apply dom_delete_subseteq.
Qed.

(** [create_covid_update] on a time that parses: the entry is written and
    one event armed after [delay_seconds]. *)
Lemma create_covid_update_ok w update_time name repeats target s :
  DateTime.strptime_HM update_time = Some target →
  let ev := covid_event w (delay_seconds target (datetime_now w)) name s in
  create_covid_update w update_time name repeats s
  = (Ok tt,
     mk_state (covid_data s)
       (<[name := mk_update update_time repeats (Some ev)]>
          (<[name := mk_update update_time repeats None]> (covid_updates s)))
       (mk_scheduler (queue (covid_s s) ++ [ev]) (S (next_sequence (covid_s s))))
       (news_articles s) (blocked_articles s) (news_updates s) (news_s s)
       (log s ++ [(INFO, repeating repeats +:+ " COVID update '" +:+ name
                         +:+ "' created for " +:+ update_time +:+ ".")])).
Proof.
  intros Ht ev. unfold create_covid_update, strptime. py_unfold. rewrite Ht. cbn.
  erewrite schedule_covid_updates_present by (cbn; apply lookup_insert_eq).
  reflexivity.
Qed.

Lemma create_news_update_ok w update_time name repeats target s :
  DateTime.strptime_HM update_time = Some target →
  let ev := news_event w (delay_seconds target (datetime_now w)) name s in
  create_news_update w update_time name repeats s
  = (Ok tt,
     mk_state (covid_data s) (covid_updates s) (covid_s s)
       (news_articles s) (blocked_articles s)
       (<[name := mk_update update_time repeats (Some ev)]>
          (<[name := mk_update update_time repeats None]> (news_updates s)))
       (mk_scheduler (queue (news_s s) ++ [ev]) (S (next_sequence (news_s s))))
       (log s ++ [(INFO, repeating repeats +:+ " news update '" +:+ name
                         +:+ "' created for " +:+ update_time +:+ ".")])).
Proof.
  intros Ht ev. unfold create_news_update, strptime. py_unfold. rewrite Ht. cbn.
  erewrite schedule_news_updates_present by (cbn; apply lookup_insert_eq).
  reflexivity.
Qed.

(** On a time that does not parse the entry stays behind, without a
    handle, and the [ValueError] goes to the caller. *)
Lemma create_covid_update_bad_time w update_time name repeats s :
  DateTime.strptime_HM update_time = None →
  create_covid_update w update_time name repeats s
  = (Raise (ValueError "time data does not match format '%H:%M'"),
     set_covid_updates <[name := mk_update update_time repeats None]> s).
Proof.
  intros Ht. unfold create_covid_update, strptime. py_unfold. now rewrite Ht.
Qed.

Lemma create_news_update_bad_time w update_time name repeats s :
  DateTime.strptime_HM update_time = None →
  create_news_update w update_time name repeats s
  = (Raise (ValueError "time data does not match format '%H:%M'"),
     set_news_updates <[name := mk_update update_time repeats None]> s).
Proof.
  intros Ht. unfold create_news_update, strptime. py_unfold. now rewrite Ht.
Qed.

Lemma dom_insert_twice (m : gmap string update) (k : string) (u v : update) :
  dom (<[k := v]> (<[k := u]> m)) = {[k]} ∪ dom m.
Proof. rewrite insert_insert_eq. apply dom_insert_L. Qed.

Lemma create_covid_update_effect w update_time name repeats s :
  let s' := (create_covid_update w update_time name repeats s).2 in
  news_articles s' = news_articles s ∧ blocked_articles s' = blocked_articles s
  ∧ news_updates s' = news_updates s ∧ news_s s' = news_s s
  ∧ dom (covid_updates s') = {[name]} ∪ dom (covid_updates s).
Proof.
  destruct (DateTime.strptime_HM update_time) as [target|] eqn:Ht; cbv zeta.
  - rewrite (create_covid_update_ok _ _ _ _ target) by done. cbn.
    repeat split; try done. apply dom_insert_twice.
  - rewrite create_covid_update_bad_time by done. cbn.
    repeat split; try done. apply dom_insert_L.
Qed.

Lemma create_news_update_effect w update_time name repeats s :
  let s' := (create_news_update w update_time name repeats s).2 in
  news_articles s' = news_articles s ∧ blocked_articles s' = blocked_articles s
  ∧ covid_updates s' = covid_updates s ∧ covid_s s' = covid_s s
  ∧ covid_data s' = covid_data s
  ∧ dom (news_updates s') = {[name]} ∪ dom (news_updates s).
Proof.
  destruct (DateTime.strptime_HM update_time) as [target|] eqn:Ht; cbv zeta.
  - rewrite (create_news_update_ok _ _ _ _ target) by done. cbn.
    repeat split; try done. apply dom_insert_twice.
  - rewrite create_news_update_bad_time by done. cbn.
    repeat split; try done. apply dom_insert_L.
Qed.

(** [remove_update] brings no name into either registry and leaves the
    articles alone. *)
Lemma remove_update_effect name s :
  let s' := (remove_update name s).2 in
  news_articles s' = news_articles s ∧ blocked_articles s' = blocked_articles s
  ∧ dom (covid_updates s') ⊆ dom (covid_updates s)
  ∧ dom (news_updates s') ⊆ dom (news_updates s).
Proof.
  unfold remove_update. py_unfold.
  case_bool_decide as Hc; cbn.
  - destruct (get_handle (covid_updates s) name) as [e|x]; cbn; [|done].
    destruct (Sched.cancel e (covid_s s)) as [sc|x]; cbn; [|done].
    case_bool_decide as Hn; cbn.
    + destruct (get_handle (news_updates s) name) as [e'|x]; cbn.
      * destruct (Sched.cancel e' (news_s s)) as [sc'|x]; cbn;
          repeat split; try done; apply dom_delete_subseteq.
      * repeat split; try done. apply dom_delete_subseteq.
    + repeat split; try done. apply dom_delete_subseteq.
  - case_bool_decide as Hn; cbn; [|done].
    destruct (get_handle (news_updates s) name) as [e'|x]; cbn; [|done].
    destruct (Sched.cancel e' (news_s s)) as [sc'|x]; cbn;
      repeat split; try done; apply dom_delete_subseteq.
Qed.

(** ** The loop of [block_article] *)

Lemma lookup_app_length {A} (pre rest : list A) :
  (pre ++ rest) !! length pre = rest !! 0%nat.
Proof. rewrite lookup_app_r by lia. by rewrite Nat.sub_diag. Qed.

Lemma delete_app_length {A} (pre : list A) (a : A) (rest : list A) :
  delete (length pre) (pre ++ a :: rest) = pre ++ rest.
Proof. induction pre as [|x pre IH]; [done|]. cbn. f_equal. exact IH. Qed.

(** The loop with the iterator at [length pre], for any fuel that covers
    the unvisited part. *)
Lemma block_loop_spec fuel title :
  ∀ pre rest s,
    news_articles s = pre ++ rest →
    (length rest ≤ fuel)%nat →
    block_loop fuel title (length pre) s
    = (Ok tt, set_news_articles (λ _, pre ++ block_skip title rest) s).
Proof.
  induction fuel as [|fuel IH]; intros pre rest s Hs Hlen.
  - destruct rest; [|cbn in Hlen; lia].
    cbn. unfold ret, set_news_articles. rewrite <- Hs. by destruct s.
  - cbn [block_loop]. unfold bind at 1, get. cbv beta iota.
    rewrite Hs, lookup_app_length.
    destruct rest as [|a rest]; cbn [lookup list_lookup].
    { unfold ret, set_news_articles. cbn. rewrite <- Hs. by destruct s. }
    cbn [block_skip]. unfold when.
    destruct (bool_decide (PStr title = a_title a)).
    + unfold bind, modify. cbn beta iota.
      destruct rest as [|b rest].
      * assert (Hs' : news_articles (set_news_articles (delete (length pre)) s) = pre ++ []).
        { cbn. by rewrite Hs, delete_app_length. }
        destruct fuel as [|fuel].
        -- cbn. unfold ret, set_news_articles. cbn. by rewrite Hs, delete_app_length.
        -- cbn [block_loop]. unfold bind, get.
           rewrite Hs', app_nil_r, lookup_ge_None_2 by (cbn; lia).
           unfold ret, set_news_articles. cbn. by rewrite Hs, delete_app_length, app_nil_r.
      * assert (Hs' : news_articles (set_news_articles (delete (length pre)) s)
                      = (pre ++ [b]) ++ rest).
        { cbn. by rewrite Hs, delete_app_length, <- app_assoc. }
        replace (S (length pre)) with (length (pre ++ [b]))
          by (rewrite length_app; cbn; lia).
        rewrite (IH _ _ _ Hs') by (cbn in Hlen; lia).
        unfold set_news_articles. cbn. by rewrite <- app_assoc.
    + unfold bind, ret. cbn beta iota.
      assert (Hs' : news_articles s = (pre ++ [a]) ++ rest)
        by (by rewrite Hs, <- app_assoc).
      replace (S (length pre)) with (length (pre ++ [a]))
        by (rewrite length_app; cbn; lia).
      rewrite (IH _ _ _ Hs') by (cbn in Hlen; lia).
      unfold set_news_articles. cbn. by rewrite <- app_assoc.
Qed.

(** [block_article] in one step. *)
Lemma block_article_spec title s :
  block_article title s
  = (Ok tt,
     mk_state (covid_data s) (covid_updates s) (covid_s s)
       (block_skip title (news_articles s))
       (blocked_articles s ++ [title])
       (news_updates s) (news_s s)
       (log s ++ [(INFO, "Article '" +:+ title +:+ "' blocked.")])).
Proof.
  unfold block_article. unfold bind at 1 2 3, modify, get. cbv beta iota.
  set (s1 := set_blocked_articles _ s).
  assert (Hs1 : news_articles s1 = [] ++ news_articles s) by done.
  change (news_articles s1) with (news_articles s) at 1.
  pose proof (block_loop_spec (length (news_articles s)) title [] _ s1 Hs1) as Hl.
  cbn [length app] in Hl. rewrite Hl by (cbn; lia).
  reflexivity.
Qed.

(** The loop only removes. *)
Lemma block_skip_sublist title l : block_skip title l `sublist_of` l.
Proof.
  assert (H : ∀ n l, (length l ≤ n)%nat → block_skip title l `sublist_of` l).
  { clear l. induction n as [|n IH]; intros [|a l] Hlen;
      [constructor | cbn in Hlen; lia | constructor |].
    cbn [block_skip]. cbn in Hlen.
    destruct (bool_decide (PStr title = a_title a)).
    - destruct l as [|b l]; [apply sublist_nil_l|].
      apply sublist_cons, sublist_skip. apply IH. cbn in Hlen. lia.
    - apply sublist_skip. apply IH. lia. }
  by apply (H (length l)).
Qed.

Lemma union_lookup_None (a b : gmap string update) (k : string) :
  (b ∪ a) !! k = None ↔ ¬ (is_Some (a !! k) ∨ is_Some (b !! k)).
Proof.
  rewrite lookup_union_None, !eq_None_not_Some. tauto.
Qed.

(** [create_update] adds at most its own name, to the registries it was
    asked for, and nothing at all when the name is taken. *)
Lemma create_update_effect w sched_time req s :
  let s' := (create_update w sched_time req s).2 in
  news_articles s' = news_articles s ∧ blocked_articles s' = blocked_articles s
  ∧ dom (covid_updates s') ⊆ dom (covid_updates s) ∪ requested (covid_data_arg req) (two req)
  ∧ dom (news_updates s') ⊆ dom (news_updates s) ∪ requested (news_arg req) (two req)
  ∧ (name_taken (two req) s →
     covid_updates s' = covid_updates s ∧ news_updates s' = news_updates s).
Proof.
  remember (create_update w sched_time req s) as r eqn:Hr.
  unfold create_update, requested in *. unfold bind at 1, get in Hr.
  cbv beta iota zeta in *.
  case_bool_decide as Hfree.
  2: { subst r. unfold logging, modify. cbn.
       repeat split; try done; apply union_subseteq_l. }
  apply union_lookup_None in Hfree.
  unfold bind at 1 in Hr.
  destruct (truthy (covid_data_arg req)) eqn:Hc; cbn [when] in Hr.
  - pose proof (create_covid_update_effect w sched_time (two req) (repeat req) s) as Hcov.
    cbv zeta in Hcov.
    destruct (create_covid_update w sched_time (two req) (repeat req) s)
      as [[[]|e] s1]; cbn [snd] in *;
      destruct Hcov as (Ha & Hb & Hnu & Hns & Hdom).
    + unfold bind at 1 in Hr.
      destruct (truthy (news_arg req)) eqn:Hn; cbn [when] in Hr.
      * pose proof (create_news_update_effect w sched_time (two req) (repeat req) s1) as Hnews.
        cbv zeta in Hnews.
        destruct (create_news_update w sched_time (two req) (repeat req) s1)
          as [[[]|e] s2]; cbn [snd negb andb when ret] in *;
          destruct Hnews as (Ha' & Hb' & Hcu' & _ & _ & Hdom'); subst r; unfold ret; cbn [snd];
          (split; [congruence|]); (split; [congruence|]);
          (split; [rewrite Hcu', Hdom; set_solver|]);
          (split; [rewrite Hdom', Hnu; set_solver|]); tauto.
      * subst r. cbn. rewrite Hnu, Hdom.
        repeat split; try done; try tauto; set_solver.
    + subst r. cbn [snd]. rewrite Hnu, Hdom.
      repeat split; try done; try tauto; set_solver.
  - unfold ret at 1 in Hr. cbv beta iota in Hr. unfold bind at 1 in Hr.
    destruct (truthy (news_arg req)) eqn:Hn; cbn [when] in Hr.
    + pose proof (create_news_update_effect w sched_time (two req) (repeat req) s) as Hnews.
      cbv zeta in Hnews.
      destruct (create_news_update w sched_time (two req) (repeat req) s)
        as [[[]|e] s2]; cbn [snd negb andb when ret] in *;
        destruct Hnews as (Ha' & Hb' & Hcu' & _ & _ & Hdom'); subst r; unfold ret; cbn [snd];
        (split; [congruence|]); (split; [congruence|]);
        (split; [rewrite Hcu'; set_solver|]);
        (split; [rewrite Hdom'; set_solver|]); tauto.
    + subst r. cbn. repeat split; try done; try tauto; set_solver.
Qed.

(** ** Operations and reachable states *)

Lemma no_new_names_refl s : no_new_names s s.
Proof. by split. Qed.

Lemma store_kept_refl s : store_kept s s.
Proof. by split. Qed.

Lemma call_action_effect w a argument s :
  let s' := (call_action w a argument s).2 in
  no_new_names s s' ∧ store_kept s s'.
Proof.
  unfold call_action, no_new_names, store_kept. cbv zeta.
  destruct a; destruct (PyStr.chars argument) as [|x [|y l]]; cbn [raise snd];
    try done.
  - pose proof (run_covid_update_effect w x s) as (Ha & Hb & Hn & _ & Hd).
    cbv zeta in *. rewrite Ha, Hb, Hn. done.
  - pose proof (update_news_effect w None s) as (_ & Hc & _ & Hb & Hd & added & _ & Hnd & _).
    cbv zeta in *. rewrite Hc, Hb. done.
  - pose proof (update_news_effect w (Some x) s) as (_ & Hc & _ & Hb & Hd & added & _ & Hnd & _).
    cbv zeta in *. rewrite Hc, Hb. done.
Qed.

Lemma run_step_effect sel upd w s :
  (∀ f s0, covid_updates (upd f s0) = covid_updates s0
           ∧ news_updates (upd f s0) = news_updates s0
           ∧ news_articles (upd f s0) = news_articles s0
           ∧ blocked_articles (upd f s0) = blocked_articles s0) →
  let s' := (run_step sel upd w s).2 in
  no_new_names s s' ∧ store_kept s s'.
Proof.
  intros Hupd. cbv zeta.
  remember (run_step sel upd w s) as r eqn:Hr.
  unfold run_step in Hr. unfold bind at 1, get in Hr. cbv beta iota in Hr.
  destruct (Sched.head (queue (sel s))) as [e|];
    [| subst r; split; [apply no_new_names_refl | apply store_kept_refl]].
  destruct (time_time w <? ev_time e);
    [subst r; split; [apply no_new_names_refl | apply store_kept_refl] |].
  unfold bind at 1, modify in Hr. cbv beta iota in Hr.
  destruct (Hupd (Sched.pop e) s) as (Hc & Hn & Ha & Hb).
  pose proof (call_action_effect w (ev_action e) (ev_argument e) (upd (Sched.pop e) s))
    as Hcall.
  unfold bind, ret in Hr. cbv zeta in Hcall.
  destruct (call_action w (ev_action e) (ev_argument e) (upd (Sched.pop e) s))
    as [[[]|x] s1]; subst r; cbn [snd] in *;
    unfold no_new_names, store_kept in *; rewrite Hc, Hn, Ha, Hb in Hcall; exact Hcall.
Qed.

Lemma bind_ret_snd {A} (c : py A) (s : state) : ((c >> ret tt) s).2 = (c s).2.
Proof. unfold bind, ret. by destruct (c s) as [[a|e] s1]. Qed.

Lemma exec_no_new_names w o s :
  ¬ is_create o → no_new_names s (exec w o s).2.
Proof.
  intros Hnc. destruct o as [t req|name|title|name|name| |]; cbn [exec].
  - by destruct Hnc.
  - pose proof (remove_update_effect name s) as (_ & _ & Hc & Hn). by split.
  - rewrite block_article_spec. by split.
  - pose proof (run_covid_update_effect w name s) as (_ & _ & Hn & _ & Hd).
    cbv zeta in *. split; [done | by rewrite Hn].
  - pose proof (update_news_effect w name s) as (_ & Hc & _ & _ & Hd & _).
    cbv zeta in *. split; [by rewrite Hc | done].
  - rewrite bind_ret_snd. by apply run_step_effect.
  - rewrite bind_ret_snd. by apply run_step_effect.
Qed.

Lemma exec_store_kept w o s : store_kept s (exec w o s).2.
Proof.
  destruct o as [t req|name|title|name|name| |]; cbn [exec].
  - pose proof (create_update_effect w t req s) as (Ha & Hb & _).
    cbv zeta in *. unfold store_kept. by rewrite Ha, Hb.
  - pose proof (remove_update_effect name s) as (Ha & Hb & _).
    cbv zeta in *. unfold store_kept. by rewrite Ha, Hb.
  - rewrite block_article_spec. split; cbn.
    + intros Hnd. exact (sublist_NoDup _ _ Hnd (block_skip_sublist _ _)).
    + intros x Hx. apply elem_of_app. by left.
  - pose proof (run_covid_update_effect w name s) as (Ha & Hb & _).
    cbv zeta in *. unfold store_kept. by rewrite Ha, Hb.
  - pose proof (update_news_effect w name s) as (_ & _ & _ & Hb & _ & added & _ & Hnd & _).
    cbv zeta in *. unfold store_kept. by rewrite Hb.
  - rewrite bind_ret_snd. by apply run_step_effect.
  - rewrite bind_ret_snd. by apply run_step_effect.
Qed.

(** ** Names and registries *)

(** C1, as stated, fails: one [create_update] that asks for both data
    sets puts its name in both registries. *)
Lemma registries_disjoint_fails :
  ¬ (∀ s, reachable s → registries_disjoint s).
Proof.
  intros H.
  apply (H (exec sample_world (op_create_update "12:00" request_both) initial_state).2
           (reach_exec _ _ _ _ (reach_initial _) I) "daily").
  split; eexists; vm_compute; reflexivity.
Qed.

(** C1, amended: as long as every [create_update] asks for one data set
    at most, no name is ever a key of both registries, whatever sequence
    of creations, removals, blocked articles and fired updates led to the
    state. *)
Theorem registries_disjoint_one_domain (s : state) :
  reachable_by one_domain s → registries_disjoint s.
Proof.
  induction 1 as [|s w o Hreach IH Hallowed].
  - intros name [[u Hu] _]. cbn in Hu. by rewrite lookup_empty in Hu.
  - assert (Hdec : is_create o ∨ ¬ is_create o)
      by (destruct o; cbn; tauto).
    destruct Hdec as [Hc | Hnc].
    + destruct o as [t req| | | | | |]; try by destruct Hc.
      cbn [exec]. cbn in Hallowed.
      pose proof (create_update_effect w t req s) as (_ & _ & Hcov & Hnews & Htaken).
      cbv zeta in *. unfold requested in *.
      intros name [Hin_c Hin_n].
      apply elem_of_dom in Hin_c, Hin_n.
      assert (Hdec : name_taken (two req) s ∨ ¬ name_taken (two req) s).
      { unfold name_taken.
        destruct (covid_updates s !! two req), (news_updates s !! two req);
          first [ left; left; by eexists | left; right; by eexists
                | right; intros [[? ?] | [? ?]]; discriminate ]. }
      destruct Hdec as [Ht | Hfree].
      * destruct (Htaken Ht) as [Ec En]. rewrite Ec, En in *.
        apply (IH name). split; by apply elem_of_dom.
      * apply Hcov in Hin_c. apply Hnews in Hin_n.
        apply elem_of_union in Hin_c as [Hc1 | Hc1];
          apply elem_of_union in Hin_n as [Hn1 | Hn1].
        -- apply (IH name). split; by apply elem_of_dom.
        -- destruct (truthy (news_arg req)); [| by apply not_elem_of_empty in Hn1].
           apply elem_of_singleton in Hn1 as ->.
           apply Hfree. left. by apply elem_of_dom.
        -- destruct (truthy (covid_data_arg req)); [| by apply not_elem_of_empty in Hc1].
           apply elem_of_singleton in Hc1 as ->.
           apply Hfree. right. by apply elem_of_dom.
        -- destruct (truthy (covid_data_arg req)); [| by apply not_elem_of_empty in Hc1].
           destruct (truthy (news_arg req)); [| by apply not_elem_of_empty in Hn1].
           by apply Hallowed.
    + pose proof (exec_no_new_names w o s Hnc) as [Hcov Hnews].
      intros name [Hin_c Hin_n].
      apply elem_of_dom in Hin_c, Hin_n.
      apply (IH name). split; apply elem_of_dom; auto.
Qed.

Lemma registries_disjoint_one_domain_witness :
  reachable_by one_domain
    (exec sample_world (op_create_update "12:00" request_covid) initial_state).2
  ∧ registries_disjoint
      (exec sample_world (op_create_update "12:00" request_covid) initial_state).2.
Proof.
  assert (Hr : reachable_by one_domain
                 (exec sample_world (op_create_update "12:00" request_covid) initial_state).2).
  { apply reach_exec; [apply reach_initial |]. cbn. intros [_ Hn]. discriminate Hn. }
  split; [exact Hr | exact (registries_disjoint_one_domain _ Hr)].
Defined.

(** ** A name that is taken *)

(** C4: [create_update] with a name that is a key of either registry
    returns normally and changes nothing but the log, which gets exactly
    one warning: both registries and both scheduler queues are as
    before. *)
Theorem create_update_name_taken (w : world) (sched_time : string)
    (req : request) (s : state) :
  name_taken (two req) s →
  ∃ s', create_update w sched_time req s = (Ok tt, s')
        ∧ covid_updates s' = covid_updates s
        ∧ news_updates s' = news_updates s
        ∧ covid_s s' = covid_s s
        ∧ news_s s' = news_s s
        ∧ log s' = log s ++ [(WARNING, "Update name already exists.")].
Proof.
  intros Htaken. unfold create_update. unfold bind, get.
  case_bool_decide as Hfree.
  - apply union_lookup_None in Hfree. by destruct Hfree.
  - unfold logging, modify. eexists. split; [reflexivity|]. by cbn.
Qed.

Lemma create_update_name_taken_witness :
  let s := (exec sample_world (op_create_update "12:00" request_covid) initial_state).2 in
  name_taken "daily" s
  ∧ ∃ s', create_update sample_world "13:30" request_news s = (Ok tt, s')
          ∧ covid_updates s' = covid_updates s
          ∧ news_updates s' = news_updates s
          ∧ covid_s s' = covid_s s
          ∧ news_s s' = news_s s
          ∧ log s' = log s ++ [(WARNING, "Update name already exists.")].
Proof.
  intros s.
  assert (Ht : name_taken (two request_news) s).
  { left. eexists. vm_compute. reflexivity. }
  split; [exact Ht |].
  exact (create_update_name_taken sample_world "13:30" request_news s Ht).
Defined.

(** ** The delay of a new update *)

Lemma check_hhmm_all :
  forallb (λ h, forallb (λ m, check_hhmm (Z.of_nat h) (Z.of_nat m)) (seq 0 60))
          (seq 0 24) = true.
Proof. vm_compute. reflexivity. Qed.

(** Every "HH:MM" text parses to its hour and minute on 1900-01-01. *)
Lemma strptime_hhmm (h m : Z) :
  0 ≤ h < 24 → 0 ≤ m < 60 →
  DateTime.strptime_HM (DateTime.hhmm h m)
  = Some (DateTime.mk_datetime DateTime.ordinal_1900 h m 0 0).
Proof.
  intros Hh Hm.
  pose proof check_hhmm_all as Hall.
  rewrite forallb_forall in Hall.
  specialize (Hall (Z.to_nat h)).
  rewrite forallb_forall in Hall.
  assert (Hc : check_hhmm h m = true).
  { rewrite <- (Z2Nat.id h), <- (Z2Nat.id m) by lia.
    apply Hall; apply in_seq; lia. }
  unfold check_hhmm in Hc.
  destruct (DateTime.strptime_HM (DateTime.hhmm h m)) as [[o hh mm ss us]|];
    [| discriminate].
  cbn in Hc. repeat (apply andb_prop in Hc as [Hc ?]).
  repeat match goal with H : (_ =? _) = true |- _ => apply Z.eqb_eq in H end.
  congruence.
Qed.

(** Whole seconds of a difference in microseconds, within one day. *)
Lemma seconds_of_day (a u : Z) :
  (a + (0 - u) / 1000000) mod 86400
  = ((a * 1000000 - u) mod 86400000000) / 1000000.
Proof.
  change 86400000000 with (1000000 * 86400).
  rewrite Z.rem_mul_r by lia.
  rewrite (Z.mul_comm 1000000), Z.div_add by lia.
  rewrite (Z.div_small ((a * 1000000 - u) mod 1000000)) by (apply Z.mod_pos_bound; lia).
  replace (a * 1000000 - u) with ((0 - u) + a * 1000000) by lia.
  rewrite Z.div_add by lia.
  by rewrite Z.add_0_l, (Z.add_comm a).
Qed.

(** C5: for a valid "HH:MM" target and any wall-clock time, both
    [create_covid_update] and [create_news_update] return normally and arm
    their event [wrapped_delay] seconds after the scheduler's clock: the
    seconds-of-day difference between target and now, wrapped by the
    subtraction of the two date-times; that delay lies in [0, 86400). *)
Theorem create_update_delay (h m : Z) (w : world) (name : string)
    (repeats : option string) (s : state) :
  0 ≤ h < 24 → 0 ≤ m < 60 →
  let delay := wrapped_delay h m (datetime_now w) in
  0 ≤ delay < 86400
  ∧ (∃ s', create_covid_update w (DateTime.hhmm h m) name repeats s = (Ok tt, s')
           ∧ queue (covid_s s')
             = queue (covid_s s)
               ++ [mk_event (time_time w + delay) 1 (next_sequence (covid_s s))
                            act_run_covid_update name])
  ∧ (∃ s', create_news_update w (DateTime.hhmm h m) name repeats s = (Ok tt, s')
           ∧ queue (news_s s')
             = queue (news_s s)
               ++ [mk_event (time_time w + delay) 1 (next_sequence (news_s s))
                            act_update_news name]).
Proof.
  intros Hh Hm delay.
  assert (Hdelay : delay_seconds (DateTime.mk_datetime DateTime.ordinal_1900 h m 0 0)
                                 (datetime_now w) = delay).
  { unfold delay, wrapped_delay, second_of_day, delay_seconds, DateTime.sub,
      DateTime.new_timedelta. cbn.
    rewrite <- seconds_of_day. f_equal. lia. }
  split.
  { unfold delay, wrapped_delay.
    pose proof (Z.mod_pos_bound
      ((h * 3600 + m * 60 - second_of_day (datetime_now w)) * 1000000
       - DateTime.microsecond (datetime_now w)) 86400000000 ltac:(lia)) as Hb.
    split; [apply Z.div_pos; lia |].
    apply Z.div_lt_upper_bound; lia. }
  split.
  - pose proof (create_covid_update_ok w _ name repeats _ s (strptime_hhmm h m Hh Hm))
      as Hok.
    cbv zeta in Hok. rewrite Hdelay in Hok.
    eexists. split; [exact Hok | reflexivity].
  - pose proof (create_news_update_ok w _ name repeats _ s (strptime_hhmm h m Hh Hm))
      as Hok.
    cbv zeta in Hok. rewrite Hdelay in Hok.
    eexists. split; [exact Hok | reflexivity].
Qed.

Lemma create_update_delay_witness :
  wrapped_delay 9 30 (datetime_now sample_world) = 84600
  ∧ ∃ s', create_covid_update sample_world "09:30" "daily" None initial_state = (Ok tt, s')
          ∧ queue (covid_s s')
            = [mk_event (1000 + 84600) 1 0 act_run_covid_update "daily"].
Proof.
  split; [reflexivity |].
  destruct (create_update_delay 9 30 sample_world "daily" None initial_state
              ltac:(lia) ltac:(lia)) as (_ & (s' & Hrun & Hq) & _).
  exists s'. split; [exact Hrun | exact Hq].
Defined.

(** ** A fired update *)

(** C2, as stated, fails: with the API key unset the fetch of [update_news]
    raises before the update is settled, and the entry of a non-repeating
    update called "daily" is still in the registry afterwards. *)
Lemma fired_news_update_stays :
  let s := (exec keyless_world (op_create_update "12:00" request_news) initial_state).2 in
  (∃ u, news_updates s !! "daily" = Some u ∧ truthy (u_repeats u) = false)
  ∧ (update_news keyless_world (Some "daily") s).1
    = Raise (ValueError "The news API key has not been set in config.json")
  ∧ is_Some (news_updates (update_news keyless_world (Some "daily") s).2 !! "daily").
Proof.
  cbv zeta. split; [| split].
  - eexists. split; [vm_compute; reflexivity | reflexivity].
  - vm_compute. reflexivity.
  - eexists. vm_compute. reflexivity.
Qed.

(** C2, amended: when the action of an update is run with the name of
    an entry of its registry and its data refresh returns normally, then
    for a truthy [repeats] the entry stays, with its time text, and
    exactly one event is added to the queue, due the configured interval
    after the scheduler's clock; otherwise the entry is gone and the
    queue is as it was. *)
Theorem fired_update_settles (w : world) (name : string) (s : state) :
  (∀ u, covid_updates s !! name = Some u →
     ∃ s', run_covid_update w name s = (Ok tt, s')
           ∧ if truthy (u_repeats u) then
               let ev := mk_event (time_time w + covid_update_interval_seconds w) 1
                           (next_sequence (covid_s s)) act_run_covid_update name in
               covid_updates s' !! name
               = Some (mk_update (u_time u) (u_repeats u) (Some ev))
               ∧ queue (covid_s s') = queue (covid_s s) ++ [ev]
             else
               covid_updates s' !! name = None
               ∧ queue (covid_s s') = queue (covid_s s))
  ∧ (∀ u s1, news_updates s !! name = Some u →
       refresh_articles w s = (Ok tt, s1) →
       ∃ s', update_news w (Some name) s = (Ok tt, s')
             ∧ if truthy (u_repeats u) then
                 let ev := mk_event (time_time w + news_update_interval_seconds w) 1
                             (next_sequence (news_s s)) act_update_news name in
                 news_updates s' !! name
                 = Some (mk_update (u_time u) (u_repeats u) (Some ev))
                 ∧ queue (news_s s') = queue (news_s s) ++ [ev]
               else
                 news_updates s' !! name = None
                 ∧ queue (news_s s') = queue (news_s s)).
Proof.
  split.
  - intros u Hu.
    unfold run_covid_update, covid_API_request, getitem. py_unfold. cbn.
    rewrite Hu. cbn.
    destruct (truthy (u_repeats u)); cbn.
    + unfold bind. erewrite schedule_covid_updates_present by (cbn; exact Hu). cbn.
      eexists. split; [reflexivity|]. cbn. split; [apply lookup_insert_eq | done].
    + eexists. split; [reflexivity|]. cbn. split; [apply lookup_delete_eq | done].
  - intros u s1 Hu Href.
    pose proof (refresh_articles_effect w s) as [(_ & _ & _ & _ & Hnu & Hns) _].
    cbv zeta in *. rewrite Href in Hnu, Hns. cbn [snd] in Hnu, Hns.
    unfold update_news. unfold bind at 1. rewrite Href.
    unfold settle_news_update. unfold bind at 1, get. rewrite Hnu, Hu.
    unfold bind at 1, logging, modify.
    destruct (truthy (u_repeats u)).
    + unfold bind.
      erewrite schedule_news_updates_present by (cbn; rewrite Hnu; exact Hu). cbn.
      eexists. split; [reflexivity|]. unfold news_event. cbn. rewrite Hnu, Hns.
      split; [apply lookup_insert_eq | done].
    + unfold bind. cbn.
      eexists. split; [reflexivity|]. cbn. rewrite Hnu, Hns.
      split; [apply lookup_delete_eq | done].
Qed.

Lemma fired_update_settles_witness :
  (∃ s', run_covid_update sample_world "daily" sample_covid_state = (Ok tt, s')
         ∧ covid_updates s' !! "daily" = None
         ∧ queue (covid_s s') = queue (covid_s sample_covid_state))
  ∧ (∃ s', update_news sample_world (Some "daily") sample_news_state = (Ok tt, s')
           ∧ is_Some (news_updates s' !! "daily")
           ∧ queue (news_s s')
             = queue (news_s sample_news_state)
               ++ [mk_event (1000 + 3600) 1 1 act_update_news "daily"]).
Proof.
  split.
  - destruct (fired_update_settles sample_world "daily" sample_covid_state) as [Hc _].
    edestruct Hc as (s' & Hrun & Hpost); [vm_compute; reflexivity |].
    cbn in Hpost. destruct Hpost as [Hgone Hq].
    exists s'. split; [exact Hrun |]. split; [exact Hgone | exact Hq].
  - destruct (fired_update_settles sample_world "daily" sample_news_state) as [_ Hn].
    edestruct Hn as (s' & Hrun & Hpost);
      [vm_compute; reflexivity | vm_compute; reflexivity |].
    cbn in Hpost. destruct Hpost as [Hstay Hq].
    exists s'. split; [exact Hrun |]. split; [by eexists | exact Hq].
Defined.

(** ** Names that are not in a registry *)

(** C3, as stated, fails: cancelling a name that is in neither registry
    returns normally and changes nothing, the log included, so that no
    warning is logged. *)
Lemma unknown_name_no_warning :
  covid_updates initial_state !! "ghost" = None
  ∧ news_updates initial_state !! "ghost" = None
  ∧ remove_update "ghost" initial_state = (Ok tt, initial_state)
  ∧ ¬ (∃ msg, (WARNING, msg) ∈ log (remove_update "ghost" initial_state).2).
Proof.
  split; [reflexivity|]. split; [reflexivity|]. split; [reflexivity|].
  intros [msg Hin]. cbn in Hin. by apply not_elem_of_nil in Hin.
Qed.

(** C3, amended: for a name that is not in the registry concerned,
    - [schedule_covid_updates] and [schedule_news_updates] return
      normally, log one warning, make a placeholder entry with time "None"
      and no repeat, and arm one event for it;
    - [update_news], run with that name (not the empty text) and once its
      refresh has returned normally, returns normally, logs one warning
      and leaves the registry as it was;
    - [remove_update], for a name in neither registry, returns normally
      and changes nothing, without a log entry. *)
Theorem unknown_name_degrades (w : world) (name : string) (s : state) :
  (∀ delay, covid_updates s !! name = None →
     let ev := covid_event w delay name s in
     ∃ s', schedule_covid_updates w delay name s = (Ok tt, s')
           ∧ log s' = log s ++ [(WARNING, "Update not found, dummy update created.")]
           ∧ covid_updates s' !! name = Some (mk_update "None" None (Some ev))
           ∧ queue (covid_s s') = queue (covid_s s) ++ [ev])
  ∧ (∀ delay, news_updates s !! name = None →
       let ev := news_event w delay name s in
       ∃ s', schedule_news_updates w delay name s = (Ok tt, s')
             ∧ log s' = log s ++ [(WARNING, "Update not found, dummy update created.")]
             ∧ news_updates s' !! name = Some (mk_update "None" None (Some ev))
             ∧ queue (news_s s') = queue (news_s s) ++ [ev])
  ∧ (∀ s1, news_updates s !! name = None → name ≠ "" →
       refresh_articles w s = (Ok tt, s1) →
       ∃ s', update_news w (Some name) s = (Ok tt, s')
             ∧ log s' = log s1 ++ [(WARNING, "Update '{update_name}' does not exist.")]
             ∧ news_updates s' = news_updates s
             ∧ news_s s' = news_s s)
  ∧ (covid_updates s !! name = None → news_updates s !! name = None →
     remove_update name s = (Ok tt, s)).
Proof.
  split; [| split; [| split]].
  - intros delay Hu ev. rewrite schedule_covid_updates_absent by done.
    eexists. split; [reflexivity|]. cbn.
    split; [done|]. split; [apply lookup_insert_eq | done].
  - intros delay Hu ev. rewrite schedule_news_updates_absent by done.
    eexists. split; [reflexivity|]. cbn.
    split; [done|]. split; [apply lookup_insert_eq | done].
  - intros s1 Hu Hne Href.
    pose proof (refresh_articles_effect w s) as [(_ & _ & _ & _ & Hnu & Hns) _].
    cbv zeta in *. rewrite Href in Hnu, Hns. cbn [snd] in Hnu, Hns.
    unfold update_news. unfold bind at 1. rewrite Href.
    unfold settle_news_update. unfold bind at 1, get. rewrite Hnu, Hu.
    assert (Ht : truthy (Some name) = true).
    { cbn. destruct (String.eqb_spec name ""); [done | reflexivity]. }
    rewrite Ht. unfold logging, modify.
    eexists. split; [reflexivity|]. by cbn.
  - intros Hc Hn. unfold remove_update. py_unfold.
    rewrite Hc, bool_decide_eq_false_2 by (intros [? ?]; discriminate). cbn.
    rewrite Hn, bool_decide_eq_false_2 by (intros [? ?]; discriminate).
    reflexivity.
Qed.

Lemma unknown_name_degrades_witness :
  (∃ s', schedule_covid_updates sample_world 10 "update test" initial_state = (Ok tt, s')
         ∧ log s' = [(WARNING, "Update not found, dummy update created.")])
  ∧ (∃ s', schedule_news_updates sample_world 10 "update test" initial_state = (Ok tt, s')
           ∧ log s' = [(WARNING, "Update not found, dummy update created.")])
  ∧ (∃ s', update_news sample_world (Some "test") initial_state = (Ok tt, s')
           ∧ news_updates s' = ∅)
  ∧ remove_update "test" initial_state = (Ok tt, initial_state).
Proof.
  split; [| split; [| split]].
  - destruct (unknown_name_degrades sample_world "update test" initial_state)
      as (Hc & _).
    destruct (Hc 10 ltac:(reflexivity)) as (s' & Hrun & Hlog & _).
    exists s'. split; [exact Hrun | exact Hlog].
  - destruct (unknown_name_degrades sample_world "update test" initial_state)
      as (_ & Hn & _).
    destruct (Hn 10 ltac:(reflexivity)) as (s' & Hrun & Hlog & _).
    exists s'. split; [exact Hrun | exact Hlog].
  - destruct (unknown_name_degrades sample_world "test" initial_state)
      as (_ & _ & Hu & _).
    edestruct Hu as (s' & Hrun & _ & Hreg & _);
      [reflexivity | discriminate | vm_compute; reflexivity |].
    exists s'. split; [exact Hrun | exact Hreg].
  - destruct (unknown_name_degrades sample_world "test" initial_state)
      as (_ & _ & _ & Hr).
    exact (Hr ltac:(reflexivity) ltac:(reflexivity)).
Defined.

(** The COVID action has no such guard: run with a name that is not in
    its registry it refreshes the data and then raises [KeyError]. *)
Lemma run_covid_update_unknown_name (w : world) (name : string) (s : state) :
  covid_updates s !! name = None →
  (run_covid_update w name s).1 = Raise (KeyError name).
Proof.
  intros Hu. unfold run_covid_update, covid_API_request, getitem. py_unfold. cbn.
  by rewrite Hu.
Qed.

(** The scheduler calls the action with the characters of the name, so
    that a name of two characters or more makes the call itself fail and
    the state stays as it is. *)
Lemma call_action_long_name (w : world) (a : action) (c1 c2 : ascii)
    (rest : string) (s : state) :
  ∃ msg, call_action w a (String c1 (String c2 rest)) s = (Raise (TypeError msg), s).
Proof. destruct a; cbn; eexists; reflexivity. Qed.

(** The update "daily", made by [create_update] for 12:00, when its event
    is due: the turn of the scheduler raises [TypeError]; the event is
    gone from the queue and the entry still in the registry. *)
Lemma fired_daily_raises :
  ∃ msg s', run_covid_step later_world sample_covid_state = (Raise (TypeError msg), s')
            ∧ queue (covid_s s') = []
            ∧ is_Some (covid_updates s' !! "daily").
Proof.
  eexists _, _. split; [vm_compute; reflexivity |].
  split; [reflexivity | eexists; vm_compute; reflexivity].
Qed.

(** ** A fetch without relevant articles *)

(** C6: when the key is set and no article of the answer matches the
    search terms, the fetch returns exactly one article, the placeholder
    with the title "No relevant articles currently" and empty content;
    the ingest that follows never stores it: formatting the placeholder,
    which has no "url", raises [KeyError], and the article list is as it
    was before [update_news]. *)
Theorem no_relevant_articles (w : world) (name : option string) (s : state)
    (articles : list raw_article) :
  news_API_key w ≠ unset_key →
  response_articles w = Some articles →
  filter_articles articles (news_search_terms w) = Ok [] →
  (news_API_request w (news_search_terms w) s).1 = Ok [empty_article]
  ∧ empty_article !! "title" = Some (PStr "No relevant articles currently")
  ∧ empty_article !! "content" = Some (PStr "")
  ∧ (update_news w name s).1 = Raise (KeyError "url")
  ∧ news_articles (update_news w name s).2 = news_articles s.
Proof.
  intros Hkey Hresp Hfilter.
  assert (Hreq : news_API_request w (news_search_terms w) s
                 = (Ok [empty_article],
                    set_log (λ lg, lg ++ [(INFO, "Requesting recent top headlines...")]) s)).
  { unfold news_API_request. py_unfold.
    destruct (String.eqb_spec (news_API_key w) unset_key) as [E|_]; [by destruct Hkey|].
    cbn. rewrite Hresp. cbn. rewrite Hfilter. reflexivity. }
  assert (Hup : update_news w name s
                = (Raise (KeyError "url"),
                   set_log (λ lg, lg ++ [(INFO, "Requesting recent top headlines...")]) s)).
  { unfold update_news, refresh_articles. unfold bind at 1 2. rewrite Hreq.
    cbn [for_each]. unfold bind at 1. unfold ingest_article at 1.
    unfold bind at 1, lift.
    replace (format_article empty_article) with (@Raise article (KeyError "url"))
      by (vm_compute; reflexivity).
    reflexivity. }
  rewrite Hreq, Hup.
  split; [reflexivity|]. split; [reflexivity|]. split; [reflexivity|].
  split; reflexivity.
Qed.

Lemma no_relevant_articles_witness :
  (news_API_request later_world (news_search_terms later_world) initial_state).1
  = Ok [empty_article]
  ∧ (update_news later_world None initial_state).1 = Raise (KeyError "url")
  ∧ news_articles (update_news later_world None initial_state).2 = [].
Proof.
  destruct (no_relevant_articles later_world None initial_state []
              ltac:(discriminate) ltac:(reflexivity) ltac:(reflexivity))
    as (Hreq & _ & _ & Hraise & Hstore).
  split; [exact Hreq |]. split; [exact Hraise | exact Hstore].
Defined.

(** ** A missing key *)

(** C9: with the API key unset, the fetch raises [ValueError];
    [update_news] hands the exception to its caller and leaves the article
    list and the COVID data as they were. *)
Theorem unset_key_surfaces (w : world) (name : option string) (s : state) :
  news_API_key w = unset_key →
  (news_API_request w (news_search_terms w) s).1
  = Raise (ValueError "The news API key has not been set in config.json")
  ∧ (update_news w name s).1
    = Raise (ValueError "The news API key has not been set in config.json")
  ∧ news_articles (update_news w name s).2 = news_articles s
  ∧ covid_data (update_news w name s).2 = covid_data s.
Proof.
  intros Hkey.
  assert (Hreq : news_API_request w (news_search_terms w) s
                 = (Raise (ValueError "The news API key has not been set in config.json"),
                    set_log (λ lg, (lg ++ [(INFO, "Requesting recent top headlines...")])
                                   ++ [(CRITICAL, "The news API key has not been set in config.json")]) s)).
  { unfold news_API_request. py_unfold. rewrite Hkey, String.eqb_refl. reflexivity. }
  assert (Hup : update_news w name s
                = (Raise (ValueError "The news API key has not been set in config.json"),
                   set_log (λ lg, (lg ++ [(INFO, "Requesting recent top headlines...")])
                                  ++ [(CRITICAL, "The news API key has not been set in config.json")]) s)).
  { unfold update_news, refresh_articles. unfold bind. by rewrite Hreq. }
  rewrite Hreq, Hup.
  split; [reflexivity|]. split; [reflexivity|]. split; reflexivity.
Qed.

Lemma unset_key_surfaces_witness :
  (update_news keyless_world None initial_state).1
  = Raise (ValueError "The news API key has not been set in config.json")
  ∧ news_articles (update_news keyless_world None initial_state).2 = []
  ∧ covid_data (update_news keyless_world None initial_state).2 = ∅.
Proof.
  destruct (unset_key_surfaces keyless_world None initial_state ltac:(reflexivity))
    as (_ & Hraise & Hstore & Hdata).
  split; [exact Hraise |]. split; [exact Hstore | exact Hdata].
Defined.

(** ** The article list *)

Lemma sample_twin_state_reachable : reachable sample_twin_state.
Proof. apply reach_exec; [apply reach_initial | exact I]. Qed.

Lemma sample_twin_state_titles :
  a_title <$> news_articles sample_twin_state
  = [PStr "Covid cases rise"; PStr "Covid cases rise"].
Proof. vm_compute. reflexivity. Qed.

(** C8, as stated, fails: two headlines with one title and different
    texts are both stored. *)
Lemma titles_unique_fails :
  ¬ (∀ s, reachable s → NoDup (a_title <$> news_articles s)).
Proof.
  intros H. specialize (H _ sample_twin_state_reachable).
  rewrite sample_twin_state_titles in H.
  apply NoDup_cons in H as [Hnin _]. apply Hnin. by left.
Qed.

(** C8, amended: in every reachable state the article list holds no
    article twice, an article being its title together with its
    content. *)
Theorem articles_never_repeat (s : state) :
  reachable s → NoDup (news_articles s).
Proof.
  induction 1 as [|s w o Hreach IH _].
  - apply NoDup_nil_2.
  - by apply exec_store_kept.
Qed.

Lemma articles_never_repeat_witness :
  reachable sample_twin_state ∧ NoDup (news_articles sample_twin_state).
Proof.
  assert (Hr : reachable sample_twin_state).
  { apply reach_exec; [apply reach_initial | exact I]. }
  split; [exact Hr | exact (articles_never_repeat _ Hr)].
Defined.

(** ** Blocking an article *)

(** C7 fails on the code: in the reachable state with two stored articles
    of the title "Covid cases rise", [block_article] of that title removes
    the first and steps over the second, which stays in the list. *)
Theorem block_article_leaves_twin :
  reachable sample_twin_state
  ∧ a_title <$> news_articles sample_twin_state
    = [PStr "Covid cases rise"; PStr "Covid cases rise"]
  ∧ blocked_articles (block_article "Covid cases rise" sample_twin_state).2
    = ["Covid cases rise"]
  ∧ a_title <$> news_articles (block_article "Covid cases rise" sample_twin_state).2
    = [PStr "Covid cases rise"].
Proof.
  split; [exact sample_twin_state_reachable |].
  split; [exact sample_twin_state_titles |].
  rewrite block_article_spec. split; vm_compute; reflexivity.
Qed.

(** Where no article follows one of the same title, in particular where
    titles are unique, the loop does remove every article of the title. *)
Lemma block_skip_no_match (title : string) (l : list article) :
  Forall (λ a, a_title a ≠ PStr title) l → block_skip title l = l.
Proof.
  induction 1 as [|a l Ha _ IH]; cbn; [done|].
  rewrite bool_decide_eq_false_2 by congruence. by rewrite IH.
Qed.

Lemma block_skip_unique_titles (title : string) (l : list article) :
  NoDup (a_title <$> l) →
  block_skip title l = filter (λ a, a_title a ≠ PStr title) l.
Proof.
  induction l as [|a l IH]; intros Hnd; [done|].
  cbn in Hnd. apply NoDup_cons in Hnd as [Hnin Hnd].
  cbn [block_skip]. case_bool_decide as Ha.
  - rewrite filter_cons_False by (intros Hne; by apply Hne).
    assert (Hall : Forall (λ b, a_title b ≠ PStr title) l).
    { apply Forall_forall. intros b Hb Hbt. apply Hnin.
      rewrite <- Ha, <- Hbt. apply list_elem_of_fmap. by exists b. }
    assert (Hfil : filter (λ b, a_title b ≠ PStr title) l = l).
    { clear -Hall. induction Hall as [|b l Hb _ IHl]; [done|].
      rewrite filter_cons_True by done. by rewrite IHl. }
    rewrite Hfil. destruct l as [|b l]; [done|].
    apply Forall_cons in Hall as [_ Hall]. by rewrite block_skip_no_match.
  - rewrite filter_cons_True by congruence. by rewrite IH.
Qed.

(** A title of the list of blocked titles is never stored again: the
    articles a refresh appends have other titles, and no operation takes
    a title off the list. *)
Lemma blocked_title_not_ingested (w : world) (name : option string)
    (title : string) (s : state) (fa : article) :
  title ∈ blocked_articles s →
  fa ∈ news_articles (update_news w name s).2 →
  a_title fa = PStr title →
  fa ∈ news_articles s.
Proof.
  intros Hbl Hin Ht.
  pose proof (update_news_effect w name s) as (_ & _ & _ & _ & _ & added & Happ & _ & Hall).
  cbv zeta in *. rewrite Happ in Hin.
  apply elem_of_app in Hin as [Hin | Hin]; [done|].
  rewrite Forall_forall in Hall. specialize (Hall _ Hin).
  rewrite Ht in Hall. cbn in Hall.
  by rewrite bool_decide_eq_true_2 in Hall.
Qed.

Lemma blocked_titles_stay (w : world) (o : op) (title : string) (s : state) :
  title ∈ blocked_articles s → title ∈ blocked_articles (exec w o s).2.
Proof. intros Hin. by apply exec_store_kept. Qed.

(** ** The examples of the test suite *)

Example test_filter_articles :
  result_length (filter_articles test_articles "Important") = Some 1%nat
  ∧ result_length (filter_articles test_articles "Article") = Some 2%nat
  ∧ result_length (filter_articles test_articles "Irrelevant Important") = Some 2%nat.
Proof. repeat split; vm_compute; reflexivity. Qed.

Example test_format_article :
  format_article (api_article "Test" "a b c d e f g h i j k l m n o p q r s t u v w x y z"
                              "https://google.co.uk")
  = Ok (mk_article (PStr "Test")
          "a b c d e f g h i j k l m n o p q r s t... <a href='https://google.co.uk'>[Click Here]</a>").
Proof. vm_compute. reflexivity. Qed.

Example test_strptime :
  DateTime.strptime_HM "00:00" = Some (DateTime.mk_datetime 693596 0 0 0 0)
  ∧ DateTime.strptime_HM "7:5" = Some (DateTime.mk_datetime 693596 7 5 0 0)
  ∧ DateTime.strptime_HM "24:00" = None
  ∧ DateTime.strptime_HM "12:60" = None
  ∧ DateTime.strptime_HM "noon" = None.
Proof. repeat split; reflexivity. Qed.

(** 12:00 asked for at 12:13:20: the delay wraps to the rest of the day. *)
Example test_delay_wraps :
  delay_seconds (DateTime.mk_datetime 693596 12 0 0 0)
                (DateTime.mk_datetime 738000 12 13 20 250000)
  = 85599.
Proof. reflexivity. Qed.

(** * Further properties *)

(** ** Reading the CSV data *)

Example csv_example_row : Csv.read_csv_value "0,10,20,30,40,50" 3 = Csv.Returns 30.
Proof. reflexivity. Qed.

Example csv_example_blank :
  Csv.first_non_blank_cell ["Cats,Dogs,Fish"; "1,,3"; "2,1,3"] 1 = Csv.Returns 2.
Proof. reflexivity. Qed.

Example csv_example_process :
  Csv.process_covid_csv_data
    ["date,cumDailyNsoDeathsByDeathDate,hospitalCases,newCasesBySpecimenDate";
     "d9,,,"; "d8,,70,5"; "d7,100,69,6"; "d6,99,68,7"; "d5,98,67,8"; "d4,97,,9";
     "d3,96,,10"; "d2,95,,11"; "d1,94,,12"; "d0,93,,13"]
  = Csv.Returns (6 + 7 + 8 + 9 + 10 + 11 + 12, 70, 100).
Proof. vm_compute. reflexivity. Qed.

Example csv_example_int :
  Csv.py_int " 1_000 " = Csv.Returns 1000
  ∧ Csv.py_int "-7" = Csv.Returns (-7)
  ∧ Csv.py_int "1__0" = Csv.Raises (Csv.InvalidLiteral "1__0")
  ∧ Csv.py_int "" = Csv.Raises (Csv.InvalidLiteral "")
  ∧ Csv.py_int "- 7" = Csv.Raises (Csv.InvalidLiteral "- 7").
Proof. repeat split; reflexivity. Qed.

(** *** Texts: appending, reversing, splitting *)

Lemma append_cons (c : ascii) (a b : string) : String c a +:+ b = String c (a +:+ b).
Proof. reflexivity. Qed.

Lemma append_nil (b : string) : "" +:+ b = b.
Proof. reflexivity. Qed.

Lemma append_assoc (a b c : string) : (a +:+ b) +:+ c = a +:+ (b +:+ c).
Proof.
  induction a as [|x a IH]; [done|]. rewrite !append_cons. by f_equal.
Qed.

Lemma append_empty_r (a : string) : a +:+ "" = a.
Proof. induction a as [|x a IH]; [done|]. rewrite append_cons. by f_equal. Qed.

Lemma rev_app_append (cur acc : string) :
  String.rev_app cur acc = String.rev cur +:+ acc.
Proof.
  revert acc. induction cur as [|c cur IH]; intros acc; [done|].
  unfold String.rev. cbn [String.rev_app].
  rewrite IH, (IH (String c "")), append_assoc. by rewrite append_cons, append_nil.
Qed.

Lemma rev_cons (c : ascii) (x : string) :
  String.rev (String c x) = String.rev x +:+ String c "".
Proof. unfold String.rev at 1. cbn [String.rev_app]. apply rev_app_append. Qed.

Lemma rev_rev_app (x cur : string) :
  String.rev (String.rev_app x cur) = String.rev cur +:+ x.
Proof.
  revert cur. induction x as [|c x IH]; intros cur; cbn [String.rev_app].
  - by rewrite append_empty_r.
  - rewrite IH, rev_cons, append_assoc. by rewrite append_cons, append_nil.
Qed.


Lemma none_of_append p (a b : string) :
  none_of p (a +:+ b) = none_of p a && none_of p b.
Proof.
  induction a as [|x a IH]; [done|].
  rewrite append_cons. cbn [none_of]. by rewrite IH, andb_assoc.
Qed.

Lemma none_of_rev p (a : string) : none_of p (String.rev a) = none_of p a.
Proof.
  induction a as [|x a IH]; [done|].
  rewrite rev_cons, none_of_append, IH. cbn [none_of].
  rewrite andb_true_r. apply andb_comm.
Qed.

(** Reading on through a piece without separator. *)
Lemma split_go_piece p keep (x cur s : string) :
  none_of p x = true →
  PyStr.split_go p keep cur (x +:+ s) = PyStr.split_go p keep (String.rev_app x cur) s.
Proof.
  revert cur. induction x as [|c x IH]; intros cur Hx; [done|].
  cbn [none_of] in Hx. apply andb_prop in Hx as [Hc Hx]. apply negb_true_iff in Hc.
  rewrite append_cons. cbn [PyStr.split_go String.rev_app]. rewrite Hc. by apply IH.
Qed.

(** Splitting at a character undoes joining with it, for pieces that do
    not hold the character. *)
Lemma split_on_join (c : ascii) (l : list string) :
  l ≠ [] →
  Forall (λ x, none_of (Ascii.eqb c) x = true) l →
  PyStr.split_on c (PyStr.join (String c "") l) = l.
Proof.
  intros Hne Hall. unfold PyStr.split_on.
  induction Hall as [|x l Hx Hall IH]; [done|]. clear Hne.
  destruct l as [|y l].
  - cbn [PyStr.join]. rewrite <- (append_empty_r x) at 1.
    rewrite split_go_piece by done. cbn [PyStr.split_go orb].
    by rewrite rev_rev_app.
  - change (PyStr.join (String c "") (x :: y :: l))
      with (x +:+ String c (PyStr.join (String c "") (y :: l))).
    rewrite split_go_piece by done. cbn [PyStr.split_go].
    rewrite Ascii.eqb_refl. cbn [orb]. rewrite rev_rev_app.
    change (String.rev "") with "". rewrite append_nil.
    f_equal. by apply IH.
Qed.

(** *** Decimal texts *)

Lemma none_of_impl (p q : ascii → bool) (s : string) :
  (∀ c, q c = true → p c = true) →
  none_of p s = true → none_of q s = true.
Proof.
  intros Hpq. induction s as [|c s IH]; [done|]. cbn [none_of].
  intros [Hc Hs]%andb_prop. rewrite IH by done. rewrite andb_true_r.
  apply negb_true_iff in Hc. apply negb_true_iff.
  destruct (q c) eqn:Hq; [| done]. by rewrite Hpq in Hc.
Qed.

Lemma digit_val_pretty_char (d : N) :
  (d < 10)%N → DateTime.digit_val (pretty_N_char d) = Some (Z.of_N d).
Proof.
  intros Hd.
  assert (H : d ∈ [0; 1; 2; 3; 4; 5; 6; 7; 8; 9]%N).
  { rewrite !elem_of_cons. lia. }
  rewrite !elem_of_cons in H.
  destruct H as [->|[->|[->|[->|[->|[->|[->|[->|[->|[->|H]]]]]]]]]];
    try reflexivity.
  by apply not_elem_of_nil in H.
Qed.

Lemma pretty_N_go_digits (x : N) (s : string) :
  digits_only s = true → digits_only (pretty_N_go x s) = true.
Proof.
  revert s. induction (N.lt_wf_0 x) as [x _ IH]; intros s Hs.
  destruct (decide (x = 0)%N) as [->|Hx]; [by rewrite pretty_N_go_0|].
  rewrite pretty_N_go_step by lia.
  apply IH; [apply N.div_lt; lia |].
  unfold digits_only in *. cbn [none_of]. rewrite Hs, andb_true_r.
  by rewrite digit_val_pretty_char by (apply N.mod_lt; lia).
Qed.

Lemma pretty_N_digits (n : N) : digits_only (pretty n) = true.
Proof.
  unfold pretty, pretty_N. case_decide; [done|]. by apply pretty_N_go_digits.
Qed.







Lemma cell_text_comma_free (cell : option N) :
  none_of (Ascii.eqb ",") (cell_text cell) = true.
Proof.
  destruct cell as [n|]; [| done]. cbn [cell_text].
  eapply none_of_impl; [| apply pretty_N_digits].
  intros c Hc. apply Ascii.eqb_eq in Hc. by subst.
Qed.

Lemma split_csv_row (cells : list (option N)) :
  cells ≠ [] → PyStr.split_on "," (csv_row cells) = cell_text <$> cells.
Proof.
  intros Hne. unfold csv_row. apply (split_on_join ","%char).
  - by destruct cells.
  - apply Forall_fmap, Forall_forall. intros cell _. apply cell_text_comma_free.
Qed.


(** *** [read_csv_value] *)

Lemma py_index_nat {A} (l : list A) (i : nat) (x : A) :
  l !! i = Some x → Csv.py_index l (Z.of_nat i) = Csv.Returns x.
Proof.
  intros Hi. pose proof (lookup_lt_Some _ _ _ Hi) as Hlt.
  unfold Csv.py_index.
  destruct (Z.ltb_spec (Z.of_nat i) 0) as [?|_]; [lia|].
  destruct (Z.leb_spec 0 (Z.of_nat i)) as [_|?]; [|lia].
  destruct (Z.ltb_spec (Z.of_nat i) (Z.of_nat (length l))) as [_|?]; [|lia].
  cbn [andb]. by rewrite Nat2Z.id, Hi.
Qed.



(** X2: the column is a Python index into the cells of the row: from the
    end when negative, and [IndexError] outside [-n, n) for a row of [n]
    cells. *)
Theorem read_csv_value_bounds (cells : list (option N)) (column : Z) :
  cells ≠ [] →
  let n := Z.of_nat (length cells) in
  (n ≤ column ∨ column < - n →
   Csv.read_csv_value (csv_row cells) column = Csv.Raises Csv.IndexOutOfRange)
  ∧ (- n ≤ column < 0 →
     Csv.read_csv_value (csv_row cells) column
     = Csv.read_csv_value (csv_row cells) (column + n)).
Proof.
  intros Hne n. unfold Csv.read_csv_value. rewrite split_csv_row by done.
  unfold Csv.py_index. rewrite length_fmap. fold n.
  split.
  - intros Hout.
    destruct (Z.ltb_spec column 0) as [Hneg|Hpos].
    + destruct (Z.leb_spec 0 (column + n)) as [?|_]; [lia | done].
    + destruct (Z.leb_spec 0 column) as [_|?]; [|lia].
      destruct (Z.ltb_spec column n) as [?|_]; [lia | done].
  - intros Hin.
    destruct (Z.ltb_spec column 0) as [_|?]; [|lia].
    destruct (Z.ltb_spec (column + n) 0) as [?|_]; [lia | done].
Qed.

Lemma read_csv_value_bounds_witness :
  Csv.read_csv_value "0,10,,30" 4 = Csv.Raises Csv.IndexOutOfRange
  ∧ Csv.read_csv_value "0,10,,30" (-1) = Csv.read_csv_value "0,10,,30" 3.
Proof.
  destruct (read_csv_value_bounds [Some 0; Some 10; None; Some 30]%N 4
              ltac:(discriminate)) as [Hout _].
  destruct (read_csv_value_bounds [Some 0; Some 10; None; Some 30]%N (-1)
              ltac:(discriminate)) as [_ Hneg].
  split; [apply Hout; cbn; lia | apply Hneg; cbn; lia].
Defined.

(** *** [first_non_blank_cell] *)

Lemma scan_rows_spec (rows : list string) (i column r : Z) :
  Csv.scan_rows rows i column = Csv.Returns r →
  (r = -1 ∧ Forall (λ row, Csv.read_csv_value row column = Csv.Returns 0) rows)
  ∨ (∃ (k : nat) row v,
       r = i + Z.of_nat k ∧ rows !! k = Some row
       ∧ Csv.read_csv_value row column = Csv.Returns v ∧ v ≠ 0
       ∧ Forall (λ row, Csv.read_csv_value row column = Csv.Returns 0) (take k rows)).
Proof.
  revert i. induction rows as [|row rows IH]; intros i Hscan; cbn in Hscan.
  - left. split; [congruence | constructor].
  - destruct (Csv.read_csv_value row column) as [v|e] eqn:Hread; [|discriminate].
    destruct (Z.eqb_spec v 0) as [->|Hv].
    + destruct (IH _ Hscan) as [[-> Hall] | (k & row' & v' & -> & Hk & Hr & Hv' & Hall)].
      * left. split; [done | by constructor].
      * right. exists (S k), row', v'. split; [lia|]. split; [done|].
        split; [done|]. split; [done|]. cbn. by constructor.
    + right. exists 0%nat, row, v. injection Hscan as <-.
      split; [lia|]. split; [done|]. split; [done|]. split; [done | constructor].
Qed.

(** X3: when [first_non_blank_cell] returns, the result is either -1, and
    then every row after the first reads as 0 in the column, or the index
    of a row after the first whose value is not 0, all rows between the
    first and that one reading as 0. A cell holding 0 counts as blank and
    the first row is never read. *)
Theorem first_non_blank_cell_spec (csv_lines : list string) (column r : Z) :
  Csv.first_non_blank_cell csv_lines column = Csv.Returns r →
  (r = -1
   ∧ ∀ (j : nat) row, (1 ≤ j)%nat → csv_lines !! j = Some row →
       Csv.read_csv_value row column = Csv.Returns 0)
  ∨ (1 ≤ r < Z.of_nat (length csv_lines)
     ∧ ∃ row v, csv_lines !! Z.to_nat r = Some row
                ∧ Csv.read_csv_value row column = Csv.Returns v ∧ v ≠ 0
                ∧ ∀ (j : nat) row', (1 ≤ j)%nat → Z.of_nat j < r →
                    csv_lines !! j = Some row' →
                    Csv.read_csv_value row' column = Csv.Returns 0).
Proof.
  unfold Csv.first_non_blank_cell. intros Hscan.
  destruct (scan_rows_spec _ _ _ _ Hscan)
    as [[-> Hall] | (k & row & v & -> & Hk & Hr & Hv & Hall)].
  - left. split; [done|]. intros j row' Hj Hrow.
    rewrite Forall_forall in Hall. apply Hall.
    apply list_elem_of_lookup. exists (j - 1)%nat.
    rewrite lookup_drop. by replace (1 + (j - 1))%nat with j by lia.
  - right. rewrite lookup_drop in Hk.
    pose proof (lookup_lt_Some _ _ _ Hk) as Hlt.
    split; [lia|]. exists row, v.
    replace (Z.to_nat (1 + Z.of_nat k)) with (1 + k)%nat by lia.
    split; [done|]. split; [done|]. split; [done|].
    intros j row' Hj Hjr Hrow.
    rewrite Forall_forall in Hall. apply Hall.
    apply list_elem_of_lookup. exists (j - 1)%nat.
    rewrite lookup_take_lt by lia.
    rewrite lookup_drop. by replace (1 + (j - 1))%nat with j by lia.
Qed.

Lemma first_non_blank_cell_spec_witness :
  Csv.first_non_blank_cell ["Cats,Dogs,Fish"; "1,,3"; "2,0,3"; "2,1,3"] 1 = Csv.Returns 3
  ∧ Csv.read_csv_value "2,0,3" 1 = Csv.Returns 0.
Proof.
  assert (Hrun : Csv.first_non_blank_cell
                   ["Cats,Dogs,Fish"; "1,,3"; "2,0,3"; "2,1,3"] 1 = Csv.Returns 3)
    by reflexivity.
  split; [exact Hrun|].
  destruct (first_non_blank_cell_spec _ _ _ Hrun) as [[Hr _] | (_ & row & v & _ & _ & _ & Hbefore)].
  - discriminate Hr.
  - apply (Hbefore 2%nat); [lia | lia | reflexivity].
Defined.

(** *** [process_covid_csv_data] *)

Lemma list_index_lookup (x : string) (l : list string) (i : Z) :
  Csv.list_index x l = Some i → 0 ≤ i ∧ l !! Z.to_nat i = Some x.
Proof.
  revert i. induction l as [|y l IH]; intros i Hi; cbn in Hi; [discriminate|].
  destruct (String.eqb_spec y x) as [->|Hne].
  - injection Hi as <-. by split.
  - destruct (Csv.list_index x l) as [k|]; [|discriminate].
    injection Hi as <-. destruct (IH k eq_refl) as [Hk Hl].
    split; [lia|]. by rewrite Z2Nat.inj_succ by lia.
Qed.

Lemma list_index_py_index (x : string) (l : list string) (i : Z) :
  Csv.list_index x l = Some i → Csv.py_index l i = Csv.Returns x.
Proof.
  intros Hi. destruct (list_index_lookup _ _ _ Hi) as [H0 Hl].
  rewrite <- (Z2Nat.id i) by done. by apply py_index_nat.
Qed.

Lemma py_index_zero {A} (l : list A) (x : A) :
  Csv.py_index l 0 = Csv.Returns x → l !! 0%nat = Some x.
Proof.
  unfold Csv.py_index. destruct l as [|y l]; [done|].
  change (0 <? 0) with false. cbv iota.
  destruct (Z.ltb_spec 0 (Z.of_nat (length (y :: l)))) as [_|H]; [| cbn in H; lia].
  cbn. by intros [= ->].
Qed.

(** The header cell of a column is not a number. *)
Lemma read_header_cell (header name : string) (column : Z) :
  Csv.list_index name (PyStr.split_on "," header) = Some column →
  Csv.int_digits 0 false name = None →
  Csv.strip name = name →
  (match name with String "-" _ | String "+" _ => False | _ => True end) →
  name ≠ "" →
  Csv.read_csv_value header column = Csv.Raises (Csv.InvalidLiteral name).
Proof.
  intros Hidx Hdig Hstrip Hsign Hne. unfold Csv.read_csv_value.
  rewrite (list_index_py_index _ _ _ Hidx).
  destruct (String.eqb_spec name "") as [?|_]; [done|]. cbn [negb].
  unfold Csv.py_int. rewrite Hstrip.
  destruct name as [|c rest]; [done|].
  destruct c as [[] [] [] [] [] [] [] []]; try (by rewrite Hdig); by destruct Hsign.
Qed.

(** Without cases below the header, the week starts at the header row. *)
Lemma process_covid_csv_data_no_cases_aux (data : list string) (header : string)
    (column : Z) :
  data !! 0%nat = Some header →
  Csv.list_index "newCasesBySpecimenDate" (PyStr.split_on "," header) = Some column →
  Csv.and_then
    (Csv.sum_column (take 7 (drop (Z.to_nat (-1 + 1)) data)) column)
    (λ week_cases,
       Csv.and_then
         (Csv.first_value data (PyStr.split_on "," header) "hospitalCases")
         (λ hospital_cases,
            Csv.and_then
              (Csv.first_value data (PyStr.split_on "," header)
                 "cumDailyNsoDeathsByDeathDate")
              (λ total_deaths,
                 Csv.Returns (week_cases, hospital_cases, total_deaths))))
  = Csv.Raises (Csv.InvalidLiteral "newCasesBySpecimenDate").
Proof.
  intros Hhead Hidx.
  change (Z.to_nat (-1 + 1)) with 0%nat. rewrite drop_0.
  destruct data as [|first rest]; [discriminate|]. injection Hhead as ->.
  cbn [take Csv.sum_column].
  rewrite (read_header_cell header "newCasesBySpecimenDate" column); done.
Qed.

(** X4: when the column "newCasesBySpecimenDate" has no value other than
    0 below the header, [process_covid_csv_data] raises: the week then
    starts at the header row, whose cell is not a number. *)
Theorem process_covid_csv_data_no_cases (data : list string) (header : string)
    (column : Z) :
  data !! 0%nat = Some header →
  Csv.list_index "newCasesBySpecimenDate" (PyStr.split_on "," header) = Some column →
  Csv.first_non_blank_cell data column = Csv.Returns (-1) →
  Csv.process_covid_csv_data data
  = Csv.Raises (Csv.InvalidLiteral "newCasesBySpecimenDate").
Proof.
  intros Hhead Hidx Hnone. unfold Csv.process_covid_csv_data.
  pose proof (py_index_nat data 0 header Hhead) as Hfirst.
  change (Z.of_nat 0) with 0 in Hfirst. rewrite Hfirst. cbn [Csv.and_then].
  unfold Csv.index_of at 1. rewrite Hidx. cbn [Csv.and_then]. rewrite Hnone.
  cbn [Csv.and_then]. by apply process_covid_csv_data_no_cases_aux.
Qed.

Lemma process_covid_csv_data_no_cases_witness :
  Csv.process_covid_csv_data
    ["date,hospitalCases,newCasesBySpecimenDate"; "d1,5,"; "d0,4,0"]
  = Csv.Raises (Csv.InvalidLiteral "newCasesBySpecimenDate").
Proof.
  exact (process_covid_csv_data_no_cases
           ["date,hospitalCases,newCasesBySpecimenDate"; "d1,5,"; "d0,4,0"]
           "date,hospitalCases,newCasesBySpecimenDate" 2
           eq_refl eq_refl eq_refl).
Defined.

Lemma first_value_figure (data headers : list string) (name : string) (value : Z) :
  (2 ≤ length data)%nat →
  Csv.first_value data headers name = Csv.Returns value →
  ∃ column, Csv.list_index name headers = Some column
            ∧ column_figure data column value.
Proof.
  intros Hlen. unfold Csv.first_value, Csv.index_of.
  destruct (Csv.list_index name headers) as [column|]; [|discriminate].
  cbn [Csv.and_then].
  destruct (Csv.first_non_blank_cell data column) as [r|e] eqn:Hfound; [|discriminate].
  cbn [Csv.and_then]. intros Hval. exists column. split; [done|].
  destruct (first_non_blank_cell_spec _ _ _ Hfound)
    as [[-> Hall] | (Hr & row & v & Hrow & Hread & Hv & Hbefore)].
  - right.
    assert (Hlast : ∃ line, data !! (length data - 1)%nat = Some line).
    { apply lookup_lt_is_Some. lia. }
    destruct Hlast as [line Hline].
    assert (Hidx : Csv.py_index data (-1) = Csv.Returns line).
    { unfold Csv.py_index. change (-1 <? 0) with true. cbv iota.
      destruct (Z.leb_spec 0 (-1 + Z.of_nat (length data))) as [_|?]; [|lia].
      destruct (Z.ltb_spec (-1 + Z.of_nat (length data)) (Z.of_nat (length data)))
        as [_|?]; [|lia].
      cbn [andb].
      replace (Z.to_nat (-1 + Z.of_nat (length data))) with (length data - 1)%nat by lia.
      by rewrite Hline. }
    rewrite Hidx in Hval. cbn [Csv.and_then] in Hval.
    rewrite (Hall (length data - 1)%nat line) in Hval by (done || lia).
    split; [congruence | done].
  - left.
    rewrite <- (Z2Nat.id r) in Hval by lia.
    rewrite (py_index_nat _ _ _ Hrow) in Hval. cbn [Csv.and_then] in Hval.
    rewrite Hread in Hval. injection Hval as <-.
    split; [done|]. exists (Z.to_nat r), row.
    split; [lia|]. split; [done|]. split; [done|].
    intros j row' Hj Hrow'. apply (Hbefore j); [lia | lia | done].
Qed.

(** X5: when [process_covid_csv_data] returns, the header has the three
    columns; the hospital and the deaths figure are each the first value
    of their column that is not 0, or 0 when the column has none; the
    cases figure is the sum of the seven rows (or fewer, at the end of the
    data) below the first row with cases, which is left out. *)
Theorem process_covid_csv_data_figures (data : list string)
    (week_cases hospital_cases total_deaths : Z) :
  Csv.process_covid_csv_data data
  = Csv.Returns (week_cases, hospital_cases, total_deaths) →
  ∃ header cases hospital deaths,
    data !! 0%nat = Some header
    ∧ Csv.list_index "newCasesBySpecimenDate" (PyStr.split_on "," header) = Some cases
    ∧ Csv.list_index "hospitalCases" (PyStr.split_on "," header) = Some hospital
    ∧ Csv.list_index "cumDailyNsoDeathsByDeathDate" (PyStr.split_on "," header)
      = Some deaths
    ∧ column_week data cases week_cases
    ∧ column_figure data hospital hospital_cases
    ∧ column_figure data deaths total_deaths.
Proof.
  unfold Csv.process_covid_csv_data. intros Hrun.
  destruct (Csv.py_index data 0) as [header|e] eqn:Hfirst; [|discriminate].
  apply py_index_zero in Hfirst. cbn [Csv.and_then] in Hrun.
  unfold Csv.index_of at 1 in Hrun.
  destruct (Csv.list_index "newCasesBySpecimenDate" (PyStr.split_on "," header))
    as [cases|] eqn:Hcases; [|discriminate].
  cbn [Csv.and_then] in Hrun.
  destruct (Csv.first_non_blank_cell data cases) as [found|e] eqn:Hfound;
    [|discriminate].
  cbn [Csv.and_then] in Hrun.
  destruct (first_non_blank_cell_spec _ _ _ Hfound)
    as [[-> Hall] | (Hr & row & v & Hrow & Hread & Hv & Hbefore)].
  { exfalso. rewrite (process_covid_csv_data_no_cases_aux data header cases) in Hrun;
      done. }
  replace (Z.to_nat (found + 1)) with (S (Z.to_nat found)) in Hrun by lia.
  destruct (Csv.sum_column (take 7 (drop (S (Z.to_nat found)) data)) cases)
    as [w|e] eqn:Hweek; [|discriminate].
  cbn [Csv.and_then] in Hrun.
  assert (Hlen : (2 ≤ length data)%nat).
  { pose proof (lookup_lt_Some _ _ _ Hrow). lia. }
  destruct (Csv.first_value data (PyStr.split_on "," header) "hospitalCases")
    as [h|e] eqn:Hh; [|discriminate].
  cbn [Csv.and_then] in Hrun.
  destruct (Csv.first_value data (PyStr.split_on "," header)
              "cumDailyNsoDeathsByDeathDate") as [d|e] eqn:Hd; [|discriminate].
  cbn [Csv.and_then] in Hrun. injection Hrun as <- <- <-.
  destruct (first_value_figure _ _ _ _ Hlen Hh) as (hospital & Hhi & Hhf).
  destruct (first_value_figure _ _ _ _ Hlen Hd) as (deaths & Hdi & Hdf).
  exists header, cases, hospital, deaths.
  split; [done|]. split; [done|]. split; [done|]. split; [done|].
  split; [| by split].
  exists (Z.to_nat found), row, v.
  split; [lia|]. split; [done|]. split; [done|]. split; [done|].
  split; [| done].
  intros j row' Hj Hrow'. apply (Hbefore j); [lia | lia | done].
Qed.

Lemma process_covid_csv_data_figures_witness :
  ∃ header cases hospital deaths,
    ["date,cumDailyNsoDeathsByDeathDate,hospitalCases,newCasesBySpecimenDate";
     "d3,,,"; "d2,,70,5"; "d1,100,69,6"; "d0,99,68,7"] !! 0%nat = Some header
    ∧ Csv.list_index "newCasesBySpecimenDate" (PyStr.split_on "," header) = Some cases
    ∧ Csv.list_index "hospitalCases" (PyStr.split_on "," header) = Some hospital
    ∧ Csv.list_index "cumDailyNsoDeathsByDeathDate" (PyStr.split_on "," header)
      = Some deaths
    ∧ column_week
        ["date,cumDailyNsoDeathsByDeathDate,hospitalCases,newCasesBySpecimenDate";
         "d3,,,"; "d2,,70,5"; "d1,100,69,6"; "d0,99,68,7"] cases 13
    ∧ column_figure
        ["date,cumDailyNsoDeathsByDeathDate,hospitalCases,newCasesBySpecimenDate";
         "d3,,,"; "d2,,70,5"; "d1,100,69,6"; "d0,99,68,7"] hospital 70
    ∧ column_figure
        ["date,cumDailyNsoDeathsByDeathDate,hospitalCases,newCasesBySpecimenDate";
         "d3,,,"; "d2,,70,5"; "d1,100,69,6"; "d0,99,68,7"] deaths 100.
Proof.
  exact (process_covid_csv_data_figures
           ["date,cumDailyNsoDeathsByDeathDate,hospitalCases,newCasesBySpecimenDate";
            "d3,,,"; "d2,,70,5"; "d1,100,69,6"; "d0,99,68,7"] 13 70 100 eq_refl).
Defined.

(** ** Storing the COVID data *)

Lemma unlines_join (rows : list string) :
  unlines rows = PyStr.join (String "010" "") (rows ++ [""]).
Proof.
  induction rows as [|row rows IH]; [done|].
  cbn [unlines]. rewrite IH.
  destruct rows as [|r rows]; reflexivity.
Qed.

Lemma removelast_snoc {A} (l : list A) (x : A) : removelast (l ++ [x]) = l.
Proof. rewrite removelast_app by done. cbn. apply app_nil_r. Qed.

(** X6: [covid_API_request] stores under the location the rows of the
    CSV text: all of them when every row, the last included, ends with a
    newline, and all but the last when the text does not end with a
    newline. It returns normally and changes nothing else but the log. *)
Theorem covid_API_request_rows (w : world) (location location_type : string)
    (rows : list string) (s : state) :
  Forall (λ row, none_of (Ascii.eqb "010") row = true) rows →
  (get_csv w location_type location = unlines rows →
   ∃ s', covid_API_request w location location_type s = (Ok tt, s')
         ∧ covid_data s' = <[location := rows]> (covid_data s)
         ∧ covid_updates s' = covid_updates s
         ∧ news_updates s' = news_updates s
         ∧ news_articles s' = news_articles s)
  ∧ (rows ≠ [] →
     get_csv w location_type location = PyStr.join (String "010" "") rows →
     ∃ s', covid_API_request w location location_type s = (Ok tt, s')
           ∧ covid_data s' = <[location := removelast rows]> (covid_data s)).
Proof.
  intros Hrows. split.
  - intros Htext. unfold covid_API_request. py_unfold. rewrite Htext.
    rewrite unlines_join, (split_on_join "010"%char).
    + rewrite removelast_snoc. eexists. split; [reflexivity|]. by cbn.
    + by destruct rows.
    + apply Forall_app. split; [done | by repeat constructor].
  - intros Hne Htext. unfold covid_API_request. py_unfold. rewrite Htext.
    rewrite (split_on_join "010"%char) by done.
    eexists. split; [reflexivity|]. by cbn.
Qed.

Lemma covid_API_request_rows_witness :
  ∃ s', covid_API_request sample_world "Exeter" "ltla" initial_state = (Ok tt, s')
        ∧ covid_data s' = <["Exeter" := ["date,newCasesBySpecimenDate"]]> ∅.
Proof.
  destruct (covid_API_request_rows sample_world "Exeter" "ltla"
              ["date,newCasesBySpecimenDate"] initial_state
              ltac:(by repeat constructor)) as [Hall _].
  destruct (Hall eq_refl) as (s' & Hrun & Hdata & _).
  exists s'. split; [exact Hrun | exact Hdata].
Defined.

(** ** Creating and removing updates *)

Lemma delay_seconds_wrapped (h m : Z) (now : DateTime.datetime) :
  delay_seconds (DateTime.mk_datetime DateTime.ordinal_1900 h m 0 0) now
  = wrapped_delay h m now.
Proof.
  unfold wrapped_delay, second_of_day, delay_seconds, DateTime.sub,
    DateTime.new_timedelta. cbn.
  rewrite <- seconds_of_day. f_equal. lia.
Qed.

(** [create_update] on a valid time and a free name, as one equation. *)
Lemma create_update_fresh_state (w : world) (h m : Z) (req : request) (s : state) :
  0 ≤ h < 24 → 0 ≤ m < 60 →
  ¬ name_taken (two req) s →
  create_update w (DateTime.hhmm h m) req s
  = (Ok tt, created_state w (DateTime.hhmm h m)
              (wrapped_delay h m (datetime_now w)) req s).
Proof.
  intros Hh Hm Hfree.
  pose proof (strptime_hhmm h m Hh Hm) as Hparse.
  assert (Hcov : ∀ s0, create_covid_update w (DateTime.hhmm h m) (two req) (repeat req) s0
                 = (Ok tt, _))
    by (intros s0; exact (create_covid_update_ok w _ (two req) (repeat req) _ s0 Hparse)).
  assert (Hnews : ∀ s0, create_news_update w (DateTime.hhmm h m) (two req) (repeat req) s0
                  = (Ok tt, _))
    by (intros s0; exact (create_news_update_ok w _ (two req) (repeat req) _ s0 Hparse)).
  cbv beta zeta in Hcov, Hnews.
  setoid_rewrite delay_seconds_wrapped in Hcov.
  setoid_rewrite delay_seconds_wrapped in Hnews.
  unfold create_update, created_state, with_update, with_event, if_requested.
  unfold bind at 1, get.
  rewrite bool_decide_eq_true_2 by (by apply union_lookup_None).
  destruct (truthy (covid_data_arg req)) eqn:Hc;
    destruct (truthy (news_arg req)) eqn:Hn; cbn [when negb andb].
  - unfold bind at 1. rewrite Hcov. unfold bind at 1. rewrite Hnews.
    unfold ret. f_equal. cbn [covid_updates covid_s news_updates news_s queue log
      covid_data news_articles blocked_articles next_sequence].
    rewrite !insert_insert_eq, app_nil_r, <- !app_assoc. reflexivity.
  - unfold bind at 1. rewrite Hcov.
    unfold bind, ret. f_equal. cbn [covid_updates covid_s news_updates news_s queue log
      covid_data news_articles blocked_articles next_sequence].
    rewrite !insert_insert_eq, !app_nil_r. reflexivity.
  - unfold bind at 1, ret at 1.
    unfold bind at 1. rewrite Hnews.
    unfold ret. f_equal. cbn [covid_updates covid_s news_updates news_s queue log
      covid_data news_articles blocked_articles next_sequence].
    rewrite !insert_insert_eq, !app_nil_r. reflexivity.
  - unfold bind, ret, logging, modify. reflexivity.
Qed.

(** X7: [create_update] with a valid "HH:MM" and a name that is in
    neither registry returns normally; for each data set asked for it
    makes exactly one entry (the time text, the repeat value, the handle)
    and arms exactly one event, and for a data set not asked for it
    changes nothing; when none is asked for, all it does is log a
    warning. *)
Theorem create_update_fresh (w : world) (h m : Z) (req : request) (s : state) :
  0 ≤ h < 24 → 0 ≤ m < 60 →
  ¬ name_taken (two req) s →
  let delay := wrapped_delay h m (datetime_now w) in
  let name := two req in
  let entry ev := mk_update (DateTime.hhmm h m) (repeat req) (Some ev) in
  ∃ s', create_update w (DateTime.hhmm h m) req s = (Ok tt, s')
        ∧ covid_updates s'
          = with_update (covid_data_arg req) name
              (entry (covid_event w delay name s)) (covid_updates s)
        ∧ queue (covid_s s')
          = queue (covid_s s)
            ++ if_requested (covid_data_arg req) [covid_event w delay name s]
        ∧ news_updates s'
          = with_update (news_arg req) name
              (entry (news_event w delay name s)) (news_updates s)
        ∧ queue (news_s s')
          = queue (news_s s)
            ++ if_requested (news_arg req) [news_event w delay name s]
        ∧ (truthy (covid_data_arg req) = false → truthy (news_arg req) = false →
           log s' = log s ++ [(WARNING, "Empty update created, request ignored.")]).
Proof.
  intros Hh Hm Hfree delay name entry.
  rewrite create_update_fresh_state by done.
  eexists. split; [reflexivity|]. unfold created_state, with_event, if_requested.
  cbn [covid_updates covid_s news_updates news_s log].
  split; [done|].
  split; [by destruct (truthy (covid_data_arg req)); [| rewrite app_nil_r]|].
  split; [done|].
  split; [by destruct (truthy (news_arg req)); [| rewrite app_nil_r]|].
  intros -> ->. reflexivity.
Qed.

Lemma create_update_fresh_witness :
  ∃ s', create_update sample_world "12:00" request_both initial_state = (Ok tt, s')
        ∧ queue (covid_s s') = [mk_event (1000 + 7200) 1 0 act_run_covid_update "daily"]
        ∧ queue (news_s s') = [mk_event (1000 + 7200) 1 0 act_update_news "daily"].
Proof.
  destruct (create_update_fresh sample_world 12 0 request_both initial_state
              ltac:(lia) ltac:(lia))
    as (s' & Hrun & _ & Hqc & _ & Hqn & _).
  { intros [[u Hu] | [u Hu]]; discriminate Hu. }
  exists s'. split; [exact Hrun|]. split; [exact Hqc | exact Hqn].
Defined.



(** *** Cancelling a handle *)

Lemma list_remove_elem (e : event) (q : list event) :
  e ∈ q → ∃ q', Sched.list_remove e q = Some q' ∧ q ≡ₚ e :: q'.
Proof.
  induction q as [|x q IH]; intros Hin; [by apply not_elem_of_nil in Hin|].
  cbn [Sched.list_remove]. destruct (decide (x = e)) as [->|Hne].
  - by eexists.
  - apply elem_of_cons in Hin as [->|Hin]; [done|].
    destruct (IH Hin) as (q' & -> & Hperm).
    eexists. split; [reflexivity|]. rewrite Hperm. apply Permutation_swap.
Qed.

Lemma list_remove_not_elem (e : event) (q : list event) :
  e ∉ q → Sched.list_remove e q = None.
Proof.
  induction q as [|x q IH]; intros Hnin; [done|].
  cbn [Sched.list_remove]. apply not_elem_of_cons in Hnin as [Hne Hnin].
  rewrite decide_False by done. by rewrite IH.
Qed.

Lemma list_remove_snoc (e : event) (q : list event) :
  e ∉ q → Sched.list_remove e (q ++ [e]) = Some q.
Proof.
  induction q as [|x q IH]; intros Hnin; cbn [Sched.list_remove app].
  - by rewrite decide_True.
  - apply not_elem_of_cons in Hnin as [Hne Hnin].
    rewrite decide_False by done. by rewrite IH.
Qed.

(** X9: [remove_update] of a COVID update whose handle is in the queue
    (and whose name is not in the news registry) returns normally, takes
    exactly one occurrence of that handle off the queue and the entry out
    of the registry, and leaves the news side and the articles alone. When
    the handle is no longer in the queue, because its event has fired, it
    raises [ValueError] and changes nothing: the entry stays. *)
Theorem remove_update_handle (name : string) (u : update) (e : event) (s : state) :
  covid_updates s !! name = Some u →
  u_update u = Some e →
  news_updates s !! name = None →
  (e ∈ queue (covid_s s) →
   ∃ s', remove_update name s = (Ok tt, s')
         ∧ covid_updates s' = delete name (covid_updates s)
         ∧ queue (covid_s s) ≡ₚ e :: queue (covid_s s')
         ∧ news_updates s' = news_updates s ∧ news_s s' = news_s s
         ∧ news_articles s' = news_articles s)
  ∧ (e ∉ queue (covid_s s) →
     remove_update name s = (Raise (ValueError "list.remove(x): x not in list"), s)).
Proof.
  intros Hu He Hn. split; intros Hq.
  - destruct (list_remove_elem e _ Hq) as (q' & Hrem & Hperm).
    unfold remove_update, get_handle, Sched.cancel. py_unfold.
    rewrite Hu, He, Hrem. rewrite bool_decide_eq_true_2 by (by eexists).
    cbn. rewrite Hn. rewrite bool_decide_eq_false_2 by (intros [? ?]; discriminate).
    eexists. split; [reflexivity|]. by cbn.
  - unfold remove_update, get_handle, Sched.cancel. py_unfold.
    rewrite Hu, He, (list_remove_not_elem e _ Hq).
    rewrite bool_decide_eq_true_2 by (by eexists). reflexivity.
Qed.

Lemma remove_update_handle_witness :
  (∃ s', remove_update "daily" sample_covid_state = (Ok tt, s')
         ∧ covid_updates s' = delete "daily" (covid_updates sample_covid_state))
  ∧ ∃ msg s1, run_covid_step later_world sample_covid_state = (Raise (TypeError msg), s1)
              ∧ remove_update "daily" s1
                = (Raise (ValueError "list.remove(x): x not in list"), s1).
Proof.
  pose (e := mk_event 8200 1 0 act_run_covid_update "daily").
  pose (u := mk_update "12:00" None (Some e)).
  split.
  - destruct (remove_update_handle "daily" u e sample_covid_state)
      as [Hin _]; [vm_compute; reflexivity | reflexivity | reflexivity |].
    destruct Hin as (s' & Hrun & Hreg & _); [by left|].
    exists s'. split; [exact Hrun | exact Hreg].
  - eexists _, _. split; [vm_compute; reflexivity|].
    match goal with |- remove_update _ ?s1 = _ =>
      destruct (remove_update_handle "daily" u e s1) as [_ Hout];
        [vm_compute; reflexivity | reflexivity | reflexivity |]
    end.
    apply Hout. cbn. apply not_elem_of_nil.
Defined.

Lemma event_fresh (sc : scheduler) (t p : Z) (a : action) (argument : string) :
  sequences_below sc →
  mk_event t p (next_sequence sc) a argument ∉ queue sc.
Proof.
  intros [Hbelow _] Hin. rewrite Forall_forall in Hbelow.
  specialize (Hbelow _ Hin). cbn in Hbelow. lia.
Qed.

Lemma remove_update_halves (name : string) (s : state) :
  remove_update name s = (remove_covid_update name >> remove_news_update name) s.
Proof. reflexivity. Qed.

Lemma remove_covid_update_absent (name : string) (s : state) :
  covid_updates s !! name = None → remove_covid_update name s = (Ok tt, s).
Proof.
  intros Hu. unfold remove_covid_update. py_unfold. rewrite Hu.
  by rewrite bool_decide_eq_false_2 by (intros [? ?]; discriminate).
Qed.

Lemma remove_news_update_absent (name : string) (s : state) :
  news_updates s !! name = None → remove_news_update name s = (Ok tt, s).
Proof.
  intros Hu. unfold remove_news_update. py_unfold. rewrite Hu.
  by rewrite bool_decide_eq_false_2 by (intros [? ?]; discriminate).
Qed.

Lemma remove_covid_update_found (name : string) (u : update) (e : event)
    (q : list event) (s : state) :
  covid_updates s !! name = Some u → u_update u = Some e →
  Sched.list_remove e (queue (covid_s s)) = Some q →
  remove_covid_update name s
  = (Ok tt,
     mk_state (covid_data s) (delete name (covid_updates s))
       (mk_scheduler q (next_sequence (covid_s s)))
       (news_articles s) (blocked_articles s) (news_updates s) (news_s s)
       (log s ++ [(INFO, "COVID update '" +:+ name +:+ "' removed.")])).
Proof.
  intros Hu He Hq. unfold remove_covid_update, get_handle, Sched.cancel. py_unfold.
  rewrite Hu, He, Hq. by rewrite bool_decide_eq_true_2 by (by eexists).
Qed.

Lemma remove_news_update_found (name : string) (u : update) (e : event)
    (q : list event) (s : state) :
  news_updates s !! name = Some u → u_update u = Some e →
  Sched.list_remove e (queue (news_s s)) = Some q →
  remove_news_update name s
  = (Ok tt,
     mk_state (covid_data s) (covid_updates s) (covid_s s)
       (news_articles s) (blocked_articles s) (delete name (news_updates s))
       (mk_scheduler q (next_sequence (news_s s)))
       (log s ++ [(INFO, "News update '" +:+ name +:+ "' removed.")])).
Proof.
  intros Hu He Hq. unfold remove_news_update, get_handle, Sched.cancel. py_unfold.
  rewrite Hu, He, Hq. by rewrite bool_decide_eq_true_2 by (by eexists).
Qed.

(** X10: creating an update and then removing it undoes the creation:
    from a state whose queues hold sequence numbers below their counters,
    [create_update] with a valid time and a free name followed by
    [remove_update] of that name both return normally and leave both
    registries, both queues, the articles and the COVID data as they were
    before. *)
Theorem create_then_remove (w : world) (h m : Z) (req : request) (s : state) :
  0 ≤ h < 24 → 0 ≤ m < 60 →
  ¬ name_taken (two req) s →
  sequences_below (covid_s s) → sequences_below (news_s s) →
  ∃ s1 s2,
    create_update w (DateTime.hhmm h m) req s = (Ok tt, s1)
    ∧ remove_update (two req) s1 = (Ok tt, s2)
    ∧ covid_updates s2 = covid_updates s ∧ news_updates s2 = news_updates s
    ∧ queue (covid_s s2) = queue (covid_s s) ∧ queue (news_s s2) = queue (news_s s)
    ∧ news_articles s2 = news_articles s ∧ blocked_articles s2 = blocked_articles s
    ∧ covid_data s2 = covid_data s.
Proof.
  intros Hh Hm Hfree Hbc Hbn.
  assert (Hc0 : covid_updates s !! two req = None).
  { apply eq_None_not_Some. intros H. apply Hfree. by left. }
  assert (Hn0 : news_updates s !! two req = None).
  { apply eq_None_not_Some. intros H. apply Hfree. by right. }
  pose proof (event_fresh (covid_s s)
                (time_time w + wrapped_delay h m (datetime_now w)) 1
                act_run_covid_update (two req) Hbc) as Hec.
  pose proof (event_fresh (news_s s)
                (time_time w + wrapped_delay h m (datetime_now w)) 1
                act_update_news (two req) Hbn) as Hen.
  destruct (truthy (covid_data_arg req)) eqn:Hc;
    destruct (truthy (news_arg req)) eqn:Hn;
    (eexists _, _; split; [by apply create_update_fresh_state|]);
    rewrite remove_update_halves; unfold bind at 1;
    unfold created_state, with_update, with_event; rewrite Hc, Hn.
  - erewrite remove_covid_update_found;
      [| cbn; apply lookup_insert_eq | reflexivity | cbn; by apply list_remove_snoc].
    erewrite remove_news_update_found;
      [| cbn; apply lookup_insert_eq | reflexivity | cbn; by apply list_remove_snoc].
    split; [reflexivity|]. cbn. rewrite !delete_insert_id by done. done.
  - erewrite remove_covid_update_found;
      [| cbn; apply lookup_insert_eq | reflexivity | cbn; by apply list_remove_snoc].
    rewrite remove_news_update_absent by done.
    split; [reflexivity|]. cbn. rewrite !delete_insert_id by done. done.
  - rewrite remove_covid_update_absent by done.
    erewrite remove_news_update_found;
      [| cbn; apply lookup_insert_eq | reflexivity | cbn; by apply list_remove_snoc].
    split; [reflexivity|]. cbn. rewrite !delete_insert_id by done. done.
  - rewrite remove_covid_update_absent by done.
    rewrite remove_news_update_absent by done.
    split; [reflexivity|]. done.
Qed.

Lemma create_then_remove_witness :
  ∃ s1 s2,
    create_update sample_world "12:00" request_both initial_state = (Ok tt, s1)
    ∧ remove_update "daily" s1 = (Ok tt, s2)
    ∧ covid_updates s2 = ∅ ∧ news_updates s2 = ∅
    ∧ queue (covid_s s2) = [] ∧ queue (news_s s2) = [].
Proof.
  destruct (create_then_remove sample_world 12 0 request_both initial_state
              ltac:(lia) ltac:(lia))
    as (s1 & s2 & Hc & Hr & H1 & H2 & H3 & H4 & _).
  { intros [[u Hu] | [u Hu]]; discriminate Hu. }
  { split; constructor. }
  { split; constructor. }
  exists s1, s2. repeat split; assumption.
Defined.

(** ** The sequence numbers of the queues *)

Lemma sequences_enter (sc : scheduler) (t p : Z) (a : action) (x : string) :
  sequences_below sc →
  sequences_below
    (mk_scheduler (queue sc ++ [mk_event t p (next_sequence sc) a x])
                  (S (next_sequence sc))).
Proof.
  intros [Hbelow Hnd]. split; cbn.
  - apply Forall_app. split.
    + eapply Forall_impl; [exact Hbelow|]. cbn. intros e He. lia.
    + constructor; [cbn; lia | constructor].
  - rewrite fmap_app. apply NoDup_app. split; [done|]. split; [| apply NoDup_singleton].
    intros n Hn Hn'. cbn in Hn'. apply list_elem_of_singleton in Hn' as ->.
    apply list_elem_of_fmap in Hn as (e & He & Hin).
    rewrite Forall_forall in Hbelow. specialize (Hbelow _ Hin). lia.
Qed.

Lemma sequences_sublist (sc : scheduler) (q : list event) :
  sequences_below sc → q `sublist_of` queue sc →
  sequences_below (mk_scheduler q (next_sequence sc)).
Proof.
  intros [Hbelow Hnd] Hsub. split; cbn.
  - rewrite Forall_forall in *. intros e He. apply Hbelow.
    by eapply elem_of_sublist.
  - eapply sublist_NoDup; [exact Hnd|]. by apply fmap_sublist.
Qed.

Lemma list_remove_sublist (e : event) (q q' : list event) :
  Sched.list_remove e q = Some q' → q' `sublist_of` q.
Proof.
  revert q'. induction q as [|x q IH]; intros q' Hrem; cbn in Hrem; [discriminate|].
  destruct (decide (x = e)).
  - injection Hrem as <-. by apply sublist_cons.
  - destruct (Sched.list_remove e q) as [r|]; [|discriminate].
    injection Hrem as <-. apply sublist_skip. by apply IH.
Qed.

Lemma sequences_pop (e : event) (sc : scheduler) :
  sequences_below sc → sequences_below (Sched.pop e sc).
Proof.
  intros Hb. unfold Sched.pop.
  destruct (Sched.list_remove e (queue sc)) as [q|] eqn:Hrem; [|done].
  apply sequences_sublist; [done|]. by eapply list_remove_sublist.
Qed.

Lemma sequences_cancel (e : event) (sc sc' : scheduler) :
  Sched.cancel e sc = Ok sc' → sequences_below sc → sequences_below sc'.
Proof.
  unfold Sched.cancel.
  destruct (Sched.list_remove e (queue sc)) as [q|] eqn:Hrem; [|discriminate].
  intros [= <-] Hb. apply sequences_sublist; [done|]. by eapply list_remove_sublist.
Qed.

Lemma schedule_covid_updates_sched w delay name s :
  covid_s (schedule_covid_updates w delay name s).2
  = mk_scheduler (queue (covid_s s) ++ [covid_event w delay name s])
                 (S (next_sequence (covid_s s)))
  ∧ news_s (schedule_covid_updates w delay name s).2 = news_s s.
Proof.
  destruct (covid_updates s !! name) as [u|] eqn:Hu.
  - by rewrite (schedule_covid_updates_present _ _ _ u).
  - by rewrite schedule_covid_updates_absent.
Qed.

Lemma schedule_news_updates_sched w delay name s :
  news_s (schedule_news_updates w delay name s).2
  = mk_scheduler (queue (news_s s) ++ [news_event w delay name s])
                 (S (next_sequence (news_s s)))
  ∧ covid_s (schedule_news_updates w delay name s).2 = covid_s s.
Proof.
  destruct (news_updates s !! name) as [u|] eqn:Hu.
  - by rewrite (schedule_news_updates_present _ _ _ u).
  - by rewrite schedule_news_updates_absent.
Qed.

Lemma run_covid_update_below w name s :
  both_below s → both_below (run_covid_update w name s).2.
Proof.
  intros [Hc Hn]. unfold both_below.
  pose proof (run_covid_update_effect w name s) as (_ & _ & _ & Hns & _).
  cbv zeta in Hns. rewrite Hns. split; [|done]. clear Hns.
  unfold run_covid_update, covid_API_request, getitem. py_unfold. cbn.
  destruct (covid_updates s !! name) as [u|] eqn:Hu; cbn; [|done].
  destruct (truthy (u_repeats u)); cbn; [|done].
  unfold bind. erewrite schedule_covid_updates_present by (cbn; exact Hu). cbn.
  by apply sequences_enter.
Qed.

Lemma settle_news_update_below w name s :
  both_below s → both_below (settle_news_update w name s).2.
Proof.
  intros [Hc Hn]. unfold both_below.
  pose proof (settle_news_update_effect w name s) as (_ & _ & Hcs & _).
  cbv zeta in Hcs. rewrite Hcs. split; [done|]. clear Hcs.
  unfold settle_news_update. py_unfold.
  destruct name as [name|]; cbn; [|done].
  destruct (news_updates s !! name) as [u|] eqn:Hu; cbn.
  - destruct (truthy (u_repeats u)); cbn; [|done].
    unfold bind. rewrite (schedule_news_updates_present _ _ _ u) by done. cbn.
    by apply sequences_enter.
  - by destruct (negb (String.eqb name "")).
Qed.

Lemma update_news_below w name s :
  both_below s → both_below (update_news w name s).2.
Proof.
  intros Hb. unfold update_news, bind.
  pose proof (refresh_articles_effect w s) as [(_ & _ & Hcs & _ & _ & Hns) _].
  cbv zeta in *.
  destruct (refresh_articles w s) as [[[]|e] s1]; cbn [snd] in *.
  - apply settle_news_update_below. unfold both_below. by rewrite Hcs, Hns.
  - unfold both_below. by rewrite Hcs, Hns.
Qed.

Lemma create_covid_update_below w t name repeats s :
  both_below s → both_below (create_covid_update w t name repeats s).2.
Proof.
  intros [Hc Hn]. destruct (DateTime.strptime_HM t) as [target|] eqn:Ht.
  - rewrite (create_covid_update_ok _ _ _ _ target) by done. split; cbn; [|done].
    by apply sequences_enter.
  - by rewrite create_covid_update_bad_time.
Qed.

Lemma create_news_update_below w t name repeats s :
  both_below s → both_below (create_news_update w t name repeats s).2.
Proof.
  intros [Hc Hn]. destruct (DateTime.strptime_HM t) as [target|] eqn:Ht.
  - rewrite (create_news_update_ok _ _ _ _ target) by done. split; cbn; [done|].
    by apply sequences_enter.
  - by rewrite create_news_update_bad_time.
Qed.

Lemma create_update_below w t req s :
  both_below s → both_below (create_update w t req s).2.
Proof.
  intros Hb. unfold create_update. unfold bind at 1, get.
  case_bool_decide; [| done].
  unfold bind at 1.
  assert (H1 : both_below
                 (when (truthy (covid_data_arg req))
                    (create_covid_update w t (two req) (repeat req)) s).2).
  { destruct (truthy (covid_data_arg req)); [| done].
    by apply create_covid_update_below. }
  destruct (when (truthy (covid_data_arg req))
              (create_covid_update w t (two req) (repeat req)) s) as [[[]|e] s1];
    cbn [snd] in *; [| done].
  unfold bind at 1.
  assert (H2 : both_below
                 (when (truthy (news_arg req))
                    (create_news_update w t (two req) (repeat req)) s1).2).
  { destruct (truthy (news_arg req)); [| done].
    by apply create_news_update_below. }
  destruct (when (truthy (news_arg req))
              (create_news_update w t (two req) (repeat req)) s1) as [[[]|e] s2];
    cbn [snd] in *; [| done].
  by destruct (negb (truthy (covid_data_arg req)) && negb (truthy (news_arg req))).
Qed.

Lemma remove_update_below name s :
  both_below s → both_below (remove_update name s).2.
Proof.
  intros [Hc Hn]. rewrite remove_update_halves. unfold bind at 1.
  assert (H1 : both_below (remove_covid_update name s).2).
  { unfold remove_covid_update. py_unfold. case_bool_decide; [| done].
    destruct (get_handle (covid_updates s) name) as [e|x]; cbn; [|done].
    destruct (Sched.cancel e (covid_s s)) as [sc|x] eqn:Hcancel; cbn; [|done].
    split; [by eapply sequences_cancel | done]. }
  destruct (remove_covid_update name s) as [[[]|x] s1]; cbn [snd] in *; [| done].
  destruct H1 as [Hc1 Hn1].
  unfold remove_news_update. py_unfold. case_bool_decide; [| done].
  destruct (get_handle (news_updates s1) name) as [e|x]; cbn; [|done].
  destruct (Sched.cancel e (news_s s1)) as [sc|x] eqn:Hcancel; cbn; [|done].
  split; [done | by eapply sequences_cancel].
Qed.

Lemma call_action_below w a argument s :
  both_below s → both_below (call_action w a argument s).2.
Proof.
  intros Hb. unfold call_action.
  destruct a; destruct (PyStr.chars argument) as [|x [|y l]]; try done.
  - by apply run_covid_update_below.
  - by apply update_news_below.
  - by apply update_news_below.
Qed.

Lemma run_covid_step_below w s :
  both_below s → both_below (run_covid_step w s).2.
Proof.
  intros [Hc Hn]. unfold run_covid_step, run_step. unfold bind at 1, get.
  destruct (Sched.head (queue (covid_s s))) as [e|]; [| done].
  destruct (time_time w <? ev_time e); [done|].
  unfold bind at 1, modify.
  assert (H1 : both_below (call_action w (ev_action e) (ev_argument e)
                             (set_covid_s (Sched.pop e) s)).2).
  { apply call_action_below. split; cbn; [by apply sequences_pop | done]. }
  unfold bind, ret.
  by destruct (call_action w (ev_action e) (ev_argument e)
                 (set_covid_s (Sched.pop e) s)) as [[[]|x] s1].
Qed.

Lemma run_news_step_below w s :
  both_below s → both_below (run_news_step w s).2.
Proof.
  intros [Hc Hn]. unfold run_news_step, run_step. unfold bind at 1, get.
  destruct (Sched.head (queue (news_s s))) as [e|]; [| done].
  destruct (time_time w <? ev_time e); [done|].
  unfold bind at 1, modify.
  assert (H1 : both_below (call_action w (ev_action e) (ev_argument e)
                             (set_news_s (Sched.pop e) s)).2).
  { apply call_action_below. split; cbn; [done | by apply sequences_pop]. }
  unfold bind, ret.
  by destruct (call_action w (ev_action e) (ev_argument e)
                 (set_news_s (Sched.pop e) s)) as [[[]|x] s1].
Qed.

(** X11: in every reachable state the events of either queue carry
    sequence numbers below the counter of their scheduler and different
    from each other; hence no handle is in a queue twice, and the handle
    [remove_update] cancels is one event only. *)
Theorem sequences_in_order (s : state) :
  reachable s →
  both_below s ∧ NoDup (queue (covid_s s)) ∧ NoDup (queue (news_s s)).
Proof.
  intros Hreach.
  assert (Hb : both_below s).
  { induction Hreach as [|s w o Hreach IH _].
    - split; split; constructor.
    - destruct o as [t req|name|title|name|name| |]; cbn [exec].
      + by apply create_update_below.
      + by apply remove_update_below.
      + by rewrite block_article_spec.
      + by apply run_covid_update_below.
      + by apply update_news_below.
      + rewrite bind_ret_snd. by apply run_covid_step_below.
      + rewrite bind_ret_snd. by apply run_news_step_below. }
  split; [done|]. destruct Hb as [[_ Hc] [_ Hn]].
  split; eapply NoDup_fmap_1; eassumption.
Qed.

Lemma sequences_in_order_witness :
  reachable sample_covid_state
  ∧ both_below sample_covid_state
  ∧ NoDup (queue (covid_s sample_covid_state)).
Proof.
  assert (Hr : reachable sample_covid_state).
  { apply reach_exec; [apply reach_initial | exact I]. }
  destruct (sequences_in_order _ Hr) as (Hb & Hc & _).
  split; [exact Hr|]. split; [exact Hb | exact Hc].
Defined.

(** ** Turns of the scheduler *)

Lemma head_elem (q : list event) (e : event) : Sched.head q = Some e → e ∈ q.
Proof.
  revert e. induction q as [|x q IH]; intros e He; cbn in He; [discriminate|].
  destruct (Sched.head q) as [m|].
  - destruct (Sched.event_le x m); injection He as <-;
      [by left | right; by apply IH].
  - injection He as <-. by left.
Qed.

Lemma list_remove_NoDup (e : event) (q : list event) :
  NoDup q → e ∈ q → ∃ q', Sched.list_remove e q = Some q' ∧ e ∉ q'.
Proof.
  induction q as [|x q IH]; intros Hnd Hin; [by apply not_elem_of_nil in Hin|].
  apply NoDup_cons in Hnd as [Hx Hnd]. cbn [Sched.list_remove].
  destruct (decide (x = e)) as [->|Hne]; [by eexists|].
  apply elem_of_cons in Hin as [->|Hin]; [done|].
  destruct (IH Hnd Hin) as (q' & -> & Hq'). eexists. split; [reflexivity|].
  by apply not_elem_of_cons.
Qed.

(** X12: an event that is not due is not fired: when every event of a
    queue is due later than the clock says, the turn of the scheduler
    returns without firing and the state is as before. *)
Theorem run_step_not_early (w : world) (s : state) :
  (Forall (λ e, time_time w < ev_time e) (queue (covid_s s)) →
   run_covid_step w s = (Ok false, s))
  ∧ (Forall (λ e, time_time w < ev_time e) (queue (news_s s)) →
     run_news_step w s = (Ok false, s)).
Proof.
  split; intros Hlate; unfold run_covid_step, run_news_step, run_step;
    unfold bind, get, ret.
  - destruct (Sched.head (queue (covid_s s))) as [e|] eqn:Hhead; [|done].
    rewrite Forall_forall in Hlate. specialize (Hlate _ (head_elem _ _ Hhead)).
    by destruct (Z.ltb_spec (time_time w) (ev_time e)) as [_|?]; [|lia].
  - destruct (Sched.head (queue (news_s s))) as [e|] eqn:Hhead; [|done].
    rewrite Forall_forall in Hlate. specialize (Hlate _ (head_elem _ _ Hhead)).
    by destruct (Z.ltb_spec (time_time w) (ev_time e)) as [_|?]; [|lia].
Qed.

Lemma run_step_not_early_witness :
  run_covid_step sample_world sample_covid_state = (Ok false, sample_covid_state).
Proof.
  destruct (run_step_not_early sample_world sample_covid_state) as [Hc _].
  apply Hc. repeat constructor.
Defined.

(** X13: a COVID update whose name has two characters or more never runs.
    When its event is the next of the COVID queue and due, the turn of the
    scheduler takes the event off the queue and raises [TypeError], the
    action being called with one argument per character; registries,
    articles and COVID data are as before, and from then on
    [remove_update] of that name raises [ValueError], its handle being in
    no queue. *)
Theorem long_name_never_runs (w : world) (name : string) (u : update) (e : event)
    (s : state) :
  (2 ≤ length (PyStr.chars name))%nat →
  covid_updates s !! name = Some u → u_update u = Some e →
  ev_argument e = name →
  Sched.head (queue (covid_s s)) = Some e → ev_time e ≤ time_time w →
  NoDup (queue (covid_s s)) →
  ∃ msg s1,
    run_covid_step w s = (Raise (TypeError msg), s1)
    ∧ covid_updates s1 = covid_updates s ∧ news_updates s1 = news_updates s
    ∧ news_articles s1 = news_articles s ∧ covid_data s1 = covid_data s
    ∧ (e ∉ queue (covid_s s1))
    ∧ remove_update name s1 = (Raise (ValueError "list.remove(x): x not in list"), s1).
Proof.
  intros Hlong Hu He Harg Hhead Hdue Hnd.
  destruct (list_remove_NoDup e _ Hnd (head_elem _ _ Hhead)) as (q' & Hrem & Hq').
  assert (Hcall : ∀ s0, ∃ msg, call_action w (ev_action e) (ev_argument e) s0
                               = (Raise (TypeError msg), s0)).
  { intros s0. rewrite Harg. unfold call_action.
    destruct (PyStr.chars name) as [|x [|y l]]; [cbn in Hlong; lia ..|].
    destruct (ev_action e); eexists; reflexivity. }
  destruct (Hcall (set_covid_s (Sched.pop e) s)) as [msg Hmsg].
  exists msg, (set_covid_s (Sched.pop e) s).
  split.
  { unfold run_covid_step, run_step. unfold bind at 1, get. rewrite Hhead.
    destruct (Z.ltb_spec (time_time w) (ev_time e)) as [?|_]; [lia|].
    unfold bind at 1, modify. unfold bind. by rewrite Hmsg. }
  split; [done|]. split; [done|]. split; [done|]. split; [done|].
  assert (Hq : queue (covid_s (set_covid_s (Sched.pop e) s)) = q').
  { cbn. unfold Sched.pop. by rewrite Hrem. }
  split; [by rewrite Hq|].
  unfold remove_update, get_handle, Sched.cancel. py_unfold.
  rewrite Hu, He. rewrite bool_decide_eq_true_2 by (by eexists).
  unfold Sched.pop. rewrite Hrem. cbn [queue].
  by rewrite (list_remove_not_elem e q' Hq').
Qed.

Lemma long_name_never_runs_witness :
  ∃ msg s1,
    run_covid_step later_world sample_covid_state = (Raise (TypeError msg), s1)
    ∧ covid_updates s1 = covid_updates sample_covid_state
    ∧ remove_update "daily" s1
      = (Raise (ValueError "list.remove(x): x not in list"), s1).
Proof.
  destruct (long_name_never_runs later_world "daily"
              (mk_update "12:00" None (Some (mk_event 8200 1 0 act_run_covid_update "daily")))
              (mk_event 8200 1 0 act_run_covid_update "daily")
              sample_covid_state)
    as (msg & s1 & Hrun & Hreg & _ & _ & _ & _ & Hrem).
  - cbn. lia.
  - vm_compute. reflexivity.
  - reflexivity.
  - reflexivity.
  - vm_compute. reflexivity.
  - cbn. lia.
  - cbn. apply NoDup_singleton.
  - exists msg, s1. split; [exact Hrun|]. split; [exact Hreg | exact Hrem].
Defined.

(** ** Filtering the headlines *)

Lemma lower_char_idem (c : ascii) :
  PyStr.lower_char (PyStr.lower_char c) = PyStr.lower_char c.
Proof. destruct c as [[] [] [] [] [] [] [] []]; vm_compute; reflexivity. Qed.

Lemma isspace_lower_char (c : ascii) :
  PyStr.isspace (PyStr.lower_char c) = PyStr.isspace c.
Proof. destruct c as [[] [] [] [] [] [] [] []]; vm_compute; reflexivity. Qed.

Lemma lower_idem (s : string) : PyStr.lower (PyStr.lower s) = PyStr.lower s.
Proof.
  induction s as [|c s IH]; [done|]. cbn [PyStr.lower].
  by rewrite lower_char_idem, IH.
Qed.

Lemma lower_rev_app (x cur : string) :
  PyStr.lower (String.rev_app x cur)
  = String.rev_app (PyStr.lower x) (PyStr.lower cur).
Proof.
  revert cur. induction x as [|c x IH]; intros cur; [done|].
  cbn [String.rev_app PyStr.lower]. by rewrite IH.
Qed.

Lemma lower_rev (x : string) : PyStr.lower (String.rev x) = String.rev (PyStr.lower x).
Proof. unfold String.rev. by rewrite lower_rev_app. Qed.

Lemma lower_empty (x : string) : String.eqb (PyStr.lower x) "" = String.eqb x "".
Proof. by destruct x. Qed.

Lemma split_go_lower (cur s : string) :
  PyStr.split_go PyStr.isspace false (PyStr.lower cur) (PyStr.lower s)
  = PyStr.lower <$> PyStr.split_go PyStr.isspace false cur s.
Proof.
  revert cur. induction s as [|c s IH]; intros cur; cbn [PyStr.lower PyStr.split_go orb].
  - rewrite lower_empty. destruct (negb (String.eqb cur "")); [|done].
    rewrite fmap_cons. by rewrite lower_rev.
  - rewrite isspace_lower_char. destruct (PyStr.isspace c).
    + pose proof (IH "") as IH0. cbn [PyStr.lower] in IH0. rewrite IH0.
      rewrite lower_empty.
      destruct (negb (String.eqb cur "")); [|done].
      rewrite fmap_cons. by rewrite lower_rev.
    + change (String (PyStr.lower_char c) (PyStr.lower cur))
        with (PyStr.lower (String c cur)). apply IH.
Qed.

Lemma split_lower (s : string) :
  PyStr.split (PyStr.lower s) = PyStr.lower <$> PyStr.split s.
Proof. apply (split_go_lower "" s). Qed.

(** X14: the search terms are matched without regard to case: two texts
    of search terms that agree once put in lower case select the same
    articles, and raise alike. *)
Theorem filter_articles_case (articles : list raw_article) (terms terms' : string) :
  PyStr.lower terms = PyStr.lower terms' →
  filter_articles articles terms = filter_articles articles terms'.
Proof.
  intros Hlow.
  assert (Hkey : ∀ t title,
    existsb (λ term, PyStr.contains (PyStr.lower term) title) (PyStr.split t)
    = existsb (λ term, PyStr.contains term title) (PyStr.split (PyStr.lower t))).
  { intros t title. rewrite split_lower.
    induction (PyStr.split t) as [|x l IH]; [done|]. cbn. by rewrite IH. }
  induction articles as [|a articles IH]; [done|]. cbn [filter_articles].
  destruct (lower_title a) as [title|e]; [|done].
  by rewrite IH, (Hkey terms), (Hkey terms'), Hlow.
Qed.

Lemma filter_articles_case_witness :
  filter_articles test_articles "IMPORTANT" = filter_articles test_articles "important".
Proof. exact (filter_articles_case test_articles "IMPORTANT" "important" eq_refl). Defined.

(** ** Formatting an article *)

Lemma rev_app_nonempty (x cur : string) : cur ≠ "" → String.rev_app x cur ≠ "".
Proof.
  revert cur. induction x as [|c x IH]; intros cur Hcur; [done|].
  cbn [String.rev_app]. by apply IH.
Qed.

Lemma rev_nonempty (x : string) : x ≠ "" → String.rev x ≠ "".
Proof.
  destruct x as [|c x]; [done|]. intros _. unfold String.rev. cbn [String.rev_app].
  by apply rev_app_nonempty.
Qed.

Lemma eqb_empty_false (x : string) : x ≠ "" → String.eqb x "" = false.
Proof. by destruct x. Qed.

(** The words [split] gives are words. *)
Lemma split_go_wordlike (cur s : string) :
  none_of PyStr.isspace cur = true →
  Forall wordlike (PyStr.split_go PyStr.isspace false cur s).
Proof.
  assert (Hemit : ∀ cur rest, none_of PyStr.isspace cur = true →
            Forall wordlike rest →
            Forall wordlike (if false || negb (String.eqb cur "")
                             then String.rev cur :: rest else rest)).
  { intros c r Hc Hr. destruct (String.eqb_spec c "") as [->|Hne]; [done|].
    cbn. constructor; [|done]. split; [by apply rev_nonempty|].
    by rewrite none_of_rev. }
  revert cur. induction s as [|c s IH]; intros cur Hcur; cbn [PyStr.split_go].
  - by apply Hemit.
  - destruct (PyStr.isspace c) eqn:Hc.
    + apply Hemit; [done|]. by apply IH.
    + apply IH. cbn [none_of]. by rewrite Hc, Hcur.
Qed.

Lemma split_wordlike (s : string) : Forall wordlike (PyStr.split s).
Proof. by apply split_go_wordlike. Qed.

(** Splitting undoes joining words with a space. *)
Lemma split_join_words (ws : list string) :
  Forall wordlike ws → PyStr.split (PyStr.join " " ws) = ws.
Proof.
  unfold PyStr.split. induction 1 as [|x l [Hne Hx] Hall IH]; [done|].
  assert (Hcur : String.eqb (String.rev_app x "") "" = false).
  { apply eqb_empty_false. destruct x as [|c x]; [done|].
    cbn [String.rev_app]. by apply rev_app_nonempty. }
  destruct l as [|y l].
  - cbn [PyStr.join]. rewrite <- (append_empty_r x) at 1.
    rewrite split_go_piece by done. cbn [PyStr.split_go orb].
    rewrite Hcur. cbn [negb]. by rewrite rev_rev_app.
  - change (PyStr.join " " (x :: y :: l))
      with (x +:+ String " " (PyStr.join " " (y :: l))).
    rewrite split_go_piece by done. cbn [PyStr.split_go].
    change (PyStr.isspace " ") with true. cbv iota. cbn [orb].
    rewrite Hcur. cbn [negb]. rewrite rev_rev_app.
    change (String.rev "") with "". rewrite append_nil. f_equal. exact IH.
Qed.

Lemma join_snoc_words (ws : list string) (x tail : string) :
  PyStr.join " " (ws ++ [x]) +:+ tail = PyStr.join " " (ws ++ [x +:+ tail]).
Proof.
  induction ws as [|w ws IH]; [done|].
  destruct ws as [|w' ws].
  - cbn [app PyStr.join]. by rewrite !append_assoc.
  - change (PyStr.join " " ((w :: w' :: ws) ++ [x]))
      with (w +:+ " " +:+ PyStr.join " " ((w' :: ws) ++ [x])).
    change (PyStr.join " " ((w :: w' :: ws) ++ [x +:+ tail]))
      with (w +:+ " " +:+ PyStr.join " " ((w' :: ws) ++ [x +:+ tail])).
    rewrite <- IH. by rewrite !append_assoc.
Qed.

Lemma join_app_words (ws vs : list string) :
  ws ≠ [] → vs ≠ [] →
  PyStr.join " " (ws ++ vs) = PyStr.join " " ws +:+ " " +:+ PyStr.join " " vs.
Proof.
  intros Hws Hvs. induction ws as [|w ws IH]; [done|].
  destruct ws as [|w' ws].
  - destruct vs; [done|]. reflexivity.
  - change (PyStr.join " " ((w :: w' :: ws) ++ vs))
      with (w +:+ " " +:+ PyStr.join " " ((w' :: ws) ++ vs)).
    rewrite IH by done.
    change (PyStr.join " " (w :: w' :: ws))
      with (w +:+ " " +:+ PyStr.join " " (w' :: ws)).
    by rewrite !append_assoc.
Qed.

(** The three words of the link, for a URL without white space. *)
Lemma link_words (url : pyval) :
  none_of PyStr.isspace (py_str url) = true →
  ∃ mid, Forall wordlike ["<a"; mid; "Here]</a>"]
         ∧ link_to url = PyStr.join " " ["<a"; mid; "Here]</a>"].
Proof.
  intros Hurl. exists ("href='" +:+ py_str url +:+ "'>[Click"). split.
  - repeat constructor; try done.
    rewrite !none_of_append, Hurl. reflexivity.
  - unfold link_to. cbn [PyStr.join]. rewrite !append_assoc. reflexivity.
Qed.

(** X15: an article with the keys "title", "url" and "content" is
    formatted without error and keeps its title; when the URL holds no
    white space, the content has three words with falsy content (the
    link alone), and otherwise the words of the description, twenty at
    most and counted as one when there is none, and the three of the link:
    never more than 23 words. *)
Theorem format_article_words (a : raw_article) (title url content : pyval) :
  a !! "title" = Some title → a !! "url" = Some url → a !! "content" = Some content →
  none_of PyStr.isspace (py_str url) = true →
  ∃ text,
    format_article a = Ok (mk_article title text)
    ∧ length (PyStr.split text)
      = (if pyval_truthy content
         then (length (take 20%nat (PyStr.split (py_str content))) `max` 1 + 3)%nat
         else 3%nat)
    ∧ (length (PyStr.split text) ≤ 23)%nat.
Proof.
  intros Ht Hu Hc Hurl. unfold format_article. rewrite Ht, Hu, Hc.
  fold (link_to url).
  destruct (link_words url Hurl) as (mid & Hlw & Hlink).
  destruct (pyval_truthy content).
  - eexists. split; [reflexivity|].
    pose proof (split_wordlike (py_str content)) as Hall.
    apply (Forall_take 20%nat) in Hall || apply (Forall_take _ 20%nat) in Hall.
    pose proof (length_take (PyStr.split (py_str content)) 20%nat) as Hlen.
    destruct (take 20%nat (PyStr.split (py_str content))) as [|w ws] eqn:Hws
      using rev_ind.
    + change (PyStr.join " " []) with "". rewrite append_nil.
      change ("... " +:+ link_to url) with ("..." +:+ " " +:+ link_to url).
      rewrite Hlink.
      change ("..." +:+ " " +:+ PyStr.join " " ["<a"; mid; "Here]</a>"])
        with (PyStr.join " " ["..."; "<a"; mid; "Here]</a>"]).
      rewrite split_join_words by (constructor; [done | exact Hlw]).
      cbn; lia.
    + clear IHws.
      change ("... " +:+ link_to url) with ("..." +:+ (" " +:+ link_to url)).
      rewrite <- append_assoc, join_snoc_words, Hlink.
      rewrite <- (join_app_words (ws ++ [w +:+ "..."]) ["<a"; mid; "Here]</a>"])
        by (try done; by destruct ws).
      apply Forall_app in Hall as [Hws' Hw]. apply Forall_singleton in Hw as [Hne Hw].
      rewrite split_join_words.
      * rewrite !length_app in *. cbn [length] in *. lia.
      * apply Forall_app. split; [| exact Hlw].
        apply Forall_app. split; [done|]. constructor; [|done].
        split; [by destruct w | by rewrite none_of_append, Hw].
  - eexists. split; [reflexivity|]. rewrite Hlink.
    rewrite split_join_words by done. cbn. lia.
Qed.

Lemma format_article_words_witness :
  ∃ text,
    format_article (api_article "Test" "one two three" "https://google.co.uk")
    = Ok (mk_article (PStr "Test") text)
    ∧ length (PyStr.split text) = 6%nat.
Proof.
  destruct (format_article_words
              (api_article "Test" "one two three" "https://google.co.uk")
              (PStr "Test") (PStr "https://google.co.uk") (PStr "one two three")
              eq_refl eq_refl eq_refl eq_refl) as (text & Hrun & Hlen & _).
  exists text. split; [exact Hrun | exact Hlen].
Defined.

(** ** Refreshing twice *)

Lemma ingest_article_settles (a : raw_article) (s s1 : state) :
  ingest_article a s = (Ok tt, s1) →
  (∃ fa, format_article a = Ok fa ∧ settled fa s1)
  ∧ (∀ fa, settled fa s → settled fa s1).
Proof.
  unfold ingest_article, settled. py_unfold.
  destruct (format_article a) as [fa|e]; cbn; [|done].
  case_bool_decide as Hin; cbn.
  { intros [= <-]. split; [exists fa; auto | auto]. }
  destruct (is_blocked (a_title fa) (blocked_articles s)) eqn:Hb; cbn.
  { intros [= <-]. split; [exists fa; auto | auto]. }
  intros [= <-]. cbn. split.
  - exists fa. split; [done|]. left. apply elem_of_app. right. by apply list_elem_of_singleton.
  - intros fb [Hfb | Hfb]; [left | by right]. apply elem_of_app. by left.
Qed.

Lemma ingest_article_settled (a : raw_article) (fa : article) (s : state) :
  format_article a = Ok fa → settled fa s → ingest_article a s = (Ok tt, s).
Proof.
  intros Hfa Hs. unfold ingest_article. py_unfold. rewrite Hfa. cbn.
  destruct Hs as [Hin | Hb].
  - by rewrite bool_decide_eq_true_2.
  - rewrite Hb. by rewrite andb_false_r.
Qed.

Lemma for_each_ingest_settles (l : list raw_article) (s s1 : state) :
  for_each l ingest_article s = (Ok tt, s1) →
  Forall (λ a, ∃ fa, format_article a = Ok fa ∧ settled fa s1) l
  ∧ (∀ fa, settled fa s → settled fa s1).
Proof.
  revert s. induction l as [|a l IH]; intros s; cbn [for_each].
  - intros [= <-]. by split.
  - unfold bind. destruct (ingest_article a s) as [[[]|e] s0] eqn:Hone; [|done].
    intros Hrest. apply ingest_article_settles in Hone as [(fa & Hfa & Hs) Hmono].
    apply IH in Hrest as [Hall Hmono']. split; [|by auto].
    constructor; [|done]. exists fa. split; [done|]. by apply Hmono'.
Qed.

Lemma for_each_ingest_settled (l : list raw_article) (s : state) :
  Forall (λ a, ∃ fa, format_article a = Ok fa ∧ settled fa s) l →
  for_each l ingest_article s = (Ok tt, s).
Proof.
  induction 1 as [|a l (fa & Hfa & Hs) _ IH]; [done|].
  cbn [for_each]. unfold bind. by rewrite (ingest_article_settled a fa s).
Qed.

(** The answer of the fetch does not depend on the state. *)
Lemma news_API_request_ok (w : world) (terms : string) (s s1 : state)
    (l : list raw_article) :
  news_API_request w terms s = (Ok l, s1) →
  s1 = request_logged s
  ∧ ∀ s', news_API_request w terms s' = (Ok l, request_logged s').
Proof.
  unfold news_API_request, request_logged. py_unfold.
  destruct (String.eqb (news_API_key w) unset_key); cbn; [done|].
  destruct (response_articles w) as [r|]; cbn; [|done].
  destruct (filter_articles r terms) as [f|e]; cbn; [|done].
  destruct (length f =? 0)%nat; intros [= <- <-]; done.
Qed.

(** X16: once a refresh of the articles has returned normally, a second
    one with the same answer of the news API returns normally too and
    stores nothing: the state is as before but for the one line that
    announces the request in the log. *)
Theorem refresh_articles_twice (w : world) (s s1 : state) :
  refresh_articles w s = (Ok tt, s1) →
  refresh_articles w s1 = (Ok tt, request_logged s1).
Proof.
  unfold refresh_articles, bind.
  destruct (news_API_request w (news_search_terms w) s) as [[l|e] s0] eqn:Hreq;
    [|done].
  apply news_API_request_ok in Hreq as [-> Hany]. rewrite (Hany s1).
  intros Hloop. apply for_each_ingest_settles in Hloop as [Hall _].
  apply for_each_ingest_settled.
  eapply Forall_impl; [exact Hall|]. intros a (fa & Hfa & Hs). by exists fa.
Qed.

Lemma refresh_articles_twice_witness :
  ∃ s1, refresh_articles sample_world initial_state = (Ok tt, s1)
        ∧ refresh_articles sample_world s1 = (Ok tt, request_logged s1).
Proof.
  eexists. split; [vm_compute; reflexivity|].
  apply (refresh_articles_twice sample_world initial_state). vm_compute. reflexivity.
Defined.

(** ** What blocking a title removes *)

Lemma block_skip_counts (title : string) (l : list article) :
  filter (λ a, a_title a ≠ PStr title) (block_skip title l)
  = filter (λ a, a_title a ≠ PStr title) l
  ∧ (2 * length (filter (λ a, a_title a = PStr title) (block_skip title l))
     ≤ length (filter (λ a, a_title a = PStr title) l))%nat.
Proof.
  assert (H : ∀ n l, (length l ≤ n)%nat →
            filter (λ a, a_title a ≠ PStr title) (block_skip title l)
            = filter (λ a, a_title a ≠ PStr title) l
            ∧ (2 * length (filter (λ a, a_title a = PStr title) (block_skip title l))
               ≤ length (filter (λ a, a_title a = PStr title) l))%nat).
  { clear l. induction n as [|n IH]; intros [|a l] Hlen;
      [by cbn | cbn in Hlen; lia | by cbn |].
    cbn [block_skip]. cbn in Hlen. case_bool_decide as Ha.
    - rewrite (filter_cons_False _ a) by (intros Hne; by apply Hne).
      rewrite (filter_cons_True _ a) by done.
      destruct l as [|b l]; [cbn; split; [done | lia]|].
      cbn in Hlen. destruct (IH l ltac:(lia)) as [Hoth Hsame].
      destruct (decide (a_title b = PStr title)) as [Hb|Hb].
      + rewrite !(filter_cons_False (λ a, a_title a ≠ PStr title) b)
          by (intros Hne; by apply Hne).
        rewrite !(filter_cons_True (λ a, a_title a = PStr title) b) by done.
        split; [done|]. cbn [length]. lia.
      + rewrite !(filter_cons_True (λ a, a_title a ≠ PStr title) b) by done.
        rewrite !(filter_cons_False (λ a, a_title a = PStr title) b) by done.
        split; [by rewrite Hoth|]. cbn [length]. lia.
    - destruct (IH l ltac:(lia)) as [Hoth Hsame].
      rewrite !(filter_cons_True (λ a, a_title a ≠ PStr title) a) by congruence.
      rewrite !(filter_cons_False (λ a, a_title a = PStr title) a) by congruence.
      split; [by rewrite Hoth | done]. }
  by apply (H (length l)).
Qed.

(** X17: [block_article] returns normally for every title and every
    state; it keeps the stored articles of every other title, in their
    order, and of the stored articles of the blocked title at most every
    second one is left. Nothing but the article list, the list of blocked
    titles and the log changes. *)
Theorem block_article_others_kept (title : string) (s : state) :
  ∃ s', block_article title s = (Ok tt, s')
        ∧ filter (λ a, a_title a ≠ PStr title) (news_articles s')
          = filter (λ a, a_title a ≠ PStr title) (news_articles s)
        ∧ (2 * length (filter (λ a, a_title a = PStr title) (news_articles s'))
           ≤ length (filter (λ a, a_title a = PStr title) (news_articles s)))%nat
        ∧ blocked_articles s' = blocked_articles s ++ [title]
        ∧ covid_data s' = covid_data s ∧ covid_updates s' = covid_updates s
        ∧ covid_s s' = covid_s s ∧ news_updates s' = news_updates s
        ∧ news_s s' = news_s s.
Proof.
  eexists. split; [apply block_article_spec|]. cbn.
  destruct (block_skip_counts title (news_articles s)) as [Hoth Hsame].
  repeat split; done.
Qed.

(** ** The configuration *)

(** The two tables of [validate_field] have the nine fields as keys, and
    every default has the class expected of its field. *)
Lemma config_tables (field : string) :
  field ∈ Config.known_fields →
  ∃ t d, Config.expected_types !! field = Some t
         ∧ Config.default_values !! field = Some d
         ∧ Config.isinstance d t = true.
Proof.
  unfold Config.known_fields. rewrite !elem_of_cons, elem_of_nil.
  intros [->|[->|[->|[->|[->|[->|[->|[->|[->|[]]]]]]]]]];
    eexists _, _; (split; [vm_compute; reflexivity|]);
    (split; [vm_compute; reflexivity|]); reflexivity.
Qed.

Lemma config_unknown (field : string) :
  field ∉ Config.known_fields → Config.expected_types !! field = None.
Proof.
  intros Hnot. apply not_elem_of_list_to_map_1. exact Hnot.
Qed.

(** What [validate_field] does for one of the nine fields. *)
Lemma validate_field_kinds (field : string) (value : Config.json) :
  field ∈ Config.known_fields →
  ∃ t v records,
    Config.expected field t
    ∧ Config.validate_field field value = (Ok v, records)
    ∧ Config.isinstance v t = true
    ∧ (if Config.isinstance value t
       then v = value ∧ records = []
       else Config.default_values !! field = Some v
            ∧ ∃ first, records
                       = [first;
                          (WARNING, "Invalid config value '%s' replaced with '%s'",
                           [value; v])]
                       ∧ first.1.1 = WARNING).
Proof.
  intros Hf. destruct (config_tables field Hf) as (t & d & Ht & Hd & Hdt).
  unfold Config.validate_field, Config.expected. rewrite Ht.
  destruct (Config.isinstance value t) eqn:Hv.
  - exists t, value, []. by rewrite Hv.
  - rewrite Hd. exists t, d. eexists. rewrite Hv.
    split; [done|]. split; [reflexivity|]. split; [done|]. split; [done|].
    eexists. split; [reflexivity | done].
Qed.

Lemma read_config_known (members : gmap string Config.json) (fields : list string) :
  Forall (λ field, field ∈ Config.known_fields ∧ is_Some (members !! field)) fields →
  ∃ values records,
    Config.read_config (Config.JDict members) fields = (Ok values, records).
Proof.
  induction 1 as [|field fields [Hf [value Hm]] _ (values & records & Hrest)].
  - by exists [], [].
  - destruct (validate_field_kinds field value Hf) as (t & v & recs & _ & Hrun & _).
    cbn [Config.read_config Config.subscript]. rewrite Hm, Hrun, Hrest. eauto.
Qed.

(** X18: for each of the nine fields of the configuration
    [validate_field] returns normally a value of the class expected of
    the field: the value it was given, with nothing logged, when that is
    of the class (a JSON true or false counts as an int), and otherwise
    the default of the field, after two warnings; the second warning
    carries the refused value and the default. *)
Theorem validate_field_typed (field : string) (value : Config.json) :
  field ∈ Config.known_fields →
  ∃ t v records,
    Config.expected field t
    ∧ Config.validate_field field value = (Ok v, records)
    ∧ Config.isinstance v t = true
    ∧ (if Config.isinstance value t
       then v = value ∧ records = []
       else Config.default_values !! field = Some v
            ∧ ∃ first, records
                       = [first;
                          (WARNING, "Invalid config value '%s' replaced with '%s'",
                           [value; v])]
                       ∧ first.1.1 = WARNING).
Proof.
  intros Hf. destruct (config_tables field Hf) as (t & d & Ht & Hd & Hdt).
  exists t. unfold Config.validate_field, Config.expected. rewrite Ht.
  destruct (Config.isinstance value t) eqn:Hv.
  - by exists value, [].
  - rewrite Hd. exists d. eexists.
    split; [done|]. split; [reflexivity|]. split; [exact Hdt|]. split; [done|].
    eexists. split; [reflexivity | done].
Qed.

Lemma validate_field_typed_witness :
  ∃ t v records,
    Config.expected "news_update_interval_seconds" t
    ∧ Config.validate_field "news_update_interval_seconds" (Config.JStr "3600")
      = (Ok v, records)
    ∧ Config.isinstance v t = true
    ∧ v = Config.JInt 86400 ∧ length records = 2%nat.
Proof.
  destruct (validate_field_typed "news_update_interval_seconds" (Config.JStr "3600"))
    as (t & v & records & Ht & Hrun & Hv & Hpost).
  { unfold Config.known_fields. rewrite !elem_of_cons. tauto. }
  assert (Ht' : t = Config.py_type_int).
  { unfold Config.expected in Ht. vm_compute in Ht. congruence. }
  subst t. cbn in Hpost. destruct Hpost as [Hd (first & -> & _)].
  vm_compute in Hd. injection Hd as <-.
  exists Config.py_type_int, (Config.JInt 86400). eexists.
  split; [exact Ht|]. split; [exact Hrun|]. done.
Defined.

(** X19: a field that is none of the nine makes [validate_field] raise
    KeyError, whatever the value, before anything is logged; so does
    [read_config] when such a field is asked for first and config.json
    has it. *)
Theorem validate_field_unknown (field : string) (value : Config.json)
    (members : gmap string Config.json) (fields : list string) :
  field ∉ Config.known_fields →
  members !! field = Some value →
  Config.validate_field field value = (Raise (KeyError field), [])
  ∧ Config.read_config (Config.JDict members) (field :: fields)
    = (Raise (KeyError field), []).
Proof.
  intros Hf Hm. apply config_unknown in Hf.
  assert (Hv : Config.validate_field field value = (Raise (KeyError field), []))
    by (unfold Config.validate_field; by rewrite Hf).
  split; [done|]. cbn [Config.read_config Config.subscript].
  by rewrite Hm, Hv.
Qed.

Lemma validate_field_unknown_witness :
  Config.validate_field "dashboard_colour" (Config.JStr "red")
  = (Raise (KeyError "dashboard_colour"), [])
  ∧ Config.read_config
      (Config.JDict {[ "dashboard_colour" := Config.JStr "red" ]})
      ["dashboard_colour"; "covid_nation"]
    = (Raise (KeyError "dashboard_colour"), []).
Proof.
  apply (validate_field_unknown "dashboard_colour" (Config.JStr "red")
           {[ "dashboard_colour" := Config.JStr "red" ]} ["covid_nation"]).
  - unfold Config.known_fields. rewrite !elem_of_cons, elem_of_nil.
    intros H. repeat (destruct H as [H|H]; [discriminate H|]). exact H.
  - vm_compute. reflexivity.
Defined.

(** X20: when config.json holds an object with every field asked for,
    and each is one of the nine, [read_config] returns normally one value
    for each field, in the order asked, each of the class expected of its
    field and each either what the file holds or the default of the
    field; two warnings are logged for each value of another class. *)
Theorem read_config_typed (members : gmap string Config.json) (fields : list string) :
  Forall (λ field, field ∈ Config.known_fields ∧ is_Some (members !! field)) fields →
  ∃ values records,
    Config.read_config (Config.JDict members) fields = (Ok values, records)
    ∧ Forall2 (λ field v,
                 (∃ t, Config.expected field t ∧ Config.isinstance v t = true)
                 ∧ (members !! field = Some v
                    ∨ Config.default_values !! field = Some v))
              fields values
    ∧ length records = (2 * length (filter (refused_field members) fields))%nat
    ∧ Forall (λ r, r.1.1 = WARNING) records.
Proof.
  induction 1 as [|field fields [Hf [value Hm]] _ IH].
  - exists [], []. by repeat split.
  - destruct IH as (values & records & Hrest & Hall & Hlen & Hwarn).
    destruct (validate_field_kinds field value Hf)
      as (t & v & recs & Ht & Hrun & Hv & Hpost).
    cbn [Config.read_config Config.subscript]. rewrite Hm, Hrun, Hrest.
    exists (v :: values), (recs ++ records). split; [done|].
    unfold Config.expected in Ht.
    destruct (Config.isinstance value t) eqn:Hval.
    + destruct Hpost as [-> ->]. split; [|split].
      * constructor; [|done]. split; [by exists t | by left].
      * rewrite filter_cons_False; [done|].
        unfold refused_field. rewrite Hm, Ht. congruence.
      * done.
    + destruct Hpost as [Hd (first & -> & Hfirst)]. split; [|split].
      * constructor; [|done]. split; [by exists t | by right].
      * rewrite filter_cons_True; [cbn [length app]; lia|].
        unfold refused_field. by rewrite Hm, Ht, Hval.
      * by repeat constructor.
Qed.

Lemma read_config_typed_witness :
  ∃ values records,
    Config.read_config sample_config ["news_country_code"; "news_API_key"]
    = (Ok values, records)
    ∧ values = [Config.JStr "gb"; Config.JStr ""]
    ∧ length records = 2%nat.
Proof.
  destruct (read_config_typed
              {[ "news_country_code" := Config.JStr "gb";
                 "news_API_key" := Config.JNull ]}
              ["news_country_code"; "news_API_key"])
    as (values & records & Hrun & _ & Hlen & _).
  { repeat constructor; try (by eexists; vm_compute);
      unfold Config.known_fields; rewrite !elem_of_cons; tauto. }
  exists values, records. split; [exact Hrun|].
  vm_compute in Hrun. injection Hrun as <- <-. done.
Defined.

(** X21: [read_config] raises KeyError for the first field asked for
    that config.json lacks, when the fields before it are there and among
    the nine; and TypeError for any field when config.json holds anything
    but an object. *)
Theorem read_config_missing (members : gmap string Config.json)
    (before after : list string) (field : string) :
  Forall (λ f, f ∈ Config.known_fields ∧ is_Some (members !! f)) before →
  members !! field = None →
  (∃ records,
     Config.read_config (Config.JDict members) (before ++ field :: after)
     = (Raise (KeyError field), records))
  ∧ ∀ config, (∀ m, config ≠ Config.JDict m) →
      ∃ msg, Config.read_config config (before ++ field :: after)
             = (Raise (TypeError msg), []).
Proof.
  intros Hbefore Hm. split.
  - destruct (read_config_known members before Hbefore) as (values & records & Hrun).
    exists records. revert values records Hrun.
    induction before as [|f before IH]; intros values records Hrun.
    + cbn [app Config.read_config Config.subscript]. rewrite Hm.
      cbn in Hrun. by injection Hrun as <- <-.
    + apply Forall_cons in Hbefore as [_ Hbefore].
      cbn [app Config.read_config] in *.
      destruct (Config.subscript (Config.JDict members) f) as [value|e]; [|done].
      destruct (Config.validate_field f value) as [[v|e] recs]; [|done].
      destruct (Config.read_config (Config.JDict members) before)
        as [[vs|e] recs'] eqn:Hb; [|done].
      injection Hrun as <- <-.
      by rewrite (IH Hbefore vs recs' eq_refl).
  - intros config Hc. destruct before as [|f before]; cbn [app Config.read_config];
      destruct config; try (eexists; reflexivity); by destruct (Hc members0).
Qed.

Lemma read_config_missing_witness :
  ∃ records,
    Config.read_config sample_config ["news_country_code"; "covid_nation"; "news_API_key"]
    = (Raise (KeyError "covid_nation"), records).
Proof.
  apply (read_config_missing
           {[ "news_country_code" := Config.JStr "gb";
              "news_API_key" := Config.JNull ]}
           ["news_country_code"] ["news_API_key"] "covid_nation").
  - constructor; [|constructor]. split.
    + unfold Config.known_fields. rewrite !elem_of_cons. tauto.
    + eexists. vm_compute. reflexivity.
  - vm_compute. reflexivity.
Defined.

(** ** The list of updates *)

Lemma odict_setitem_new {V} (d : Updates.odict V) (k : string) (v : V) :
  k ∉ Updates.keys d → Updates.setitem d k v = d ++ [(k, v)].
Proof.
  induction d as [|[k' v'] d IH]; [done|]. cbn. intros Hk.
  apply not_elem_of_cons in Hk as [Hne Hk].
  rewrite decide_False by done. by rewrite IH.
Qed.

Lemma odict_setitem_old {V} (d : Updates.odict V) (k : string) (v : V) :
  k ∈ Updates.keys d → NoDup (Updates.keys d) →
  Updates.setitem d k v
  = (λ item, if decide (item.1 = k) then (item.1, v) else item) <$> d.
Proof.
  induction d as [|[k' v'] d IH]; [by intros ?%elem_of_nil|].
  cbn. intros Hk Hnd. apply NoDup_cons in Hnd as [Hnin Hnd].
  destruct (decide (k' = k)) as [->|Hne].
  - f_equal. clear IH Hk Hnd. induction d as [|[k2 v2] d IH]; [done|].
    cbn in *. apply not_elem_of_cons in Hnin as [Hne Hnin].
    rewrite decide_False by done. by rewrite <- IH.
  - apply elem_of_cons in Hk as [->|Hk]; [done|]. by rewrite IH.
Qed.

Lemma odict_get_None {V} (d : Updates.odict V) (k : string) :
  k ∉ Updates.keys d → Updates.get d k = None.
Proof.
  induction d as [|[k' v'] d IH]; [done|]. cbn. intros Hk.
  apply not_elem_of_cons in Hk as [Hne Hk].
  rewrite decide_False by done. by apply IH.
Qed.

Lemma filter_iff_in {A} (P1 P2 : A → Prop)
    `{!∀ x, Decision (P1 x), !∀ x, Decision (P2 x)} (l : list A) :
  Forall (λ x, P1 x ↔ P2 x) l → filter P1 l = filter P2 l.
Proof.
  induction 1 as [|a l Ha _ IH]; [done|].
  destruct (decide (P1 a)).
  - rewrite !filter_cons_True by tauto. by rewrite IH.
  - rewrite !filter_cons_False by tauto. by rewrite IH.
Qed.

(** Unpacking [d] into [acc]: the items of [acc] stay in place, with the
    values [d] has for them, and the other items of [d] follow. *)
Lemma odict_unpack {V} (d acc : Updates.odict V) :
  NoDup (Updates.keys d) → NoDup (Updates.keys acc) →
  Updates.unpack acc d
  = (Updates.overridden d <$> acc)
    ++ filter (λ item, item.1 ∉ Updates.keys acc) d.
Proof.
  unfold Updates.unpack. revert acc.
  induction d as [|[k v] d IH]; intros acc Hd Hacc.
  - cbn. rewrite app_nil_r. symmetry. rewrite <- (list_fmap_id acc) at 2.
    apply list_fmap_ext. by intros _ [k v] _.
  - cbn [foldl fst snd]. cbn in Hd. apply NoDup_cons in Hd as [Hk Hd].
    destruct (decide (k ∈ Updates.keys acc)) as [Hin|Hnin].
    + rewrite odict_setitem_old by done.
      set (acc' := _ <$> acc).
      assert (Hkeys : Updates.keys acc' = Updates.keys acc).
      { unfold acc', Updates.keys. rewrite <- list_fmap_compose.
        apply list_fmap_ext. intros _ [k1 v1] _. cbn. by destruct (decide (k1 = k)). }
      rewrite IH by (by rewrite ?Hkeys). rewrite Hkeys.
      rewrite filter_cons_False by (cbn; by intros Hn).
      f_equal. unfold acc'. rewrite <- list_fmap_compose.
      apply list_fmap_ext. intros _ [k1 v1] _. unfold Updates.overridden. cbn.
      destruct (decide (k1 = k)) as [->|Hne]; cbn.
      * rewrite decide_True by done. by rewrite odict_get_None.
      * by rewrite decide_False by done.
    + rewrite odict_setitem_new by done.
      assert (Hacc' : NoDup (Updates.keys (acc ++ [(k, v)]))).
      { unfold Updates.keys. rewrite fmap_app. apply NoDup_app.
        split; [done|]. split; [|apply NoDup_singleton].
        intros x Hx Hx'. apply list_elem_of_singleton in Hx'. by subst. }
      rewrite IH by done. rewrite filter_cons_True by done.
      rewrite fmap_app, <- app_assoc. f_equal.
      * apply list_fmap_ext. intros i [k1 v1] Hl. unfold Updates.overridden. cbn.
        destruct (decide (k = k1)) as [->|Hne]; [|done].
        exfalso. apply Hnin. apply list_elem_of_fmap. exists (k1, v1).
        split; [done|]. by eapply list_elem_of_lookup_2.
      * cbn [fmap list_fmap app]. unfold Updates.overridden at 1. cbn [fst snd].
        rewrite odict_get_None by done. cbn. f_equal.
        apply filter_iff_in. apply Forall_forall. intros [k1 v1] Hx. cbn.
        unfold Updates.keys. rewrite fmap_app, elem_of_app. cbn.
        rewrite list_elem_of_singleton. split; [tauto|].
        intros Hn [Ha | Heq]; [done|]. subst k1. apply Hk.
        apply list_elem_of_fmap. by exists (k, v1).
Qed.

Lemma odict_merge {V} (a b : Updates.odict V) :
  NoDup (Updates.keys a) → NoDup (Updates.keys b) →
  Updates.merge a b
  = (Updates.overridden b <$> a) ++ filter (λ item, item.1 ∉ Updates.keys a) b.
Proof.
  intros Ha Hb. unfold Updates.merge.
  assert (Hcopy : Updates.unpack [] a = a).
  { rewrite odict_unpack by (done || constructor). cbn.
    clear Ha. induction a as [|x a IH]; [done|].
    rewrite filter_cons_True by apply not_elem_of_nil. by rewrite IH. }
  rewrite Hcopy. by apply odict_unpack.
Qed.

(** The loop appends one row for each item. *)
Lemma add_rows (covid news : Updates.odict update) (items : Updates.odict update)
    (rows : list Updates.row) :
  foldl (Updates.add_row covid news) rows items
  = rows ++ ((λ item, Updates.mk_row item.1
                        (format_update item.2 (Updates.has_key covid item.1)
                           (Updates.has_key news item.1))) <$> items).
Proof.
  revert rows. induction items as [|[k u] items IH]; intros rows.
  - by rewrite app_nil_r.
  - cbn [foldl]. rewrite IH. unfold Updates.add_row.
    assert (Hin : Updates.name_in k rows = false).
    { unfold Updates.name_in. clear. by induction rows. }
    rewrite Hin. cbn. by rewrite <- app_assoc.
Qed.

(** X22: [format_updates] throws the old list away and gives one row
    for each name: first the names of the COVID registry in its order,
    then the names only the news registry has, in its order; no title
    comes twice. The row of a name both registries have is written from
    the entry of the news registry and says Covid & News. *)
Theorem format_updates_rows (covid news : Updates.odict update)
    (old : list Updates.row) :
  NoDup (Updates.keys covid) → NoDup (Updates.keys news) →
  Updates.format_updates covid news old
  = (Updates.covid_row news <$> covid)
    ++ (Updates.news_row <$> filter (λ item, item.1 ∉ Updates.keys covid) news)
  ∧ NoDup (Updates.r_title <$> Updates.format_updates covid news old).
Proof.
  intros Hc Hn.
  assert (Heq : Updates.format_updates covid news old
                = (Updates.covid_row news <$> covid)
                  ++ (Updates.news_row
                        <$> filter (λ item, item.1 ∉ Updates.keys covid) news)).
  { unfold Updates.format_updates. cbv zeta.
    rewrite add_rows, odict_merge by done. cbn [app].
    rewrite fmap_app, <- !list_fmap_compose. f_equal.
    - apply list_fmap_ext. intros i [k u] Hl.
      unfold Updates.covid_row, Updates.overridden, compose. cbn [fst snd].
      assert (Hk : Updates.has_key covid k = true).
      { apply bool_decide_eq_true_2. apply list_elem_of_fmap.
        exists (k, u). split; [done|]. by eapply list_elem_of_lookup_2. }
      by rewrite Hk.
    - apply list_fmap_ext. intros i [k u] Hl.
      apply list_elem_of_lookup_2, list_elem_of_filter in Hl as [Hnot Hin].
      cbn [fst] in Hnot.
      unfold Updates.news_row, compose. cbn [fst snd].
      assert (Hk : Updates.has_key covid k = false)
        by (by apply bool_decide_eq_false_2).
      assert (Hk' : Updates.has_key news k = true).
      { apply bool_decide_eq_true_2. apply list_elem_of_fmap. by exists (k, u). }
      by rewrite Hk, Hk'. }
  split; [exact Heq|]. rewrite Heq, fmap_app, <- !list_fmap_compose.
  apply NoDup_app. split; [exact Hc|]. split.
  - intros x Hx Hx'. apply list_elem_of_fmap in Hx' as ([k u] & -> & Hin).
    apply list_elem_of_filter in Hin as [Hnot _]. by apply Hnot.
  - eapply sublist_NoDup; [exact Hn|]. unfold Updates.keys.
    apply fmap_sublist. apply sublist_filter.
Qed.

Lemma format_updates_rows_witness :
  Updates.format_updates
    [("morning", mk_update "08:00" (Some "repeat") None);
     ("noon", mk_update "12:00" None None)]
    [("evening", mk_update "18:00" None None);
     ("noon", mk_update "12:00" None None)]
    [Updates.mk_row "left over" ""]
  = [Updates.mk_row "morning" "08:00, Updates Covid, Repeats";
     Updates.mk_row "noon" "12:00, Updates Covid & News, Doesn't Repeat";
     Updates.mk_row "evening" "18:00, Updates News, Doesn't Repeat"].
Proof.
  destruct (format_updates_rows
              [("morning", mk_update "08:00" (Some "repeat") None);
               ("noon", mk_update "12:00" None None)]
              [("evening", mk_update "18:00" None None);
               ("noon", mk_update "12:00" None None)]
              [Updates.mk_row "left over" ""]) as [Heq _].
  - cbn. repeat (constructor; [set_solver|]). constructor.
  - cbn. repeat (constructor; [set_solver|]). constructor.
  - rewrite Heq. vm_compute. reflexivity.
Defined.
